(** * The userspace datapath (lib/dpif-netdev.c) and the GRE vport
      (datapath/vport-gre.c): a shallow embedding and its properties.

    The embedding follows the non-THREADED build of dpif-netdev.c: one
    thread of control, every function a state transformer; where a
    property depends on the build, the function has both branches.  C integers are
    mathematical integers with the reduction of their type written out;
    the data model is LP64 (int 32 bits, long and long long 64 bits). *)

From stdpp Require Import gmap strings list.
From Stdlib Require Import ZArith Lia.
From Stdlib.Strings Require Import Byte Ascii.

Set Warnings "-register-all".
Local Open Scope Z_scope.

(** ** Machine integers *)

(** [unsigned int] and [uint32_t]: arithmetic modulo 2^32. *)
Definition uint32 (z : Z) : Z := z mod 2 ^ 32.

(** [uint8_t]: the value modulo 2^8. *)
Definition uint8 (z : Z) : Z := z mod 2 ^ 8.

(** [int]: the value modulo 2^32 that lies in [-2^31, 2^31). *)
Definition to_int (z : Z) : Z := (z + 2 ^ 31) mod 2 ^ 32 - 2 ^ 31.

(** [long long int] (and [long]): the value modulo 2^64 in [-2^63, 2^63).
    An increment at LLONG_MAX is undefined in C; the embedding takes the
    two's-complement result, and every statement about "+ 1" carries the
    bound that keeps the C operation defined. *)
Definition to_llong (z : Z) : Z := (z + 2 ^ 63) mod 2 ^ 64 - 2 ^ 63.

Definition UINT32_MAX : Z := 4294967295.
Definition UINT16_MAX : Z := 65535.
Definition LLONG_MAX : Z := 9223372036854775807.
Definition LONG_MAX : Z := 9223372036854775807.

(** ** Configuration parameters (dpif-netdev.c, lines 78-89) *)

Definition MAX_PORTS : Z := 256.
Definition MAX_FLOWS : Z := 65536.
Definition N_QUEUES : Z := 2.
Definition MAX_QUEUE_LEN : Z := 128.
Definition QUEUE_MASK : Z := MAX_QUEUE_LEN - 1.

(** Modelled from the spec: packets.h is not among the sources.  An Ethernet
    header is 14 bytes, a VLAN header 4 bytes. *)
Definition ETH_HEADER_LEN : Z := 14.
Definition VLAN_HEADER_LEN : Z := 4.
Definition DP_NETDEV_HEADROOM : Z := 2 + VLAN_HEADER_LEN.

(** Modelled from the spec: the port numbers of openflow.h and odp.h.
    [OVSP_LOCAL] is port 0; [OFPP_LOCAL] and [OFPP_NONE] are the two reserved
    16-bit numbers accepted in flow keys, [OFPP_MAX] the first reserved one. *)
Definition OVSP_LOCAL : Z := 0.
Definition OFPP_MAX : Z := 65280.
Definition OFPP_LOCAL : Z := 65534.
Definition OFPP_NONE : Z := 65535.

(** Modelled from the spec: the flag bits of [struct dpif_flow_put]
    (dpif.h), three distinct bits. *)
Definition DPIF_FP_CREATE : Z := 1.
Definition DPIF_FP_MODIFY : Z := 2.
Definition DPIF_FP_ZERO_STATS : Z := 4.

(** ** Error numbers

    Functions return [int]: 0 on success, a positive errno otherwise.  The
    numbers are those of Linux; only that they differ and are not 0 is
    used.  The spec's names: INVALID = EINVAL, TOO_BIG = EFBIG,
    BUSY = EBUSY, NO_BUFFER = ENOBUFS, RETRY = EAGAIN, NO_ENTRY = ENOENT,
    EXISTS = EEXIST. *)
Definition ENOENT : Z := 2.
Definition EAGAIN : Z := 11.
Definition EBUSY : Z := 16.
Definition EEXIST : Z := 17.
Definition ENODEV : Z := 19.
Definition EINVAL : Z := 22.
Definition EFBIG : Z := 27.
Definition EOPNOTSUPP : Z := 95.
Definition ENOBUFS : Z := 105.

(** ** Faults

    What C leaves undefined, or answers with [abort()], ends the run of the
    embedding with a [Fault]. *)
Inductive fault : Type :=
| OUT_OF_BOUNDS     (* an array indexed outside its declared length *)
| NULL_DEREFERENCE  (* a null pointer handed to an accessor *)
| NOT_REACHED.      (* the NOT_REACHED() macro: abort *)

Inductive outcome (A : Type) : Type :=
| Done (a : A)
| Fault (f : fault).
Arguments Done {A} a.
Arguments Fault {A} f.

Definition bind {A B : Type} (k : A -> outcome B) (m : outcome A) : outcome B :=
  match m with
  | Done a => k a
  | Fault f => Fault f
  end.

#[global] Instance outcome_ret : MRet outcome := @Done.
#[global] Instance outcome_bind : MBind outcome := @bind.

(** ** Packets and attributes *)

(** The bytes between [data] and [data + size] of a [struct ofpbuf]. *)
Definition ofpbuf : Type := list byte.

Definition ofpbuf_size (b : ofpbuf) : Z := Z.of_nat (length b).

#[global] Instance byte_eq_dec : EqDecision byte := Byte.byte_eq_dec.

(** A serialized attribute stream ([struct nlattr *] with its length). *)
Definition nlattrs : Type := list byte.

Inductive odp_key_fitness : Type :=
| ODP_FIT_PERFECT
| ODP_FIT_TOO_MUCH
| ODP_FIT_TOO_LITTLE
| ODP_FIT_ERROR.

(** The argument of a SET action, by [enum ovs_key_attr]. *)
Inductive ovs_key : Type :=
| OVS_KEY_ATTR_PRIORITY
| OVS_KEY_ATTR_SKB_MARK
| OVS_KEY_ATTR_TUNNEL
| OVS_KEY_ATTR_ETHERNET (eth_src eth_dst : list byte)
| OVS_KEY_ATTR_IPV4 (ipv4_src ipv4_dst ipv4_tos ipv4_ttl : Z)
| OVS_KEY_ATTR_IPV6 (ipv6_proto : Z) (ipv6_src ipv6_dst : list byte)
                    (ipv6_tclass ipv6_label ipv6_hlimit : Z)
| OVS_KEY_ATTR_TCP (tcp_src tcp_dst : Z)
| OVS_KEY_ATTR_UDP (udp_src udp_dst : Z)
| OVS_KEY_ATTR_MPLS (lse : Z)
| OVS_KEY_ATTR_UNSPEC
| OVS_KEY_ATTR_ENCAP
| OVS_KEY_ATTR_ETHERTYPE
| OVS_KEY_ATTR_IN_PORT
| OVS_KEY_ATTR_VLAN
| OVS_KEY_ATTR_ICMP
| OVS_KEY_ATTR_ICMPV6
| OVS_KEY_ATTR_ARP
| OVS_KEY_ATTR_ND
| OVS_KEY_ATTR_MAX
| OVS_KEY_ATTR_other (type : Z).

(** The attributes nested in a SAMPLE action, by [enum ovs_sample_attr]. *)
Inductive sample_attr (A : Type) : Type :=
| OVS_SAMPLE_ATTR_PROBABILITY (probability : Z)
| OVS_SAMPLE_ATTR_ACTIONS (subactions : list A)
| OVS_SAMPLE_ATTR_UNSPEC
| OVS_SAMPLE_ATTR_MAX
| OVS_SAMPLE_ATTR_other (type : Z).
Arguments OVS_SAMPLE_ATTR_PROBABILITY {A} probability.
Arguments OVS_SAMPLE_ATTR_ACTIONS {A} subactions.
Arguments OVS_SAMPLE_ATTR_UNSPEC {A}.
Arguments OVS_SAMPLE_ATTR_MAX {A}.
Arguments OVS_SAMPLE_ATTR_other {A} type.

(** One attribute of an action stream, by [enum ovs_action_attr].  A type
    outside the enumeration matches no [case] of the engine's [switch]. *)
Inductive action : Type :=
| OVS_ACTION_ATTR_OUTPUT (port : Z)
| OVS_ACTION_ATTR_USERSPACE (userdata : option nlattrs)
| OVS_ACTION_ATTR_PUSH_VLAN (vlan_tci : Z)
| OVS_ACTION_ATTR_POP_VLAN
| OVS_ACTION_ATTR_PUSH_MPLS (mpls_ethertype mpls_lse : Z)
| OVS_ACTION_ATTR_POP_MPLS (ethertype : Z)
| OVS_ACTION_ATTR_SET (a : ovs_key)
| OVS_ACTION_ATTR_SAMPLE (attrs : list (sample_attr action))
| OVS_ACTION_ATTR_UNSPEC
| OVS_ACTION_ATTR_MAX
| OVS_ACTION_ATTR_other (type : Z).

(** ** The collaborators outside the two source files

    flow.h, odp-util.h, packets.h and random.h are interfaces of the
    datapath, not part of it. *)
Class Externals : Type := {
  (* struct flow, compared by flow_equal *)
  flow : Type;
  flow_eq_dec :: EqDecision flow;
  flow_in_port : flow -> Z;
  (* flow_extract(packet, 0, 0, NULL, in_port, &key) *)
  flow_extract : ofpbuf -> Z -> flow;
  packet_get_tcp_flags : ofpbuf -> flow -> Z;
  packet_get_tcp_flags_range : forall p f, 0 <= packet_get_tcp_flags p f < 256;
  odp_flow_key_to_flow : nlattrs -> odp_key_fitness * flow;
  odp_flow_key_from_flow : flow -> Z -> nlattrs;
  (* packets.h *)
  eth_push_vlan : ofpbuf -> Z -> ofpbuf;
  eth_pop_vlan : ofpbuf -> ofpbuf;
  push_mpls : ofpbuf -> Z -> Z -> ofpbuf;
  pop_mpls : ofpbuf -> Z -> ofpbuf;
  set_mpls_lse : ofpbuf -> Z -> ofpbuf;
  packet_set_ipv4 : ofpbuf -> Z -> Z -> Z -> Z -> ofpbuf;
  packet_set_ipv6 : ofpbuf -> Z -> list byte -> list byte -> Z -> Z -> Z -> ofpbuf;
  packet_set_tcp_port : ofpbuf -> Z -> Z -> ofpbuf;
  packet_set_udp_port : ofpbuf -> Z -> Z -> ofpbuf;
  (* random.h: the generator's state and one 32-bit draw *)
  rng_state : Type;
  random_uint32 : rng_state -> Z * rng_state;
  random_uint32_range : forall s, 0 <= fst (random_uint32 s) < 2 ^ 32
}.

(** Modelled from the spec: the NetDev trait.  A device handle is known by
    the name and the type it was opened with;
    [netdev_vport_get_dpif_port] and [netdev_get_type] read them back. *)
Record netdev : Type := {
  netdev_vport_get_dpif_port : string;
  netdev_get_type : string
}.

(** What the device layer answers during one [do_add_port]: the results of
    [netdev_open], [netdev_listen] and [netdev_turn_flags_on]. *)
Record netdev_calls : Type := {
  netdev_open_error : Z;
  netdev_listen_error : Z;
  netdev_turn_flags_on_error : Z
}.

(** ** The data model (dpif-netdev.c, lines 91-166) *)

(** Modelled from the spec: [enum dpif_upcall_type] of dpif.h, the two
    queue classes in the order MISS, ACTION; the value is the index into
    [dp->queues]. *)
Inductive dpif_upcall_type : Type :=
| DPIF_UC_MISS
| DPIF_UC_ACTION.

(** [struct dp_netdev_upcall]: the queued record, with the regions of its
    buffer (serialized key, userdata, packet copy) held by value. *)
Record dp_netdev_upcall : Type := {
  upcall_type : dpif_upcall_type;
  upcall_key : nlattrs;
  upcall_userdata : option nlattrs;
  upcall_packet : ofpbuf
}.

(** [struct dp_netdev_queue]: the ring of MAX_QUEUE_LEN slots, a slot never
    written being absent from the map, and the two unsigned counters. *)
Record dp_netdev_queue : Type := {
  upcalls : gmap Z dp_netdev_upcall;
  q_head : Z;
  q_tail : Z
}.

(** The class of a datapath: [&dpif_netdev_class] itself, or one of the
    copies that [dpif_dummy_register__] allocates. *)
Inductive dpif_class : Type :=
| dpif_netdev_class
| dpif_dummy_class (type : string).

(** [struct dp_netdev_port]. *)
Record dp_netdev_port : Type := {
  port_no : Z;
  port_netdev : netdev;
  port_type : string
}.

(** [struct dpif_flow_stats]. *)
Record dpif_flow_stats : Type := {
  n_packets : Z;
  n_bytes : Z;
  stats_used : Z;
  stats_tcp_flags : Z
}.

(** [struct dpif_netdev], a client's handle: the datapath it points to, by
    name, and the serial it saw last.  The datapath is shared by all its
    handles and is passed next to the handle. *)
Record dpif_netdev : Type := {
  dpif_dp : string;
  dp_serial : Z
}.

Section Datapath.
Context `{Ext : Externals}.

(** [struct dp_netdev_flow]. *)
Record dp_netdev_flow : Type := {
  key : flow;
  used : Z;
  packet_count : Z;
  byte_count : Z;
  tcp_flags : Z;
  actions : list action
}.

(** [struct dp_netdev].  [ports] is the array of MAX_PORTS pointers, a null
    slot being absent from the map; [flow_table] lists the hash map's
    entries, the most recently inserted first. *)
Record dp_netdev : Type := {
  dp_class : dpif_class;
  dp_name : string;
  open_cnt : Z;
  destroyed : bool;
  queue_miss : dp_netdev_queue;
  queue_action : dp_netdev_queue;
  flow_table : list dp_netdev_flow;
  n_hit : Z;
  n_missed : Z;
  n_lost : Z;
  ports : gmap Z dp_netdev_port;
  port_list : list dp_netdev_port;
  serial : Z
}.

Definition set_open_cnt (v : Z) (dp : dp_netdev) : dp_netdev :=
  {| dp_class := dp_class dp; dp_name := dp_name dp; open_cnt := v;
     destroyed := destroyed dp; queue_miss := queue_miss dp;
     queue_action := queue_action dp; flow_table := flow_table dp;
     n_hit := n_hit dp; n_missed := n_missed dp; n_lost := n_lost dp;
     ports := ports dp; port_list := port_list dp; serial := serial dp |}.

Definition set_queue_miss (q : dp_netdev_queue) (dp : dp_netdev) : dp_netdev :=
  {| dp_class := dp_class dp; dp_name := dp_name dp; open_cnt := open_cnt dp;
     destroyed := destroyed dp; queue_miss := q;
     queue_action := queue_action dp; flow_table := flow_table dp;
     n_hit := n_hit dp; n_missed := n_missed dp; n_lost := n_lost dp;
     ports := ports dp; port_list := port_list dp; serial := serial dp |}.

Definition set_queue_action (q : dp_netdev_queue) (dp : dp_netdev) : dp_netdev :=
  {| dp_class := dp_class dp; dp_name := dp_name dp; open_cnt := open_cnt dp;
     destroyed := destroyed dp; queue_miss := queue_miss dp;
     queue_action := q; flow_table := flow_table dp;
     n_hit := n_hit dp; n_missed := n_missed dp; n_lost := n_lost dp;
     ports := ports dp; port_list := port_list dp; serial := serial dp |}.

Definition set_flow_table (t : list dp_netdev_flow) (dp : dp_netdev) : dp_netdev :=
  {| dp_class := dp_class dp; dp_name := dp_name dp; open_cnt := open_cnt dp;
     destroyed := destroyed dp; queue_miss := queue_miss dp;
     queue_action := queue_action dp; flow_table := t;
     n_hit := n_hit dp; n_missed := n_missed dp; n_lost := n_lost dp;
     ports := ports dp; port_list := port_list dp; serial := serial dp |}.

Definition set_n_hit (v : Z) (dp : dp_netdev) : dp_netdev :=
  {| dp_class := dp_class dp; dp_name := dp_name dp; open_cnt := open_cnt dp;
     destroyed := destroyed dp; queue_miss := queue_miss dp;
     queue_action := queue_action dp; flow_table := flow_table dp;
     n_hit := v; n_missed := n_missed dp; n_lost := n_lost dp;
     ports := ports dp; port_list := port_list dp; serial := serial dp |}.

Definition set_n_missed (v : Z) (dp : dp_netdev) : dp_netdev :=
  {| dp_class := dp_class dp; dp_name := dp_name dp; open_cnt := open_cnt dp;
     destroyed := destroyed dp; queue_miss := queue_miss dp;
     queue_action := queue_action dp; flow_table := flow_table dp;
     n_hit := n_hit dp; n_missed := v; n_lost := n_lost dp;
     ports := ports dp; port_list := port_list dp; serial := serial dp |}.

Definition set_n_lost (v : Z) (dp : dp_netdev) : dp_netdev :=
  {| dp_class := dp_class dp; dp_name := dp_name dp; open_cnt := open_cnt dp;
     destroyed := destroyed dp; queue_miss := queue_miss dp;
     queue_action := queue_action dp; flow_table := flow_table dp;
     n_hit := n_hit dp; n_missed := n_missed dp; n_lost := v;
     ports := ports dp; port_list := port_list dp; serial := serial dp |}.

(** The three fields that a change of the port set writes. *)
Definition set_ports (a : gmap Z dp_netdev_port) (l : list dp_netdev_port)
    (s : Z) (dp : dp_netdev) : dp_netdev :=
  {| dp_class := dp_class dp; dp_name := dp_name dp; open_cnt := open_cnt dp;
     destroyed := destroyed dp; queue_miss := queue_miss dp;
     queue_action := queue_action dp; flow_table := flow_table dp;
     n_hit := n_hit dp; n_missed := n_missed dp; n_lost := n_lost dp;
     ports := a; port_list := l; serial := s |}.

(** [dp->queues[queue_no]]. *)
Definition queue_at (dp : dp_netdev) (queue_no : dpif_upcall_type) : dp_netdev_queue :=
  match queue_no with
  | DPIF_UC_MISS => queue_miss dp
  | DPIF_UC_ACTION => queue_action dp
  end.

Definition set_queue_at (queue_no : dpif_upcall_type) (q : dp_netdev_queue)
    (dp : dp_netdev) : dp_netdev :=
  match queue_no with
  | DPIF_UC_MISS => set_queue_miss q dp
  | DPIF_UC_ACTION => set_queue_action q dp
  end.

(** ** Handles and classes (lines 218-253) *)

Definition dpif_netdev_class_is_dummy (class : dpif_class) : bool :=
  match class with
  | dpif_netdev_class => false
  | dpif_dummy_class _ => true
  end.

Definition dpif_netdev_port_open_type (class : dpif_class) (type : string) : string :=
  if negb (String.eqb type "internal") then type
  else if dpif_netdev_class_is_dummy class then "dummy"
  else "tap".

(** [create_dpif_netdev]: a new handle caches the datapath's serial. *)
Definition create_dpif_netdev (dp : dp_netdev) : dp_netdev * dpif_netdev :=
  (set_open_cnt (to_int (open_cnt dp + 1)) dp,
   {| dpif_dp := dp_name dp; dp_serial := serial dp |}).

(** ** Choosing a port number (lines 255-292) *)

Definition isdigit (c : ascii) : bool :=
  let n := Z.of_N (Ascii.N_of_ascii c) in (48 <=? n) && (n <=? 57).

(** The value of the decimal digits that [s] starts with. *)
Fixpoint digits_value (s : string) (acc : Z) : Z :=
  match s with
  | String c rest =>
      if isdigit c
      then digits_value rest (10 * acc + (Z.of_N (Ascii.N_of_ascii c) - 48))
      else acc
  | EmptyString => acc
  end.

(** [strtol(p, NULL, 10)] where [p] points at a digit: the digits' value,
    LONG_MAX when that does not fit a [long]. *)
Definition strtol (p : string) : Z := Z.min (digits_value p 0) LONG_MAX.

(** The loop [for (p = name; *p != '\0'; p++)] up to its first digit: the
    rest of the name from that digit on. *)
Fixpoint first_digit (name : string) : option string :=
  match name with
  | String c rest => if isdigit c then Some name else first_digit rest
  | EmptyString => None
  end.

(** [!dp->ports[port_no]] *)
Definition port_is_free (dp : dp_netdev) (port_no : Z) : bool :=
  match ports dp !! port_no with
  | Some _ => false
  | None => true
  end.

(** The final loop of [choose_port]: the lowest free slot of 1..MAX_PORTS-1,
    or -1. *)
Definition lowest_free_port (dp : dp_netdev) : Z :=
  match List.find (port_is_free dp) (seqZ 1 (MAX_PORTS - 1)) with
  | Some port_no => port_no
  | None => -1
  end.

(** [start_no + strtol(p, NULL, 10)], stored into the [int port_no]. *)
Definition named_port (name p : string) : Z :=
  let start_no := if String.prefix "br" name then 100 else 0 in
  to_int (start_no + strtol p).

Definition choose_port (dp : dp_netdev) (name : string) : Z :=
  let tried :=
    if dpif_netdev_class_is_dummy (dp_class dp) then
      match first_digit name with
      | Some p =>
          let port_no := named_port name p in
          if (0 <? port_no) && (port_no <? MAX_PORTS) && port_is_free dp port_no
          then Some port_no
          else None
      | None => None
      end
    else None in
  match tried with
  | Some port_no => port_no
  | None => lowest_free_port dp
  end.

(** ** Adding and deleting ports (lines 485-660) *)

(** [do_add_port].  Its two callers pass a [port_no] below MAX_PORTS.  The
    record of the largest MTU seen, which sizes receive buffers, is left
    out. *)
Definition do_add_port (dp : dp_netdev) (devname type : string) (port_no : Z)
    (calls : netdev_calls) : dp_netdev * Z :=
  let open_type := dpif_netdev_port_open_type (dp_class dp) type in
  if negb (netdev_open_error calls =? 0) then (dp, netdev_open_error calls)
  else
    let netdev := {| netdev_vport_get_dpif_port := devname;
                     netdev_get_type := open_type |} in
    if negb (netdev_listen_error calls =? 0)
       && negb ((netdev_listen_error calls =? EOPNOTSUPP)
                && dpif_netdev_class_is_dummy (dp_class dp))
    then (dp, netdev_listen_error calls)
    else if negb (netdev_turn_flags_on_error calls =? 0)
    then (dp, netdev_turn_flags_on_error calls)
    else
      let port := {| port_no := port_no; port_netdev := netdev;
                     port_type := type |} in
      (set_ports (<[port_no := port]> (ports dp)) (port_list dp ++ [port])
                 (uint32 (serial dp + 1)) dp,
       0).

(** [dpif_netdev_port_add]: the datapath, the value left in [*port_nop],
    and the return value. *)
Definition dpif_netdev_port_add (dp : dp_netdev) (netdev : netdev)
    (port_nop : Z) (calls : netdev_calls) : dp_netdev * Z * Z :=
  let add (port_no : Z) :=
    if 0 <=? port_no then
      let '(dp', error) :=
        do_add_port dp (netdev_vport_get_dpif_port netdev)
                    (netdev_get_type netdev) port_no calls in
      (dp', port_no, error)
    else (dp, port_nop, EFBIG) in
  if negb (port_nop =? UINT32_MAX) then
    if MAX_PORTS <=? port_nop then (dp, port_nop, EFBIG)
    else if negb (port_is_free dp port_nop) then (dp, port_nop, EBUSY)
    else add port_nop
  else add (choose_port dp (netdev_vport_get_dpif_port netdev)).

Definition is_valid_port_number (port_no : Z) : bool := port_no <? MAX_PORTS.

Definition get_port_by_number (dp : dp_netdev) (port_no : Z)
    : Z * option dp_netdev_port :=
  if negb (is_valid_port_number port_no) then (EINVAL, None)
  else
    match ports dp !! port_no with
    | Some port => (0, Some port)
    | None => (ENOENT, None)
    end.

(** [list_remove(&port->node)]: the node of the port with this number. *)
Fixpoint list_remove (port_no' : Z) (l : list dp_netdev_port) : list dp_netdev_port :=
  match l with
  | [] => []
  | p :: rest => if port_no p =? port_no' then rest else p :: list_remove port_no' rest
  end.

Definition do_del_port (dp : dp_netdev) (port_no' : Z) : dp_netdev * Z :=
  match get_port_by_number dp port_no' with
  | (0, Some port) =>
      (set_ports (delete (port_no port) (ports dp))
                 (list_remove (port_no port) (port_list dp))
                 (uint32 (serial dp + 1)) dp,
       0)
  | (error, _) => (dp, error)
  end.

Definition dpif_netdev_port_del (dp : dp_netdev) (port_no : Z) : dp_netdev * Z :=
  if port_no =? OVSP_LOCAL then (dp, EINVAL)
  else do_del_port dp port_no.

(** [dpif_netdev_port_poll] (lines 783-793): the handle and the return
    value. *)
Definition dpif_netdev_port_poll (dp : dp_netdev) (dpif : dpif_netdev)
    : dpif_netdev * Z :=
  if negb (dp_serial dpif =? serial dp) then
    ({| dpif_dp := dpif_dp dpif; dp_serial := serial dp |}, ENOBUFS)
  else (dpif, EAGAIN).

(** [create_dp_netdev] (lines 294-340): a zeroed datapath with empty queues
    and tables, to which the LOCAL port is added. *)
Definition dp_netdev_xzalloc (name : string) (class : dpif_class) : dp_netdev :=
  {| dp_class := class; dp_name := name; open_cnt := 0; destroyed := false;
     queue_miss := {| upcalls := ∅; q_head := 0; q_tail := 0 |};
     queue_action := {| upcalls := ∅; q_head := 0; q_tail := 0 |};
     flow_table := []; n_hit := 0; n_missed := 0; n_lost := 0;
     ports := ∅; port_list := []; serial := 0 |}.

Definition create_dp_netdev (name : string) (class : dpif_class)
    (calls : netdev_calls) : Z * option dp_netdev :=
  let '(dp, error) :=
    do_add_port (dp_netdev_xzalloc name class) name "internal" OVSP_LOCAL calls in
  if negb (error =? 0) then (error, None) else (0, Some dp).

(** ** The flow table (lines 706-1046) *)

(** [dp_netdev_lookup_flow]: the first entry whose key is [flow_equal] to
    the one sought. *)
Definition dp_netdev_lookup_flow (dp : dp_netdev) (k : flow) : option dp_netdev_flow :=
  List.find (fun f => bool_decide (key f = k)) (flow_table dp).

(** A write through the pointer that [dp_netdev_lookup_flow] returned: the
    first entry with the key of [flow'] becomes [flow']. *)
Fixpoint flow_store (flow' : dp_netdev_flow) (t : list dp_netdev_flow)
    : list dp_netdev_flow :=
  match t with
  | [] => []
  | f :: rest =>
      if bool_decide (key f = key flow') then flow' :: rest
      else f :: flow_store flow' rest
  end.

(** [hmap_remove(&dp->flow_table, &flow->node)] for the entry that the
    lookup of [k] returned. *)
Fixpoint hmap_remove (k : flow) (t : list dp_netdev_flow) : list dp_netdev_flow :=
  match t with
  | [] => []
  | f :: rest =>
      if bool_decide (key f = k) then rest else f :: hmap_remove k rest
  end.

Definition hmap_count (t : list dp_netdev_flow) : Z := Z.of_nat (length t).

Definition dp_netdev_free_flow (dp : dp_netdev) (flow : dp_netdev_flow) : dp_netdev :=
  set_flow_table (hmap_remove (key flow) (flow_table dp)) dp.

(** [dp_netdev_flow_flush]: every entry is freed. *)
Definition dp_netdev_flow_flush (dp : dp_netdev) : dp_netdev :=
  set_flow_table [] dp.

Definition get_dpif_flow_stats (flow : dp_netdev_flow) : dpif_flow_stats :=
  {| n_packets := packet_count flow; n_bytes := byte_count flow;
     stats_used := used flow; stats_tcp_flags := tcp_flags flow |}.

(** [dpif_netdev_flow_from_nlattrs]: the error and the flow written. *)
Definition dpif_netdev_flow_from_nlattrs (nl_key : nlattrs) : Z * flow :=
  let '(fit, flow) := odp_flow_key_to_flow nl_key in
  match fit with
  | ODP_FIT_PERFECT =>
      if (if flow_in_port flow <? OFPP_MAX
          then MAX_PORTS <=? flow_in_port flow
          else negb (flow_in_port flow =? OFPP_LOCAL)
               && negb (flow_in_port flow =? OFPP_NONE))
      then (EINVAL, flow)
      else (0, flow)
  | _ => (EINVAL, flow)
  end.

Definition set_flow_actions (flow : dp_netdev_flow) (actions' : list action)
    : dp_netdev_flow * Z :=
  ({| key := key flow; used := used flow; packet_count := packet_count flow;
      byte_count := byte_count flow; tcp_flags := tcp_flags flow;
      actions := actions' |}, 0).

(** [dp_netdev_flow_add]: a zeroed entry with the key and the actions, put
    at the head of its bucket. *)
Definition dp_netdev_flow_add (dp : dp_netdev) (k : flow) (actions' : list action)
    : dp_netdev * Z :=
  let flow := {| key := k; used := 0; packet_count := 0; byte_count := 0;
                 tcp_flags := 0; actions := [] |} in
  let '(flow, error) := set_flow_actions flow actions' in
  if negb (error =? 0) then (dp, error)
  else (set_flow_table (flow :: flow_table dp) dp, 0).

Definition clear_stats (flow : dp_netdev_flow) : dp_netdev_flow :=
  {| key := key flow; used := 0; packet_count := 0; byte_count := 0;
     tcp_flags := 0; actions := actions flow |}.

(** [struct dpif_flow_put]; [put_stats] says whether [put->stats] is
    non-null. *)
Record dpif_flow_put : Type := {
  put_flags : Z;
  put_key : nlattrs;
  put_actions : list action;
  put_stats : bool
}.

(** [dpif_netdev_flow_put]: the datapath, the return value, and what was
    written to [*put->stats]. *)
Definition dpif_netdev_flow_put (dp : dp_netdev) (put : dpif_flow_put)
    : dp_netdev * Z * option dpif_flow_stats :=
  let '(error, k) := dpif_netdev_flow_from_nlattrs (put_key put) in
  if negb (error =? 0) then (dp, error, None)
  else
    match dp_netdev_lookup_flow dp k with
    | None =>
        if negb (Z.land (put_flags put) DPIF_FP_CREATE =? 0) then
          let n_flows := to_int (hmap_count (flow_table dp)) in
          if n_flows <? MAX_FLOWS then
            let stats :=
              if put_stats put
              then Some {| n_packets := 0; n_bytes := 0; stats_used := 0;
                           stats_tcp_flags := 0 |}
              else None in
            let '(dp', error) := dp_netdev_flow_add dp k (put_actions put) in
            (dp', error, stats)
          else (dp, EFBIG, None)
        else (dp, ENOENT, None)
    | Some flow =>
        if negb (Z.land (put_flags put) DPIF_FP_MODIFY =? 0) then
          let '(flow, error) := set_flow_actions flow (put_actions put) in
          if error =? 0 then
            let stats :=
              if put_stats put then Some (get_dpif_flow_stats flow) else None in
            let flow :=
              if negb (Z.land (put_flags put) DPIF_FP_ZERO_STATS =? 0)
              then clear_stats flow else flow in
            (set_flow_table (flow_store flow (flow_table dp)) dp, error, stats)
          else (dp, error, None)
        else (dp, EEXIST, None)
    end.

(** [struct dpif_flow_del]. *)
Record dpif_flow_del : Type := {
  del_key : nlattrs;
  del_stats : bool
}.

Definition dpif_netdev_flow_del (dp : dp_netdev) (del : dpif_flow_del)
    : dp_netdev * Z * option dpif_flow_stats :=
  let '(error, k) := dpif_netdev_flow_from_nlattrs (del_key del) in
  if negb (error =? 0) then (dp, error, None)
  else
    match dp_netdev_lookup_flow dp k with
    | Some flow =>
        (dp_netdev_free_flow dp flow, 0,
         if del_stats del then Some (get_dpif_flow_stats flow) else None)
    | None => (dp, ENOENT, None)
    end.

(** ** The upcall queues (lines 407-421, 1144-1224, 1458-1519) *)

(** [dp_netdev_output_userspace].  [upcall->userdata] is assigned only when
    [userdata] is non-null, so otherwise the slot keeps the pointer left by
    its previous record. *)
Definition dp_netdev_output_userspace (dp : dp_netdev) (packet : ofpbuf)
    (queue_no : dpif_upcall_type) (flow : flow) (userdata : option nlattrs)
    : dp_netdev * Z :=
  let q := queue_at dp queue_no in
  if uint32 (q_head q - q_tail q) <? MAX_QUEUE_LEN then
    let slot := Z.land (q_head q) QUEUE_MASK in
    let u :=
      {| upcall_type := queue_no;
         upcall_key := odp_flow_key_from_flow flow (flow_in_port flow);
         upcall_userdata :=
           match userdata with
           | Some d => Some d
           | None => upcalls q !! slot ≫= upcall_userdata
           end;
         upcall_packet := packet |} in
    (set_queue_at queue_no
       {| upcalls := <[slot := u]> (upcalls q);
          q_head := uint32 (q_head q + 1);
          q_tail := q_tail q |} dp,
     0)
  else (set_n_lost (to_llong (n_lost dp + 1)) dp, ENOBUFS).

(** [find_nonempty_queue]: the index of the queue found. *)
Definition find_nonempty_queue (dp : dp_netdev) : option dpif_upcall_type :=
  List.find (fun i => negb (q_head (queue_at dp i) =? q_tail (queue_at dp i)))
            [DPIF_UC_MISS; DPIF_UC_ACTION].

(** [dpif_netdev_recv]: the datapath, the return value and the record
    copied out of the slot ([None] for a slot that was never written). *)
Definition dpif_netdev_recv (dp : dp_netdev)
    : dp_netdev * Z * option dp_netdev_upcall :=
  match find_nonempty_queue dp with
  | Some i =>
      let q := queue_at dp i in
      let u := upcalls q !! Z.land (q_tail q) QUEUE_MASK in
      (set_queue_at i {| upcalls := upcalls q; q_head := q_head q;
                         q_tail := uint32 (q_tail q + 1) |} dp,
       0, u)
  | None => (dp, EAGAIN, None)
  end.

(** One round of [while (q->tail != q->head) { ... q->tail++ ... }]. *)
Definition purge_one (q : dp_netdev_queue) : dp_netdev_queue :=
  {| upcalls := upcalls q; q_head := q_head q; q_tail := uint32 (q_tail q + 1) |}.

(** [dp_netdev_purge_queues]: the loop makes [head - tail] (modulo 2^32)
    rounds on each queue. *)
Definition purge_queue (q : dp_netdev_queue) : dp_netdev_queue :=
  Nat.iter (Z.to_nat (uint32 (q_head q - q_tail q))) purge_one q.

Definition dp_netdev_purge_queues (dp : dp_netdev) : dp_netdev :=
  set_queue_action (purge_queue (queue_action dp))
    (set_queue_miss (purge_queue (queue_miss dp)) dp).

(** ** The action engine (lines 1438-1644) *)

(** What the engine works on: the datapath, the frames handed to
    [netdev_send] so far (oldest first), and the random generator. *)
Record machine : Type := {
  m_dp : dp_netdev;
  m_sent : list (dp_netdev_port * ofpbuf);
  m_rng : rng_state
}.

Definition set_m_dp (dp : dp_netdev) (m : machine) : machine :=
  {| m_dp := dp; m_sent := m_sent m; m_rng := m_rng m |}.

(** [dp_netdev_set_dl]: the Ethernet header starts the frame, destination
    address first. *)
Definition dp_netdev_set_dl (packet : ofpbuf) (eth_src eth_dst : list byte) : ofpbuf :=
  take 6 eth_dst ++ take 6 eth_src ++ drop 12 packet.

(** [dp_netdev_output_port]: [dp->ports[out_port]] is read with no check of
    [out_port] against the array's MAX_PORTS slots. *)
Definition dp_netdev_output_port (m : machine) (packet : ofpbuf) (out_port : Z)
    : outcome machine :=
  if (0 <=? out_port) && (out_port <? MAX_PORTS) then
    match ports (m_dp m) !! out_port with
    | Some p =>
        Done {| m_dp := m_dp m; m_sent := m_sent m ++ [(p, packet)];
                m_rng := m_rng m |}
    | None => Done m
    end
  else Fault OUT_OF_BOUNDS.

Definition dp_netdev_action_userspace (m : machine) (packet : ofpbuf)
    (k : flow) (userdata : option nlattrs) : machine :=
  set_m_dp (fst (dp_netdev_output_userspace (m_dp m) packet DPIF_UC_ACTION k userdata)) m.

Definition execute_set_action (packet : ofpbuf) (a : ovs_key) : outcome ofpbuf :=
  match a with
  | OVS_KEY_ATTR_PRIORITY
  | OVS_KEY_ATTR_SKB_MARK
  | OVS_KEY_ATTR_TUNNEL => Done packet
  | OVS_KEY_ATTR_ETHERNET eth_src eth_dst =>
      Done (dp_netdev_set_dl packet eth_src eth_dst)
  | OVS_KEY_ATTR_IPV4 src dst tos ttl =>
      Done (packet_set_ipv4 packet src dst tos ttl)
  | OVS_KEY_ATTR_IPV6 proto src dst tclass label hlimit =>
      Done (packet_set_ipv6 packet proto src dst tclass label hlimit)
  | OVS_KEY_ATTR_TCP src dst => Done (packet_set_tcp_port packet src dst)
  | OVS_KEY_ATTR_UDP src dst => Done (packet_set_udp_port packet src dst)
  | OVS_KEY_ATTR_MPLS lse => Done (set_mpls_lse packet lse)
  | _ => Fault NOT_REACHED
  end.

Section Engine.
Variable execute_action : action -> machine * ofpbuf -> outcome (machine * ofpbuf).

(** The loop [NL_ATTR_FOR_EACH_UNSAFE] of [dp_netdev_execute_actions]. *)
Fixpoint execute_each (actions : list action) (s : machine * ofpbuf)
    : outcome (machine * ofpbuf) :=
  match actions with
  | [] => Done s
  | a :: rest => s' ← execute_action a s; execute_each rest s'
  end.

(** The loop of [dp_netdev_sample] and the call that follows it.
    [subactions] stands for the pointer of that name: null, or the nested
    actions ready to be run. *)
Fixpoint sample_each (attrs : list (sample_attr action))
    (subactions : option (machine * ofpbuf -> outcome (machine * ofpbuf)))
    (s : machine * ofpbuf) : outcome (machine * ofpbuf) :=
  match attrs with
  | [] =>
      match subactions with
      | Some run => run s
      | None => Fault NULL_DEREFERENCE
      end
  | OVS_SAMPLE_ATTR_PROBABILITY probability :: rest =>
      let '(r, rng) := random_uint32 (m_rng (fst s)) in
      let s' := ({| m_dp := m_dp (fst s); m_sent := m_sent (fst s);
                    m_rng := rng |}, snd s) in
      if probability <=? r then Done s'
      else sample_each rest subactions s'
  | OVS_SAMPLE_ATTR_ACTIONS acts :: rest =>
      sample_each rest (Some (execute_each acts)) s
  | _ :: _ => Fault NOT_REACHED
  end.
End Engine.

(** One turn of the [switch] of [dp_netdev_execute_actions]. *)
Fixpoint execute_action (k : flow) (a : action) (s : machine * ofpbuf)
    {struct a} : outcome (machine * ofpbuf) :=
  match a with
  | OVS_ACTION_ATTR_OUTPUT port =>
      m ← dp_netdev_output_port (fst s) (snd s) port; Done (m, snd s)
  | OVS_ACTION_ATTR_USERSPACE userdata =>
      Done (dp_netdev_action_userspace (fst s) (snd s) k userdata, snd s)
  | OVS_ACTION_ATTR_PUSH_VLAN vlan_tci => Done (fst s, eth_push_vlan (snd s) vlan_tci)
  | OVS_ACTION_ATTR_POP_VLAN => Done (fst s, eth_pop_vlan (snd s))
  | OVS_ACTION_ATTR_PUSH_MPLS ethertype lse =>
      Done (fst s, push_mpls (snd s) ethertype lse)
  | OVS_ACTION_ATTR_POP_MPLS ethertype => Done (fst s, pop_mpls (snd s) ethertype)
  | OVS_ACTION_ATTR_SET a' =>
      packet ← execute_set_action (snd s) a'; Done (fst s, packet)
  | OVS_ACTION_ATTR_SAMPLE attrs =>
      sample_each (execute_action k) attrs None s
  | OVS_ACTION_ATTR_UNSPEC
  | OVS_ACTION_ATTR_MAX => Fault NOT_REACHED
  | OVS_ACTION_ATTR_other _ => Done s
  end.

Definition dp_netdev_execute_actions (m : machine) (packet : ofpbuf) (k : flow)
    (actions' : list action) : outcome (machine * ofpbuf) :=
  execute_each (execute_action k) actions' (m, packet).

Definition dp_netdev_sample (m : machine) (packet : ofpbuf) (k : flow)
    (attrs : list (sample_attr action)) : outcome (machine * ofpbuf) :=
  sample_each (execute_action k) attrs None (m, packet).

(** ** Packet ingress and [execute] (lines 1100-1128, 1218-1257) *)

(** [dp_netdev_flow_used]; [now] is what [time_msec()] returns.  The sum of
    the [long long] counter and the [size_t] size is taken modulo 2^64. *)
Definition dp_netdev_flow_used (now : Z) (flow : dp_netdev_flow) (packet : ofpbuf)
    : dp_netdev_flow :=
  {| key := key flow;
     used := now;
     packet_count := to_llong (packet_count flow + 1);
     byte_count := to_llong (byte_count flow + ofpbuf_size packet);
     tcp_flags := uint8 (Z.lor (tcp_flags flow)
                               (packet_get_tcp_flags packet (key flow)));
     actions := actions flow |}.

Definition dp_netdev_port_input (m : machine) (now : Z) (port : dp_netdev_port)
    (packet : ofpbuf) : outcome machine :=
  if ofpbuf_size packet <? ETH_HEADER_LEN then Done m
  else
    let k := flow_extract packet (port_no port) in
    match dp_netdev_lookup_flow (m_dp m) k with
    | Some flow =>
        let flow := dp_netdev_flow_used now flow packet in
        let m := set_m_dp (set_flow_table (flow_store flow (flow_table (m_dp m)))
                                          (m_dp m)) m in
        s ← dp_netdev_execute_actions m packet k (actions flow);
        Done (set_m_dp (set_n_hit (to_llong (n_hit (m_dp (fst s)) + 1))
                                  (m_dp (fst s))) (fst s))
    | None =>
        let dp := set_n_missed (to_llong (n_missed (m_dp m) + 1)) (m_dp m) in
        Done (set_m_dp (fst (dp_netdev_output_userspace dp packet DPIF_UC_MISS k None)) m)
    end.

(** [struct dpif_execute]. *)
Record dpif_execute : Type := {
  execute_packet : ofpbuf;
  execute_key : nlattrs;
  execute_actions : list action
}.

(** [dpif_netdev_execute]: the machine and the return value.  The key that
    [flow_extract] writes is overwritten by the one parsed from [execute_key]
    before it is read. *)
Definition dpif_netdev_execute (m : machine) (execute : dpif_execute)
    : outcome (machine * Z) :=
  if (ofpbuf_size (execute_packet execute) <? ETH_HEADER_LEN)
     || (UINT16_MAX <? ofpbuf_size (execute_packet execute))
  then Done (m, EINVAL)
  else
    let copy := execute_packet execute in
    let '(error, k) := dpif_netdev_flow_from_nlattrs (execute_key execute) in
    if error =? 0 then
      s ← dp_netdev_execute_actions m copy k (execute_actions execute);
      Done (fst s, error)
    else Done (m, error).

End Datapath.

(** * The GRE vport (datapath/vport-gre.c) *)

Module GRE.

(** The byte order of the host that runs the code: the two branches of
    [#ifdef __BIG_ENDIAN]. *)
Inductive endianness : Type :=
| BIG_ENDIAN
| LITTLE_ENDIAN.

Definition u32 (z : Z) : Z := z mod 2 ^ 32.
Definition u64 (z : Z) : Z := z mod 2 ^ 64.

(** Byte [i] (0 the least significant) of an unsigned value. *)
Definition byte_of (i : Z) (v : Z) : Z := (v / 2 ^ (8 * i)) mod 256.

(** The value whose bytes are those of [v] in reverse order, on 32 and on
    64 bits. *)
Definition swab32 (v : Z) : Z :=
  byte_of 0 v * 2 ^ 24 + byte_of 1 v * 2 ^ 16 + byte_of 2 v * 2 ^ 8 + byte_of 3 v.

Definition swab64 (v : Z) : Z :=
  byte_of 0 v * 2 ^ 56 + byte_of 1 v * 2 ^ 48 + byte_of 2 v * 2 ^ 40
  + byte_of 3 v * 2 ^ 32 + byte_of 4 v * 2 ^ 24 + byte_of 5 v * 2 ^ 16
  + byte_of 6 v * 2 ^ 8 + byte_of 7 v.

(** A [__be32] or [__be64] object holds a number in network byte order.
    Read as an integer of the host it has the number itself on a big-endian
    host and the byte-reversed number on a little-endian one; the kernel's
    [cpu_to_be*] and [be*_to_cpu] go from one to the other. *)
Definition cpu_to_be32 (e : endianness) (v : Z) : Z :=
  match e with BIG_ENDIAN => v | LITTLE_ENDIAN => swab32 v end.
Definition be32_to_cpu (e : endianness) (x : Z) : Z :=
  match e with BIG_ENDIAN => x | LITTLE_ENDIAN => swab32 x end.
Definition cpu_to_be64 (e : endianness) (v : Z) : Z :=
  match e with BIG_ENDIAN => v | LITTLE_ENDIAN => swab64 v end.
Definition be64_to_cpu (e : endianness) (x : Z) : Z :=
  match e with BIG_ENDIAN => x | LITTLE_ENDIAN => swab64 x end.

(** Modelled from the spec: the tunnel flag bits of the kernel's
    ip_tunnels.h that the vport names, as numbers in network order. *)
Definition TUNNEL_CSUM : Z := 1.
Definition TUNNEL_KEY : Z := 4.
Definition TUNNEL_SEQ : Z := 8.
Definition TUNNEL_DONT_FRAGMENT : Z := 256.

(** Returns the least-significant 32 bits of a [__be64] (lines 52-59). *)
Definition be64_get_low32 (e : endianness) (x : Z) : Z :=
  match e with
  | BIG_ENDIAN => u32 x
  | LITTLE_ENDIAN => u32 (Z.shiftr (u64 x) 32)
  end.

(** Lines 327-334. *)
Definition be64_get_high32 (e : endianness) (x : Z) : Z :=
  match e with
  | BIG_ENDIAN => u32 (Z.shiftr (u64 x) 32)
  | LITTLE_ENDIAN => u32 x
  end.

Definition filter_tnl_flags (flags : Z) : Z :=
  Z.land flags (Z.lor TUNNEL_CSUM TUNNEL_KEY).

(** Lines 88-95. *)
Definition key_to_tunnel_id (e : endianness) (key seq : Z) : Z :=
  match e with
  | BIG_ENDIAN => u64 (Z.lor (u64 (Z.shiftl (u64 seq) 32)) (u32 key))
  | LITTLE_ENDIAN => u64 (Z.lor (u64 (Z.shiftl (u64 key) 32)) (u32 seq))
  end.

(** [struct ovs_key_ipv4_tunnel]; [tun_id] is the [__be64] as the host
    reads it, [tun_flags] the flag bits. *)
Record ovs_key_ipv4_tunnel : Type := {
  tun_id : Z;
  ipv4_src : Z;
  ipv4_dst : Z;
  tun_flags : Z;
  ipv4_tos : Z;
  ipv4_ttl : Z
}.

(** [struct tnl_ptk_info]: the fields of a GRE header as the kernel's
    header builder takes them and its parser returns them; [key] and [seq]
    are [__be32]. *)
Record tnl_ptk_info : Type := {
  tpi_flags : Z;
  tpi_proto : Z;
  tpi_key : Z;
  tpi_seq : Z
}.

Definition ETH_P_TEB : Z := 25944.

(** [__build_header] (lines 66-86): the header description passed to
    [gre_build_header].  The 16-bit fields [flags] and [proto] are given by
    the numbers they hold in network order. *)
Definition build_header (e : endianness) (tun_key : ovs_key_ipv4_tunnel)
    (seq gre64_flag : Z) : tnl_ptk_info :=
  {| tpi_flags := Z.lor (filter_tnl_flags (tun_flags tun_key)) gre64_flag;
     tpi_proto := ETH_P_TEB;
     tpi_key := be64_get_low32 e (tun_id tun_key);
     tpi_seq := seq |}.

(** Modelled from the spec: the header length that [ip_gre_calc_hlen] of
    the kernel's GRE module, which is not in the sources, computes from
    tunnel flags (section 4.8, step 2, "compute header length from flags",
    and the RFC 2784/2890 header of section 5): the four bytes of flags and
    protocol and four more for each of the checksum, key and sequence
    fields whose flag is set. *)
Definition ip_gre_calc_hlen (flags : Z) : Z :=
  4 + (if Z.land flags TUNNEL_CSUM =? 0 then 0 else 4)
    + (if Z.land flags TUNNEL_KEY =? 0 then 0 else 4)
    + (if Z.land flags TUNNEL_SEQ =? 0 then 0 else 4).

(** Modelled from the spec: [GRE_HEADER_SECTION] of the kernel's headers,
    the four bytes of one header field ("GRE64 adds a 4-byte sequence
    field", section 4.8, step 2). *)
Definition GRE_HEADER_SECTION : Z := 4.

(** What [__send] (lines 121-186) gives the kernel to build the GRE header
    from: the length reserved for the header and the description of
    [__build_header]. *)
Record gre_packet : Type := {
  packet_hlen : Z;
  packet_tpi : tnl_ptk_info
}.

(** [__send] (lines 121-186), as far as the GRE header goes; routing,
    head-room and transmission are the kernel's. *)
Definition send (e : endianness) (tun_key : ovs_key_ipv4_tunnel)
    (tunnel_hlen seq gre64_flag : Z) : gre_packet :=
  {| packet_hlen := tunnel_hlen;
     packet_tpi := build_header e tun_key seq gre64_flag |}.

(** [gre_send] (lines 265-275): [None] is the return of -EINVAL for a
    packet without a tunnel key.  The header length is taken from the flags
    of the tunnel key. *)
Definition gre_send (e : endianness) (tun_key : option ovs_key_ipv4_tunnel)
    : option gre_packet :=
  match tun_key with
  | None => None
  | Some tun_key =>
      let hlen := ip_gre_calc_hlen (tun_flags tun_key) in
      Some (send e tun_key hlen 0 0)
  end.

(** [gre64_send] (lines 336-349): the header length is the one of the flags
    of the tunnel key and one more field, for the sequence number. *)
Definition gre64_send (e : endianness) (tun_key : option ovs_key_ipv4_tunnel)
    : option gre_packet :=
  match tun_key with
  | None => None
  | Some tun_key =>
      let hlen := ip_gre_calc_hlen (tun_flags tun_key) + GRE_HEADER_SECTION in
      let seq := be64_get_high32 e (tun_id tun_key) in
      Some (send e tun_key hlen seq TUNNEL_SEQ)
  end.

(** The vport that a received header is handed to. *)
Inductive vport_type : Type :=
| OVS_VPORT_TYPE_GRE
| OVS_VPORT_TYPE_GRE64.

(** [struct vport_net] of a network namespace: whether its GRE and its
    GRE64 vport exist. *)
Record vport_net : Type := {
  gre_vport : bool;
  gre64_vport : bool
}.

(** [gre_rcv] (lines 97-119): [None] is PACKET_REJECT, returned when the
    vport chosen by the flags does not exist; otherwise the vport chosen and
    the tunnel id and flags given to [tnl_tun_key_init]. *)
Definition gre_rcv (e : endianness) (net : vport_net) (tpi : tnl_ptk_info)
    : option (vport_type * Z * Z) :=
  let '(vport, present) :=
    if negb (Z.land (tpi_flags tpi) TUNNEL_KEY =? 0)
       && negb (Z.land (tpi_flags tpi) TUNNEL_SEQ =? 0)
    then (OVS_VPORT_TYPE_GRE64, gre64_vport net)
    else (OVS_VPORT_TYPE_GRE, gre_vport net) in
  if negb present then None
  else
    let key := key_to_tunnel_id e (tpi_key tpi) (tpi_seq tpi) in
    Some (vport, key, filter_tnl_flags (tpi_flags tpi)).

(** Modelled from the spec: the GRE header between the kernel's
    [gre_build_header] on a host of byte order [e1] and the kernel's header
    parser on a host of byte order [e2], neither of which is in the sources
    (section 5, "GRE wire format: standard RFC 2784/2890 header", and
    section 4.8, steps 2 and 5).  The header has a key field exactly when
    its flags have KEY and a sequence field exactly when they have SEQ.  The
    parser returns the flags and the protocol, a field that is there as the
    number that was sent, in its own byte order, and 0 for a field that is
    not there.  [None]: the length reserved by the sender is not the length
    that the flags of the header call for, so that the receiver, which
    takes the length from the flags, does not find the fields and the inner
    frame where the sender put them. *)
Definition on_the_wire (e1 e2 : endianness) (p : gre_packet) : option tnl_ptk_info :=
  let tpi := packet_tpi p in
  if packet_hlen p =? ip_gre_calc_hlen (tpi_flags tpi) then
    Some {| tpi_flags := tpi_flags tpi;
            tpi_proto := tpi_proto tpi;
            tpi_key :=
              if Z.land (tpi_flags tpi) TUNNEL_KEY =? 0 then 0
              else cpu_to_be32 e2 (be32_to_cpu e1 (tpi_key tpi));
            tpi_seq :=
              if Z.land (tpi_flags tpi) TUNNEL_SEQ =? 0 then 0
              else cpu_to_be32 e2 (be32_to_cpu e1 (tpi_seq tpi)) |}
  else None.

End GRE.

(** * More of dpif-netdev.c *)

(** [EOF] of stdio.h, the end of a dump, and [INT_MAX] of limits.h. *)
Definition EOF : Z := -1.
Definition INT_MAX : Z := 2147483647.

#[global] Instance dpif_class_eq_dec : EqDecision dpif_class.
Proof. solve_decision. Defined.

(** [struct dpif_port], the answer to a port query. *)
Record dpif_port : Type := {
  dpif_port_name : string;
  dpif_port_type : string;
  dpif_port_no : Z
}.

(** [struct dp_netdev_port_state], the cursor of a port dump. *)
Record dp_netdev_port_state : Type := {
  state_port_no : Z;
  state_name : option string
}.

(** [struct dpif_dp_stats]. *)
Record dpif_dp_stats : Type := {
  stats_n_flows : Z;
  stats_n_hit : Z;
  stats_n_missed : Z;
  stats_n_lost : Z
}.

Section Datapath_more.
Context `{Ext : Externals}.

Definition set_destroyed (v : bool) (dp : dp_netdev) : dp_netdev :=
  {| dp_class := dp_class dp; dp_name := dp_name dp; open_cnt := open_cnt dp;
     destroyed := v; queue_miss := queue_miss dp;
     queue_action := queue_action dp; flow_table := flow_table dp;
     n_hit := n_hit dp; n_missed := n_missed dp; n_lost := n_lost dp;
     ports := ports dp; port_list := port_list dp; serial := serial dp |}.

(** ** The registry of datapaths (lines 177, 372-483)

    [dp_netdevs] maps a name to its datapath; a handle's [dp] pointer is
    the name it was opened under. *)

(** [dp_netdev_free]: the datapath as it is when its memory is released. *)
Definition dp_netdev_free (dp : dp_netdev) : dp_netdev :=
  let dp := dp_netdev_flow_flush dp in
  let dp := fold_left (fun dp port => fst (do_del_port dp (port_no port)))
                      (port_list dp) dp in
  dp_netdev_purge_queues dp.

(** [dpif_netdev_open]: the registry, the return value and the handle. *)
Definition dpif_netdev_open (dp_netdevs : gmap string dp_netdev)
    (class : dpif_class) (name : string) (create : bool) (calls : netdev_calls)
    : gmap string dp_netdev * Z * option dpif_netdev :=
  let opened (dp : dp_netdev) :=
    let '(dp, dpif) := create_dpif_netdev dp in
    (<[name := dp]> dp_netdevs, 0, Some dpif) in
  match dp_netdevs !! name with
  | None =>
      if negb create then (dp_netdevs, ENODEV, None)
      else
        match create_dp_netdev name class calls with
        | (_, Some dp) => opened dp
        | (error, None) => (dp_netdevs, error, None)
        end
  | Some dp =>
      if negb (bool_decide (dp_class dp = class)) then (dp_netdevs, EINVAL, None)
      else if create then (dp_netdevs, EEXIST, None)
      else opened dp
  end.

(** What [dpif_netdev_close] comes to: the registry after the call, from
    which a datapath that was freed is gone; or the abort of the assertion;
    or the use of a handle whose datapath was freed. *)
Inductive close_result : Type :=
| CLOSED (dp_netdevs : gmap string dp_netdev)
| ASSERTION_FAILED          (* ovs_assert(dp->open_cnt > 0) *)
| DANGLING_HANDLE.          (* the handle's datapath was freed before *)

Definition dpif_netdev_close (dp_netdevs : gmap string dp_netdev)
    (dpif : dpif_netdev) : close_result :=
  match dp_netdevs !! dpif_dp dpif with
  | None => DANGLING_HANDLE
  | Some dp =>
      if negb (0 <? open_cnt dp) then ASSERTION_FAILED
      else
        let dp := set_open_cnt (to_int (open_cnt dp - 1)) dp in
        if (open_cnt dp =? 0) && destroyed dp
        then CLOSED (delete (dp_name dp) dp_netdevs)
        else CLOSED (<[dpif_dp dpif := dp]> dp_netdevs)
  end.

Definition dpif_netdev_destroy (dp_netdevs : gmap string dp_netdev)
    (dpif : dpif_netdev) : gmap string dp_netdev * Z :=
  match dp_netdevs !! dpif_dp dpif with
  | Some dp => (<[dpif_dp dpif := set_destroyed true dp]> dp_netdevs, 0)
  | None => (dp_netdevs, 0)
  end.

Definition dpif_netdev_get_stats (dp : dp_netdev) : dpif_dp_stats * Z :=
  ({| stats_n_flows := hmap_count (flow_table dp); stats_n_hit := n_hit dp;
      stats_n_missed := n_missed dp; stats_n_lost := n_lost dp |}, 0).

(** ** Port queries and the port dump (lines 598-633, 662-802) *)

(** [get_port_by_name]: the first port of the list whose device has the
    name. *)
Definition get_port_by_name (dp : dp_netdev) (devname : string)
    : Z * option dp_netdev_port :=
  match List.find (fun port =>
                     String.eqb (netdev_vport_get_dpif_port (port_netdev port))
                                devname)
                  (port_list dp) with
  | Some port => (0, Some port)
  | None => (ENOENT, None)
  end.

Definition answer_port_query (port : dp_netdev_port) : dpif_port :=
  {| dpif_port_name := netdev_vport_get_dpif_port (port_netdev port);
     dpif_port_type := port_type port;
     dpif_port_no := port_no port |}.

(** [dpif_netdev_port_query_by_number] and [..._by_name]; [want] says
    whether [dpif_port] is non-null. *)
Definition dpif_netdev_port_query_by_number (dp : dp_netdev) (port_no : Z)
    (want : bool) : Z * option dpif_port :=
  match get_port_by_number dp port_no with
  | (0, Some port) => (0, if want then Some (answer_port_query port) else None)
  | (error, _) => (error, None)
  end.

Definition dpif_netdev_port_query_by_name (dp : dp_netdev) (devname : string)
    (want : bool) : Z * option dpif_port :=
  match get_port_by_name dp devname with
  | (0, Some port) => (0, if want then Some (answer_port_query port) else None)
  | (error, _) => (error, None)
  end.

Definition dpif_netdev_port_dump_start : dp_netdev_port_state * Z :=
  ({| state_port_no := 0; state_name := None |}, 0).

(** [dpif_netdev_port_dump_next]: the cursor, the return value and the
    port written to [*dpif_port]. *)
Definition dpif_netdev_port_dump_next (dp : dp_netdev) (state : dp_netdev_port_state)
    : dp_netdev_port_state * Z * option dpif_port :=
  match List.find (fun port_no => negb (port_is_free dp port_no))
                  (seqZ (state_port_no state) (MAX_PORTS - state_port_no state)) with
  | Some port_no =>
      match ports dp !! port_no with
      | Some port =>
          ({| state_port_no := uint32 (port_no + 1);
              state_name := Some (netdev_vport_get_dpif_port (port_netdev port)) |},
           0, Some (answer_port_query port))
      | None => (state, EOF, None)
      end
  | None => (state, EOF, None)
  end.

(** [dpif_netdev_port_poll_wait]: whether [poll_immediate_wake] is called. *)
Definition dpif_netdev_port_poll_wait (dp : dp_netdev) (dpif : dpif_netdev) : bool :=
  negb (dp_serial dpif =? serial dp).

(** ** More flow operations (lines 731-737, 867-894) *)

Definition dpif_netdev_flow_flush (dp : dp_netdev) : dp_netdev * Z :=
  (dp_netdev_flow_flush dp, 0).

(** [dpif_netdev_flow_get]; the two flags say whether [actionsp] and
    [stats] are non-null. *)
Definition dpif_netdev_flow_get (dp : dp_netdev) (nl_key : nlattrs)
    (want_actions want_stats : bool)
    : Z * option (list action) * option dpif_flow_stats :=
  let '(error, k) := dpif_netdev_flow_from_nlattrs nl_key in
  if negb (error =? 0) then (error, None, None)
  else
    match dp_netdev_lookup_flow dp k with
    | None => (ENOENT, None, None)
    | Some flow =>
        (0,
         if want_actions then Some (actions flow) else None,
         if want_stats then Some (get_dpif_flow_stats flow) else None)
    end.

(** ** Receiving (lines 1196-1225, 1270-1297) *)

(** [dpif_netdev_recv_wait] (lines 1196-1211), in both builds: whether the
    caller's next poll returns at once on account of this call.  Without
    THREADED that is whether [poll_immediate_wake] is called.  With
    THREADED the function waits for input on [dp->pipe[0]], which is not
    part of the datapath as embedded here: [pipe_readable] says whether a
    byte waits in that pipe. *)
Definition dpif_netdev_recv_wait (threaded pipe_readable : bool) (dp : dp_netdev)
    : bool :=
  if threaded then pipe_readable
  else
    match find_nonempty_queue dp with
    | Some _ => true
    | None => false
    end.

Definition dpif_netdev_recv_purge (dp : dp_netdev) : dp_netdev :=
  dp_netdev_purge_queues dp.

(** The loop of [dpif_netdev_run] without THREADED over the ports still to
    visit.  [netdev_recv] gives, for a port, what the device answers in
    this round: an error, or 0 and a frame. *)
Fixpoint run_each (netdev_recv : dp_netdev_port -> Z * ofpbuf) (now : Z)
    (todo : list dp_netdev_port) (m : machine) : outcome machine :=
  match todo with
  | [] => Done m
  | port :: rest =>
      let '(error, packet) := netdev_recv port in
      if error =? 0 then
        m' ← dp_netdev_port_input m now port packet;
        run_each netdev_recv now rest m'
      else run_each netdev_recv now rest m
  end.

Definition dpif_netdev_run (netdev_recv : dp_netdev_port -> Z * ofpbuf) (now : Z)
    (m : machine) : outcome machine :=
  run_each netdev_recv now (port_list (m_dp m)) m.

End Datapath_more.

(** * Creating and destroying the GRE vports (datapath/vport-gre.c,
    lines 193-263 and 286-325) *)

Module GRE_vports.
Import GRE.

(** What the module keeps outside a network namespace: the counter
    [gre_ports], and whether [gre_protocol] is in the kernel's table of GRE
    handlers. *)
Record gre_module : Type := {
  gre_ports : Z;
  gre_protocol_registered : bool
}.

(** What the kernel answers to one call of [gre_create] or [gre64_create]:
    the return values of [gre_cisco_register] and of [ovs_vport_alloc] (0,
    or a negative errno). *)
Record kernel_calls : Type := {
  gre_cisco_register_error : Z;
  ovs_vport_alloc_error : Z
}.

(** [gre_init]: the module and the return value. *)
Definition gre_init (g : gre_module) (calls : kernel_calls) : gre_module * Z :=
  let n := to_int (gre_ports g + 1) in
  if 1 <? n
  then ({| gre_ports := n; gre_protocol_registered := gre_protocol_registered g |}, 0)
  else
    let err := gre_cisco_register_error calls in
    ({| gre_ports := n;
        gre_protocol_registered :=
          if err =? 0 then true else gre_protocol_registered g |},
     err).

Definition gre_exit (g : gre_module) : gre_module :=
  let n := to_int (gre_ports g - 1) in
  if 0 <? n
  then {| gre_ports := n; gre_protocol_registered := gre_protocol_registered g |}
  else {| gre_ports := n; gre_protocol_registered := false |}.

(** [gre_create]: the module, the namespace, and 0 for a vport or the
    negative errno of the [ERR_PTR] returned. *)
Definition gre_create (g : gre_module) (net : vport_net) (calls : kernel_calls)
    : gre_module * vport_net * Z :=
  let '(g, err) := gre_init g calls in
  if negb (err =? 0) then (g, net, err)
  else if gre_vport net then (gre_exit g, net, - EEXIST)
  else if negb (ovs_vport_alloc_error calls =? 0)
  then (gre_exit g, net, ovs_vport_alloc_error calls)
  else (g, {| gre_vport := true; gre64_vport := gre64_vport net |}, 0).

Definition gre_tnl_destroy (g : gre_module) (net : vport_net)
    : gre_module * vport_net :=
  (gre_exit g, {| gre_vport := false; gre64_vport := gre64_vport net |}).

Definition gre64_create (g : gre_module) (net : vport_net) (calls : kernel_calls)
    : gre_module * vport_net * Z :=
  let '(g, err) := gre_init g calls in
  if negb (err =? 0) then (g, net, err)
  else if gre64_vport net then (gre_exit g, net, - EEXIST)
  else if negb (ovs_vport_alloc_error calls =? 0)
  then (gre_exit g, net, ovs_vport_alloc_error calls)
  else (g, {| gre_vport := gre_vport net; gre64_vport := true |}, 0).

Definition gre64_tnl_destroy (g : gre_module) (net : vport_net)
    : gre_module * vport_net :=
  (gre_exit g, {| gre_vport := gre_vport net; gre64_vport := false |}).

End GRE_vports.

(** * Invariants and traces *)

Section Invariants.
Context `{Ext : Externals}.

(** A queue as the code keeps it: both counters are [unsigned int], and
    the ring holds at most MAX_QUEUE_LEN records. *)
Definition queue_ok (q : dp_netdev_queue) : Prop :=
  0 <= q_head q < 2 ^ 32 /\ 0 <= q_tail q < 2 ^ 32
  /\ uint32 (q_head q - q_tail q) <= MAX_QUEUE_LEN.

Definition queues_ok (dp : dp_netdev) : Prop :=
  queue_ok (queue_miss dp) /\ queue_ok (queue_action dp).

(** The records waiting in a queue. *)
Definition queue_len (q : dp_netdev_queue) : Z := uint32 (q_head q - q_tail q).

(** What the action engine may write in a datapath: the two queues and
    [n_lost], nothing else. *)
Definition engine_frame (dp dp' : dp_netdev) : Prop :=
  dp' = set_n_lost (n_lost dp')
          (set_queue_action (queue_action dp')
             (set_queue_miss (queue_miss dp') dp)).

(** A property [P] holds of the actions nested in [a]. *)
Definition nested_hold (P : action -> Prop) (a : action) : Prop :=
  match a with
  | OVS_ACTION_ATTR_SAMPLE attrs =>
      Forall (fun sa => match sa with
                        | OVS_SAMPLE_ATTR_ACTIONS acts => Forall P acts
                        | _ => True
                        end) attrs
  | _ => True
  end.

(** A step of the engine that writes nothing but the queues and [n_lost]. *)
Definition keeps_frame (run : machine * ofpbuf -> outcome (machine * ofpbuf)) : Prop :=
  forall s s', run s = Done s' -> engine_frame (m_dp (fst s)) (m_dp (fst s')).

(** The test of [dp_netdev_sample] on a draw [r]: the nested actions are
    reached unless [random_uint32() >= probability]. *)
Definition sample_passes (probability r : Z) : bool := negb (probability <=? r).

(** How many of the draws 0, ..., n-1 pass the test. *)
Definition passing_draws (probability n : Z) : Z :=
  Z.of_nat (length (List.filter (sample_passes probability) (seqZ 0 n))).

(** A change of the port set through the public interface. *)
Inductive port_mutation : Type :=
| PORT_ADD (netdev : netdev) (port_nop : Z) (calls : netdev_calls)
| PORT_DEL (port_no : Z).

(** The datapath after the call and the call's return value. *)
Definition apply_mutation (dp : dp_netdev) (mu : port_mutation) : dp_netdev * Z :=
  match mu with
  | PORT_ADD netdev port_nop calls =>
      let '(dp', _, error) := dpif_netdev_port_add dp netdev port_nop calls in
      (dp', error)
  | PORT_DEL port_no => dpif_netdev_port_del dp port_no
  end.

(** A run of calls: the final datapath and how many of them returned 0. *)
Fixpoint apply_mutations (dp : dp_netdev) (mus : list port_mutation) : dp_netdev * Z :=
  match mus with
  | [] => (dp, 0)
  | mu :: rest =>
      let '(dp', error) := apply_mutation dp mu in
      let '(dp'', n) := apply_mutations dp' rest in
      (dp'', if error =? 0 then n + 1 else n)
  end.

(** [n] calls of [dpif_netdev_port_poll] in a row on one handle, the
    datapath staying as it is: the handle at the end and the values
    returned. *)
Fixpoint poll_n (n : nat) (dp : dp_netdev) (dpif : dpif_netdev)
    : dpif_netdev * list Z :=
  match n with
  | O => (dpif, [])
  | S n' =>
      let '(dpif', r) := dpif_netdev_port_poll dp dpif in
      let '(dpif'', rs) := poll_n n' dp dpif' in
      (dpif'', r :: rs)
  end.

(** [n] frames delivered one after the other to [dp_netdev_port_input]. *)
Fixpoint port_input_n (n : nat) (m : machine) (now : Z) (port : dp_netdev_port)
    (packet : ofpbuf) : outcome machine :=
  match n with
  | O => Done m
  | S n' =>
      m' ← dp_netdev_port_input m now port packet;
      port_input_n n' m' now port packet
  end.

End Invariants.

(** * Further invariants and traces *)

Section More_invariants.
Context `{Ext : Externals}.

(** The records waiting in a queue, oldest first: the slots of the ring
    from [tail] up to [head]. *)
Definition queue_contents (q : dp_netdev_queue) : list (option dp_netdev_upcall) :=
  (fun j => upcalls q !! Z.land (uint32 (q_tail q + j)) QUEUE_MASK)
    <$> seqZ 0 (queue_len q).

(** The frames that the waiting records carry, oldest first. *)
Definition queue_packets (q : dp_netdev_queue) : list (option ofpbuf) :=
  (fun u : option dp_netdev_upcall => upcall_packet <$> u) <$> queue_contents q.

(** Frames delivered one after the other to [dp_netdev_port_input]. *)
Fixpoint port_input_each (frames : list (dp_netdev_port * ofpbuf)) (now : Z)
    (m : machine) : outcome machine :=
  match frames with
  | [] => Done m
  | (port, packet) :: rest =>
      m' ← dp_netdev_port_input m now port packet;
      port_input_each rest now m'
  end.

(** The array of ports and the list of ports hold the same ports, each in
    the slot of its number and once in the list. *)
Definition ports_ok (dp : dp_netdev) : Prop :=
  (forall n p, ports dp !! n = Some p ->
     port_no p = n /\ 0 <= n < MAX_PORTS /\ p ∈ port_list dp)
  /\ (forall p, p ∈ port_list dp -> ports dp !! port_no p = Some p)
  /\ NoDup (port_no <$> port_list dp).

(** The LOCAL port as [create_dp_netdev] adds it: slot 0 holds an internal
    port, numbered 0, for the device named as the datapath. *)
Definition local_port_ok (dp : dp_netdev) : Prop :=
  exists p,
    ports dp !! OVSP_LOCAL = Some p
    /\ port_no p = OVSP_LOCAL
    /\ port_type p = "internal"
    /\ netdev_vport_get_dpif_port (port_netdev p) = dp_name dp.

(** One call of the interface on a datapath, whatever it returns: the
    datapath before the call and after it.  These are the calls that write
    to the datapath; a datapath that a close frees is no longer there. *)
Inductive datapath_call (dp : dp_netdev) : dp_netdev -> Prop :=
| call_port_set (mu : port_mutation) :
    datapath_call dp (fst (apply_mutation dp mu))
| call_open :
    datapath_call dp (fst (create_dpif_netdev dp))
| call_close (dp_netdevs dp_netdevs' : gmap string dp_netdev) (dpif : dpif_netdev)
    (dp' : dp_netdev) :
    dp_netdevs !! dpif_dp dpif = Some dp ->
    dpif_netdev_close dp_netdevs dpif = CLOSED dp_netdevs' ->
    dp_netdevs' !! dpif_dp dpif = Some dp' ->
    datapath_call dp dp'
| call_destroy (dp_netdevs : gmap string dp_netdev) (dpif : dpif_netdev)
    (dp' : dp_netdev) :
    dp_netdevs !! dpif_dp dpif = Some dp ->
    fst (dpif_netdev_destroy dp_netdevs dpif) !! dpif_dp dpif = Some dp' ->
    datapath_call dp dp'
| call_flow_put (put : dpif_flow_put) :
    datapath_call dp (fst (fst (dpif_netdev_flow_put dp put)))
| call_flow_del (del : dpif_flow_del) :
    datapath_call dp (fst (fst (dpif_netdev_flow_del dp del)))
| call_flow_flush :
    datapath_call dp (fst (dpif_netdev_flow_flush dp))
| call_recv :
    datapath_call dp (fst (fst (dpif_netdev_recv dp)))
| call_recv_purge :
    datapath_call dp (dpif_netdev_recv_purge dp)
| call_execute (m m' : machine) (execute : dpif_execute) (r : Z) :
    m_dp m = dp ->
    dpif_netdev_execute m execute = Done (m', r) ->
    datapath_call dp (m_dp m')
| call_run (netdev_recv : dp_netdev_port -> Z * ofpbuf) (now : Z) (m m' : machine) :
    m_dp m = dp ->
    dpif_netdev_run netdev_recv now m = Done m' ->
    datapath_call dp (m_dp m').

(** Any number of such calls, one after the other. *)
Inductive datapath_calls (dp : dp_netdev) : dp_netdev -> Prop :=
| calls_none : datapath_calls dp dp
| calls_more (dp' dp'' : dp_netdev) :
    datapath_calls dp dp' -> datapath_call dp' dp'' -> datapath_calls dp dp''.

(** No two entries of the flow table have the same key. *)
Definition flow_keys_unique (dp : dp_netdev) : Prop :=
  NoDup (key <$> flow_table dp).

(** A whole port dump: [dpif_netdev_port_dump_next] called until it returns
    EOF, at most [fuel] times; [None] when the calls run out before that. *)
Fixpoint port_dump_all (fuel : nat) (dp : dp_netdev) (state : dp_netdev_port_state)
    : option (list dpif_port) :=
  match fuel with
  | O => None
  | S fuel' =>
      match dpif_netdev_port_dump_next dp state with
      | (state', 0, Some port) => cons port <$> port_dump_all fuel' dp state'
      | _ => Some []
      end
  end.

(** The registry as the code keeps it: a datapath is filed under its own
    name, its count of handles fits an [int], and it is marked destroyed
    only while a handle is open. *)
Definition registry_ok (dp_netdevs : gmap string dp_netdev) : Prop :=
  forall name dp, dp_netdevs !! name = Some dp ->
    dp_name dp = name /\ 0 <= open_cnt dp <= INT_MAX
    /\ (destroyed dp = true -> 0 < open_cnt dp).

(** The statistics of a flow that no packet has hit. *)
Definition zero_stats : dpif_flow_stats :=
  {| n_packets := 0; n_bytes := 0; stats_used := 0; stats_tcp_flags := 0 |}.


End More_invariants.

(** * What the action engine and the ingress path may do *)

Section Engine_effects.
Context `{Ext : Externals}.

(** The effect of running actions: in the datapath nothing but the ACTION
    queue and [n_lost] is written; that queue stays within its invariant;
    frames are only added to those sent, each on a device that is a port of
    the datapath. *)
Definition engine_effect (m m' : machine) : Prop :=
  m_dp m' = set_n_lost (n_lost (m_dp m'))
              (set_queue_action (queue_action (m_dp m')) (m_dp m))
  /\ (queue_ok (queue_action (m_dp m)) -> queue_ok (queue_action (m_dp m')))
  /\ exists sent,
       m_sent m' = m_sent m ++ sent
       /\ Forall (fun s => exists n, 0 <= n < MAX_PORTS
                                     /\ ports (m_dp m) !! n = Some (fst s)) sent.

(** A step of the engine whose runs are all related by [R]. *)
Definition keeps_relation (R : machine -> machine -> Prop)
    (run : machine * ofpbuf -> outcome (machine * ofpbuf)) : Prop :=
  forall s s', run s = Done s' -> R (fst s) (fst s').


End Engine_effects.

(** The module's counter and registration as the code keeps them when
    registration succeeds: the handler is registered exactly while vports
    are counted. *)
Definition gre_module_ok (g : GRE_vports.gre_module) : Prop :=
  0 <= GRE_vports.gre_ports g
  /\ (GRE_vports.gre_protocol_registered g = true <-> 0 < GRE_vports.gre_ports g).

(** * A concrete instance of the collaborators

    A flow key here is the input port and the first 14 bytes of the frame; a
    serialized key is the port's byte followed by those bytes; the packet
    editors leave the frame alone; the generator replays a list of draws. *)

Module Demo.

Definition demo_flow : Type := Z * list byte.

Definition demo_key_to_flow (k : nlattrs) : odp_key_fitness * demo_flow :=
  match k with
  | b :: rest => (ODP_FIT_PERFECT, (Z.of_N (Byte.to_N b), rest))
  | [] => (ODP_FIT_ERROR, (0, []))
  end.

Definition demo_key_from_flow (f : demo_flow) (in_port : Z) : nlattrs :=
  match Byte.of_N (Z.to_N in_port) with
  | Some b => b :: snd f
  | None => snd f
  end.

(** The generator: its state is the list of the draws still to come (0
    once they are used up); a number that does not fit 32 bits counts as 0. *)
Definition demo_draw (r : Z) : Z :=
  if (0 <=? r) && (Z.log2 r <? 32) then r else 0.

Definition demo_random (s : list Z) : Z * list Z :=
  match s with
  | r :: rest => (demo_draw r, rest)
  | [] => (0, [])
  end.

Definition demo_tcp_flags_range (p : ofpbuf) (f : demo_flow) : 0 <= 16 < 256.
Proof. split; [discriminate | reflexivity]. Qed.

Definition demo_random_range (s : list Z) : 0 <= fst (demo_random s) < 2 ^ 32.
Proof.
  destruct s as [| r rest]; simpl; [split; [discriminate | reflexivity] |].
  unfold demo_draw. destruct (Z.leb_spec 0 r); simpl;
    [| split; [discriminate | reflexivity]].
  destruct (Z.ltb_spec (Z.log2 r) 32); [| split; [discriminate | reflexivity]].
  split; [assumption |]. destruct (Z.eq_dec r 0) as [-> | Hne]; [reflexivity |].
  apply Z.log2_lt_pow2; lia.
Qed.

Definition externals : Externals :=
  {| flow := demo_flow;
     flow_eq_dec := _;
     flow_in_port := fst;
     flow_extract := fun p in_port => (in_port, take 14 p);
     packet_get_tcp_flags := fun _ _ => 16;
     packet_get_tcp_flags_range := demo_tcp_flags_range;
     odp_flow_key_to_flow := demo_key_to_flow;
     odp_flow_key_from_flow := demo_key_from_flow;
     eth_push_vlan := fun p _ => p;
     eth_pop_vlan := fun p => p;
     push_mpls := fun p _ _ => p;
     pop_mpls := fun p _ => p;
     set_mpls_lse := fun p _ => p;
     packet_set_ipv4 := fun p _ _ _ _ => p;
     packet_set_ipv6 := fun p _ _ _ _ _ _ => p;
     packet_set_tcp_port := fun p _ _ => p;
     packet_set_udp_port := fun p _ _ => p;
     rng_state := list Z;
     random_uint32 := demo_random;
     random_uint32_range := demo_random_range |}.

Definition calls_ok : netdev_calls :=
  {| netdev_open_error := 0; netdev_listen_error := 0;
     netdev_turn_flags_on_error := 0 |}.

Definition dev (name : string) : netdev :=
  {| netdev_vport_get_dpif_port := name; netdev_get_type := "dummy" |}.

(** A datapath "d" of a dummy class as [create_dp_netdev] makes it. *)
Definition dp0 : @dp_netdev externals :=
  match @create_dp_netdev externals "d" (dpif_dummy_class "dummy") calls_ok with
  | (_, Some dp) => dp
  | (_, None) => @dp_netdev_xzalloc externals "d" (dpif_dummy_class "dummy")
  end.

(** The same with ports 1, 2 and 3 added for the devices p1, p2, p3. *)
Definition dp3 : @dp_netdev externals :=
  fst (@apply_mutations externals dp0
         [PORT_ADD (dev "p1") UINT32_MAX calls_ok;
          PORT_ADD (dev "p2") UINT32_MAX calls_ok;
          PORT_ADD (dev "p3") UINT32_MAX calls_ok]).

Definition machine_of (dp : @dp_netdev externals) (draws : list Z)
    : @machine externals :=
  {| m_dp := dp; m_sent := []; m_rng := draws |}.

Definition port1 : dp_netdev_port :=
  {| port_no := 1; port_netdev := dev "p1"; port_type := "dummy" |}.

(** A frame of 64 bytes: destination 00:11:22:33:44:55, source
    00:01:02:03:04:05, ethertype 0x0800, zero padding. *)
Definition frame64 : ofpbuf :=
  [x00; x11; x22; x33; x44; x55; x00; x01; x02; x03; x04; x05; x08; x00]
  ++ repeat x00 50.

(** The serialized key of [frame64] received on port 1. *)
Definition key1 : nlattrs := x01 :: take 14 frame64.

(** The machine after MAX_QUEUE_LEN frames have missed on port 1 and no
    record has been received yet. *)
Definition machine_full : @machine externals :=
  match @port_input_n externals 128 (machine_of dp3 []) 0 port1 frame64 with
  | Done m => m
  | Fault _ => machine_of dp3 []
  end.

(** A flow table with MAX_FLOWS entries, the keys being 0 .. MAX_FLOWS-1 on
    an empty frame. *)
Definition flow_numbered (i : nat) : @dp_netdev_flow externals :=
  {| key := (Z.of_nat i, []) : @flow externals; used := 0; packet_count := 0;
     byte_count := 0; tcp_flags := 0; actions := [] |}.

Definition full_table : list (@dp_netdev_flow externals) :=
  List.map flow_numbered (seq 0 (Z.to_nat MAX_FLOWS)).

Definition dp_full : @dp_netdev externals :=
  @set_flow_table externals full_table dp3.

(** The scenario S1: on [dp3] the controller installs a flow for
    [frame64] on port 1 with the action OUTPUT(2). *)
Definition put_s1 : dpif_flow_put :=
  {| put_flags := DPIF_FP_CREATE; put_key := key1;
     put_actions := [OVS_ACTION_ATTR_OUTPUT 2]; put_stats := false |}.

Definition dp_s1 : @dp_netdev externals :=
  fst (fst (@dpif_netdev_flow_put externals dp3 put_s1)).

Definition flow_s1 : @dp_netdev_flow externals :=
  {| key := (1, take 14 frame64) : @flow externals; used := 0; packet_count := 0;
     byte_count := 0; tcp_flags := 0; actions := [OVS_ACTION_ATTR_OUTPUT 2] |}.

(** The scenario S6: SAMPLE of OUTPUT(2) with a probability, then
    OUTPUT(3). *)
Definition actions_s6 (probability : Z) : list action :=
  [OVS_ACTION_ATTR_SAMPLE
     [OVS_SAMPLE_ATTR_PROBABILITY probability;
      OVS_SAMPLE_ATTR_ACTIONS [OVS_ACTION_ATTR_OUTPUT 2]];
   OVS_ACTION_ATTR_OUTPUT 3].

(** The numbers of the ports that frames were sent on, oldest first. *)
Definition sent_on (m : @machine externals) : list Z :=
  List.map (fun s => port_no (fst s)) (m_sent m).

(** A client opens [dp0]; then ports are added for p1 and p2. *)
Definition dp_opened : @dp_netdev externals := fst (@create_dpif_netdev externals dp0).

Definition handle0 : dpif_netdev := snd (@create_dpif_netdev externals dp0).

(** [dp_opened] with another value of the serial. *)
Definition dp_at_serial (s : Z) : @dp_netdev externals :=
  @set_ports externals (ports dp_opened) (port_list dp_opened) s dp_opened.

(** Port 1 is added and deleted again, [n] times over. *)
Fixpoint rounds (n : nat) : list port_mutation :=
  match n with
  | O => []
  | S n' => PORT_ADD (dev "p1") 1 calls_ok :: PORT_DEL 1 :: rounds n'
  end.

(** [dp_opened] after 2^32 - 2 changes of its port set. *)
Definition dp_wrapping : @dp_netdev externals := dp_at_serial UINT32_MAX.

Definition two_adds : list port_mutation :=
  [PORT_ADD (dev "p1") UINT32_MAX calls_ok;
   PORT_ADD (dev "p2") UINT32_MAX calls_ok].

(** [machine_full] after one record has been received: room for one. *)
Definition machine_room1 : @machine externals :=
  @set_m_dp externals
    (fst (fst (@dpif_netdev_recv externals (m_dp machine_full)))) machine_full.

(** Two frames that miss on port 1. *)
Definition burst2 : list (dp_netdev_port * ofpbuf) :=
  [(port1, frame64); (port1, frame64)].

(** An execute of OUTPUT(2) on [frame64] under the key of port 1. *)
Definition execute_s1 : dpif_execute :=
  {| execute_packet := frame64; execute_key := key1;
     execute_actions := [OVS_ACTION_ATTR_OUTPUT 2] |}.

Definition machine_executed : @machine externals :=
  match @dpif_netdev_execute externals (machine_of dp3 []) execute_s1 with
  | Done (m, _) => m
  | Fault _ => machine_of dp3 []
  end.

(** One round of the devices: port 1 and port 2 deliver [frame64], port 3
    a frame of one byte, the LOCAL port nothing. *)
Definition recv_round (port : dp_netdev_port) : Z * ofpbuf :=
  if port_no port =? 1 then (0, frame64)
  else if port_no port =? 2 then (0, frame64)
  else if port_no port =? 3 then (0, [x00])
  else (EAGAIN, []).

(** [dp_s1] after that round: a hit on port 1, a miss on port 2. *)
Definition machine_ran : @machine externals :=
  match @dpif_netdev_run externals recv_round 5 (machine_of dp_s1 []) with
  | Done m => m
  | Fault _ => machine_of dp_s1 []
  end.

(** The delete of the flow of S1. *)
Definition del_s1 : dpif_flow_del := {| del_key := key1; del_stats := true |}.

(** The registry after "d" has been created and opened once. *)
Definition registry1 : gmap string (@dp_netdev externals) := <["d" := dp_opened]> ∅.

(** The scenario S1 from its start: [frame64] misses on [dp3]. *)
Definition machine_missed : @machine externals :=
  match @dp_netdev_port_input externals (machine_of dp3 []) 0 port1 frame64 with
  | Done m => m
  | Fault _ => machine_of dp3 []
  end.

(** The flow of S1 is put in the datapath that holds the queued record. *)
Definition dp_installed : @dp_netdev externals :=
  fst (fst (@dpif_netdev_flow_put externals (m_dp machine_missed) put_s1)).

(** The datapath "d" in use: opened through one handle, with ports added
    for p1 and p2 and the flow of the scenario S1 installed. *)
Definition dp_in_use : @dp_netdev externals :=
  fst (fst (@dpif_netdev_flow_put externals
              (fst (@apply_mutation externals
                      (fst (@apply_mutation externals
                              (fst (@create_dpif_netdev externals dp0))
                              (PORT_ADD (dev "p1") UINT32_MAX calls_ok)))
                      (PORT_ADD (dev "p2") UINT32_MAX calls_ok)))
              put_s1)).

End Demo.

(** * Properties *)

(** ** Arithmetic of the machine integers *)

Ltac pow2_consts :=
  repeat match goal with
  | |- context [2 ^ ?n] =>
      let v := eval vm_compute in (2 ^ n) in change (2 ^ n) with v
  | H : context [2 ^ ?n] |- _ =>
      let v := eval vm_compute in (2 ^ n) in change (2 ^ n) with v in H
  end.

Lemma uint32_range (z : Z) : 0 <= uint32 z < 2 ^ 32.
Proof. apply Z.mod_pos_bound. lia. Qed.

Lemma uint32_small (z : Z) : 0 <= z < 2 ^ 32 -> uint32 z = z.
Proof. apply Z.mod_small. Qed.

Lemma uint32_succ_ne (z : Z) : 0 <= z < 2 ^ 32 -> uint32 (z + 1) <> z.
Proof.
  intros Hz. unfold uint32. destruct (Z.eq_dec z (2 ^ 32 - 1)) as [-> | Hne].
  - vm_compute. discriminate.
  - rewrite Z.mod_small; lia.
Qed.

Lemma to_llong_small (z : Z) : - 2 ^ 63 <= z < 2 ^ 63 -> to_llong z = z.
Proof. intros Hz. unfold to_llong. rewrite Z.mod_small; pow2_consts; lia. Qed.

Lemma to_int_small (z : Z) : - 2 ^ 31 <= z < 2 ^ 31 -> to_int z = z.
Proof. intros Hz. unfold to_int. rewrite Z.mod_small; pow2_consts; lia. Qed.

Lemma lor_uint8 (a b : Z) : 0 <= a < 256 -> 0 <= b < 256 -> uint8 (Z.lor a b) = Z.lor a b.
Proof.
  intros Ha Hb. apply Z.mod_small.
  assert (H0 : 0 <= Z.lor a b) by (apply Z.lor_nonneg; lia).
  split; [exact H0 |].
  destruct (Z.eq_dec (Z.lor a b) 0) as [-> | Hne]; [reflexivity |].
  apply Z.log2_lt_pow2; [lia |]. rewrite Z.log2_lor by lia.
  assert (La : Z.log2 a < 8).
  { destruct (Z.eq_dec a 0) as [-> | ?]; [reflexivity |].
    apply Z.log2_lt_pow2; [lia |]. change (2 ^ 8) with 256. lia. }
  assert (Lb : Z.log2 b < 8).
  { destruct (Z.eq_dec b 0) as [-> | ?]; [reflexivity |].
    apply Z.log2_lt_pow2; [lia |]. change (2 ^ 8) with 256. lia. }
  lia.
Qed.

Lemma to_int_range (z : Z) : - 2 ^ 31 <= to_int z < 2 ^ 31.
Proof.
  unfold to_int. pose proof (Z.mod_pos_bound (z + 2 ^ 31) (2 ^ 32)).
  pow2_consts. lia.
Qed.

(** ** C9: the 64-bit tunnel id over GRE64 *)

Module GRE_facts.
Import GRE.

Lemma byte_of_range (i v : Z) : 0 <= byte_of i v < 256.
Proof. unfold byte_of. apply Z.mod_pos_bound. lia. Qed.

Lemma bytes32 (v : Z) : 0 <= v < 2 ^ 32 ->
  v = byte_of 0 v + 256 * byte_of 1 v + 65536 * byte_of 2 v + 16777216 * byte_of 3 v.
Proof.
  intros H. unfold byte_of. pow2_consts. Z.div_mod_to_equations. lia.
Qed.

Lemma byte_of_digits (b0 b1 b2 b3 : Z) :
  0 <= b0 < 256 -> 0 <= b1 < 256 -> 0 <= b2 < 256 -> 0 <= b3 < 256 ->
  let v := b0 + 256 * b1 + 65536 * b2 + 16777216 * b3 in
  byte_of 0 v = b0 /\ byte_of 1 v = b1 /\ byte_of 2 v = b2 /\ byte_of 3 v = b3.
Proof.
  intros. unfold byte_of, v. pow2_consts.
  repeat split; Z.div_mod_to_equations; lia.
Qed.

Lemma swab32_range (v : Z) : 0 <= swab32 v < 2 ^ 32.
Proof.
  unfold swab32. pose proof (byte_of_range 0 v). pose proof (byte_of_range 1 v).
  pose proof (byte_of_range 2 v). pose proof (byte_of_range 3 v). pow2_consts. lia.
Qed.

Lemma swab32_involutive (v : Z) : 0 <= v < 2 ^ 32 -> swab32 (swab32 v) = v.
Proof.
  intros H. rewrite (bytes32 v H) at 2.
  pose proof (byte_of_range 0 v) as H0. pose proof (byte_of_range 1 v) as H1.
  pose proof (byte_of_range 2 v) as H2. pose proof (byte_of_range 3 v) as H3.
  destruct (byte_of_digits (byte_of 3 v) (byte_of 2 v) (byte_of 1 v) (byte_of 0 v)
              H3 H2 H1 H0) as (E0 & E1 & E2 & E3).
  assert (Hs : swab32 v = byte_of 3 v + 256 * byte_of 2 v + 65536 * byte_of 1 v
                          + 16777216 * byte_of 0 v)
    by (unfold swab32; pow2_consts; lia).
  unfold swab32 at 1. rewrite Hs, E0, E1, E2, E3. pow2_consts. lia.
Qed.

(** The bytes of a 64-bit value are those of its two halves. *)
Lemma byte_of_low (i v : Z) : 0 <= v -> 0 <= i < 4 ->
  byte_of i v = byte_of i (v mod 2 ^ 32).
Proof.
  intros Hv Hi. unfold byte_of.
  assert (i = 0 \/ i = 1 \/ i = 2 \/ i = 3) as [-> | [-> | [-> | ->]]] by lia;
    pow2_consts; Z.div_mod_to_equations; lia.
Qed.

Lemma byte_of_high (i v : Z) : 0 <= v -> 0 <= i < 4 ->
  byte_of (i + 4) v = byte_of i (v / 2 ^ 32).
Proof.
  intros Hv Hi. unfold byte_of.
  assert (i = 0 \/ i = 1 \/ i = 2 \/ i = 3) as [-> | [-> | [-> | ->]]] by lia;
    simpl Z.add; pow2_consts; Z.div_mod_to_equations; lia.
Qed.

Lemma swab64_halves (v : Z) : 0 <= v ->
  swab64 v = swab32 (v mod 2 ^ 32) * 2 ^ 32 + swab32 (v / 2 ^ 32).
Proof.
  intros Hv. unfold swab64, swab32.
  rewrite <- !(byte_of_low _ v) by lia.
  rewrite <- (byte_of_high 0 v), <- (byte_of_high 1 v), <- (byte_of_high 2 v),
          <- (byte_of_high 3 v) by lia.
  change (0 + 4) with 4. change (1 + 4) with 5. change (2 + 4) with 6.
  change (3 + 4) with 7. pow2_consts. lia.
Qed.

Lemma swab64_range (v : Z) : 0 <= v -> 0 <= swab64 v < 2 ^ 64.
Proof.
  intros Hv. rewrite swab64_halves by lia.
  pose proof (swab32_range (v mod 2 ^ 32)). pose proof (swab32_range (v / 2 ^ 32)).
  pow2_consts. lia.
Qed.

Lemma halves (v : Z) : 0 <= v < 2 ^ 64 ->
  0 <= v mod 2 ^ 32 < 2 ^ 32 /\ 0 <= v / 2 ^ 32 < 2 ^ 32.
Proof. intros Hv. pow2_consts. Z.div_mod_to_equations. lia. Qed.

Lemma halves_of_sum (h l : Z) : 0 <= h -> 0 <= l < 2 ^ 32 ->
  (h * 2 ^ 32 + l) mod 2 ^ 32 = l /\ (h * 2 ^ 32 + l) / 2 ^ 32 = h.
Proof. intros Hh Hl. pow2_consts. Z.div_mod_to_equations. lia. Qed.

Lemma swab64_involutive (v : Z) : 0 <= v < 2 ^ 64 -> swab64 (swab64 v) = v.
Proof.
  intros Hv. destruct (halves v Hv) as [Hl Hh].
  pose proof (swab32_range (v mod 2 ^ 32)) as Rl.
  pose proof (swab32_range (v / 2 ^ 32)) as Rh.
  rewrite (swab64_halves v) by lia.
  rewrite swab64_halves by lia.
  destruct (halves_of_sum (swab32 (v mod 2 ^ 32)) (swab32 (v / 2 ^ 32))) as [-> ->];
    [lia | lia |].
  rewrite !swab32_involutive by lia.
  pow2_consts. Z.div_mod_to_equations. lia.
Qed.

Lemma lor_mul32 (a b : Z) : 0 <= a -> 0 <= b < 2 ^ 32 ->
  Z.lor (a * 2 ^ 32) b = a * 2 ^ 32 + b.
Proof.
  intros Ha Hb.
  assert (Hland : Z.land (a * 2 ^ 32) b = 0).
  { apply Z.bits_inj'. intros n Hn. rewrite Z.land_spec, Z.bits_0.
    destruct (Z.lt_ge_cases n 32).
    - rewrite Z.mul_pow2_bits_low by lia. reflexivity.
    - destruct (Z.eq_dec b 0) as [-> | Hb0]; [rewrite Z.bits_0; apply andb_false_r |].
      rewrite (Z.bits_above_log2 b n); [apply andb_false_r | lia |].
      assert (Z.log2 b < 32) by (apply Z.log2_lt_pow2; lia). lia. }
  rewrite <- (Z.lxor_lor _ _ Hland). symmetry. apply Z.add_nocarry_lxor, Hland.
Qed.

(** [key_to_tunnel_id] on 32-bit arguments, as arithmetic. *)
Lemma key_to_tunnel_id_eq (e : endianness) (key seq : Z) :
  0 <= key < 2 ^ 32 -> 0 <= seq < 2 ^ 32 ->
  key_to_tunnel_id e key seq =
    match e with
    | BIG_ENDIAN => seq * 2 ^ 32 + key
    | LITTLE_ENDIAN => key * 2 ^ 32 + seq
    end.
Proof.
  intros Hk Hs. unfold key_to_tunnel_id, u64, u32.
  destruct e.
  - rewrite (Z.mod_small seq) by (pow2_consts; lia).
    rewrite (Z.mod_small key) by lia.
    rewrite Z.shiftl_mul_pow2 by lia.
    rewrite (Z.mod_small (seq * 2 ^ 32)) by (pow2_consts; lia).
    rewrite lor_mul32 by lia.
    apply Z.mod_small. pow2_consts. lia.
  - rewrite (Z.mod_small key) by (pow2_consts; lia).
    rewrite (Z.mod_small seq) by lia.
    rewrite Z.shiftl_mul_pow2 by lia.
    rewrite (Z.mod_small (key * 2 ^ 32)) by (pow2_consts; lia).
    rewrite lor_mul32 by lia.
    apply Z.mod_small. pow2_consts. lia.
Qed.

(** The two halves of the [__be64] that holds the number [T], read back as
    numbers: the low and the high 32 bits of [T]. *)
Lemma low32_of_be64 (e : endianness) (T : Z) : 0 <= T < 2 ^ 64 ->
  be32_to_cpu e (be64_get_low32 e (cpu_to_be64 e T)) = T mod 2 ^ 32.
Proof.
  intros HT. destruct (halves T HT) as [Hl Hh]. destruct e; simpl.
  - reflexivity.
  - pose proof (swab32_range (T mod 2 ^ 32)). pose proof (swab32_range (T / 2 ^ 32)).
    unfold u32, u64. rewrite Z.shiftr_div_pow2 by lia.
    rewrite (Z.mod_small (swab64 T)) by (apply swab64_range; lia).
    rewrite swab64_halves by lia.
    destruct (halves_of_sum (swab32 (T mod 2 ^ 32)) (swab32 (T / 2 ^ 32))) as [_ ->];
      [lia | lia |].
    rewrite Z.mod_small by lia. apply swab32_involutive. lia.
Qed.

Lemma high32_of_be64 (e : endianness) (T : Z) : 0 <= T < 2 ^ 64 ->
  be32_to_cpu e (be64_get_high32 e (cpu_to_be64 e T)) = T / 2 ^ 32.
Proof.
  intros HT. destruct (halves T HT) as [Hl Hh]. destruct e; simpl.
  - unfold u32, u64. rewrite Z.shiftr_div_pow2 by lia.
    rewrite (Z.mod_small T) by lia. apply Z.mod_small. lia.
  - pose proof (swab32_range (T mod 2 ^ 32)). pose proof (swab32_range (T / 2 ^ 32)).
    unfold u32. rewrite swab64_halves by lia.
    destruct (halves_of_sum (swab32 (T mod 2 ^ 32)) (swab32 (T / 2 ^ 32))) as [-> _];
      [lia | lia |].
    apply swab32_involutive. lia.
Qed.

Lemma be32_round (e : endianness) (v : Z) : 0 <= v < 2 ^ 32 ->
  be32_to_cpu e (cpu_to_be32 e v) = v /\ 0 <= cpu_to_be32 e v < 2 ^ 32.
Proof.
  intros Hv. destruct e; simpl; [lia |].
  split; [apply swab32_involutive; lia | apply swab32_range].
Qed.

(** Recomposition on a host of byte order [e] from the numbers [lo] and
    [hi] read off the wire. *)
Lemma key_to_tunnel_id_wire (e : endianness) (lo hi : Z) :
  0 <= lo < 2 ^ 32 -> 0 <= hi < 2 ^ 32 ->
  key_to_tunnel_id e (cpu_to_be32 e lo) (cpu_to_be32 e hi)
  = cpu_to_be64 e (hi * 2 ^ 32 + lo).
Proof.
  intros Hl Hh.
  destruct (be32_round e lo Hl) as [_ Rl]. destruct (be32_round e hi Hh) as [_ Rh].
  rewrite key_to_tunnel_id_eq by assumption.
  destruct e; simpl; [reflexivity |].
  rewrite swab64_halves by lia.
  destruct (halves_of_sum hi lo) as [-> ->]; [lia | lia |]. reflexivity.
Qed.

Lemma flags_have_seq (f : Z) :
  Z.land (Z.lor (filter_tnl_flags f) TUNNEL_SEQ) TUNNEL_SEQ = TUNNEL_SEQ.
Proof.
  unfold filter_tnl_flags. rewrite Z.land_lor_distr_l.
  rewrite <- Z.land_assoc. change (Z.land (Z.lor TUNNEL_CSUM TUNNEL_KEY) TUNNEL_SEQ) with 0.
  rewrite Z.land_0_r. reflexivity.
Qed.

Lemma flags_keep_key (f : Z) :
  Z.land (Z.lor (filter_tnl_flags f) TUNNEL_SEQ) TUNNEL_KEY = Z.land f TUNNEL_KEY.
Proof.
  unfold filter_tnl_flags. rewrite Z.land_lor_distr_l.
  rewrite <- Z.land_assoc. change (Z.land (Z.lor TUNNEL_CSUM TUNNEL_KEY) TUNNEL_KEY) with TUNNEL_KEY.
  change (Z.land TUNNEL_SEQ TUNNEL_KEY) with 0. apply Z.lor_0_r.
Qed.

Lemma filter_keeps_key (f : Z) :
  Z.land (filter_tnl_flags f) TUNNEL_KEY = Z.land f TUNNEL_KEY.
Proof.
  unfold filter_tnl_flags. rewrite <- Z.land_assoc. reflexivity.
Qed.

Lemma filter_keeps_csum (f : Z) :
  Z.land (filter_tnl_flags f) TUNNEL_CSUM = Z.land f TUNNEL_CSUM.
Proof.
  unfold filter_tnl_flags. rewrite <- Z.land_assoc. reflexivity.
Qed.

Lemma filter_drops_seq (f : Z) : Z.land (filter_tnl_flags f) TUNNEL_SEQ = 0.
Proof.
  unfold filter_tnl_flags. rewrite <- Z.land_assoc.
  change (Z.land (Z.lor TUNNEL_CSUM TUNNEL_KEY) TUNNEL_SEQ) with 0. apply Z.land_0_r.
Qed.

Lemma flags_keep_csum (f : Z) :
  Z.land (Z.lor (filter_tnl_flags f) TUNNEL_SEQ) TUNNEL_CSUM = Z.land f TUNNEL_CSUM.
Proof.
  rewrite Z.land_lor_distr_l, filter_keeps_csum.
  change (Z.land TUNNEL_SEQ TUNNEL_CSUM) with 0. apply Z.lor_0_r.
Qed.

Lemma filter_of_header_flags (f : Z) :
  filter_tnl_flags (Z.lor (filter_tnl_flags f) TUNNEL_SEQ) = filter_tnl_flags f.
Proof.
  unfold filter_tnl_flags. rewrite Z.land_lor_distr_l, <- Z.land_assoc, Z.land_diag.
  change (Z.land TUNNEL_SEQ (Z.lor TUNNEL_CSUM TUNNEL_KEY)) with 0. apply Z.lor_0_r.
Qed.

(** The length that [gre64_send] reserves is the length of the header it
    describes when the flags of the tunnel key are without SEQ, and four
    bytes more when they have it. *)
Lemma gre64_hlen (f : Z) :
  ip_gre_calc_hlen (Z.lor (filter_tnl_flags f) TUNNEL_SEQ)
  = ip_gre_calc_hlen f + GRE_HEADER_SECTION
    - (if Z.land f TUNNEL_SEQ =? 0 then 0 else 4).
Proof.
  unfold ip_gre_calc_hlen, GRE_HEADER_SECTION.
  rewrite flags_keep_csum, flags_keep_key, flags_have_seq.
  change (TUNNEL_SEQ =? 0) with false. cbv iota. lia.
Qed.

(** The length that [gre_send] reserves, likewise. *)
Lemma gre_hlen (f : Z) :
  ip_gre_calc_hlen (Z.lor (filter_tnl_flags f) 0)
  = ip_gre_calc_hlen f - (if Z.land f TUNNEL_SEQ =? 0 then 0 else 4).
Proof.
  unfold ip_gre_calc_hlen. rewrite Z.lor_0_r.
  rewrite filter_keeps_csum, filter_keeps_key, filter_drops_seq.
  change (0 =? 0) with true. cbv iota. lia.
Qed.

(** C9.  On a sending host of either byte order, GRE64 encapsulation of a
    tunnel key with the KEY flag whose [tun_id] holds the 64-bit number [T]
    describes a header with the KEY and SEQ flags whose key field carries
    the low 32 bits of [T] and whose sequence field carries the high 32
    bits, and reserves the length of a header with both fields (the flags
    of a tunnel key are without SEQ, which is the mark of GRE64 on the
    wire).  The header reaches a host of either byte order with the two
    fields holding the same numbers; in a namespace that has a GRE64 vport
    the receive handler hands it to that vport and recomposes a [tun_id]
    that holds [T] again, the very value the sender had when the byte
    orders agree. *)
Theorem gre64_tun_id_round_trip (e1 e2 : endianness) (T : Z)
    (tun_key : ovs_key_ipv4_tunnel) (net : vport_net) :
  0 <= T < 2 ^ 64 ->
  tun_id tun_key = cpu_to_be64 e1 T ->
  Z.land (tun_flags tun_key) TUNNEL_KEY <> 0 ->
  Z.land (tun_flags tun_key) TUNNEL_SEQ = 0 ->
  gre64_vport net = true ->
  exists p tpi key,
    gre64_send e1 (Some tun_key) = Some p
    /\ be32_to_cpu e1 (tpi_key (packet_tpi p)) = T mod 2 ^ 32
    /\ be32_to_cpu e1 (tpi_seq (packet_tpi p)) = T / 2 ^ 32
    /\ Z.land (tpi_flags (packet_tpi p)) TUNNEL_SEQ = TUNNEL_SEQ
    /\ Z.land (tpi_flags (packet_tpi p)) TUNNEL_KEY <> 0
    /\ packet_hlen p = ip_gre_calc_hlen (tpi_flags (packet_tpi p))
    /\ on_the_wire e1 e2 p = Some tpi
    /\ be32_to_cpu e2 (tpi_key tpi) = T mod 2 ^ 32
    /\ be32_to_cpu e2 (tpi_seq tpi) = T / 2 ^ 32
    /\ gre_rcv e2 net tpi
       = Some (OVS_VPORT_TYPE_GRE64, key,
               Z.land (tun_flags tun_key) (Z.lor TUNNEL_CSUM TUNNEL_KEY))
    /\ be64_to_cpu e2 key = T
    /\ (e2 = e1 -> key = tun_id tun_key).
Proof.
  intros HT Hid Hkey Hseq Hnet. destruct (halves T HT) as [Hl Hh].
  assert (Hsum : T / 2 ^ 32 * 2 ^ 32 + T mod 2 ^ 32 = T)
    by (pow2_consts; Z.div_mod_to_equations; lia).
  assert (Hk0 : (Z.land (tun_flags tun_key) TUNNEL_KEY =? 0) = false)
    by (apply Z.eqb_neq; exact Hkey).
  assert (Hlen : ip_gre_calc_hlen (tun_flags tun_key) + GRE_HEADER_SECTION
                 = ip_gre_calc_hlen
                     (Z.lor (filter_tnl_flags (tun_flags tun_key)) TUNNEL_SEQ)).
  { rewrite gre64_hlen, Hseq. cbn. lia. }
  eexists _, _, _. split; [reflexivity |].
  cbn [send build_header packet_tpi packet_hlen tpi_key tpi_seq tpi_flags].
  rewrite Hid, low32_of_be64, high32_of_be64 by assumption.
  split; [reflexivity |]. split; [reflexivity |].
  split; [apply flags_have_seq |].
  split; [rewrite flags_keep_key; exact Hkey |].
  split; [exact Hlen |].
  unfold on_the_wire.
  cbn [send build_header packet_tpi packet_hlen tpi_key tpi_seq tpi_flags tpi_proto].
  rewrite Hlen, Z.eqb_refl, flags_keep_key, flags_have_seq, Hk0.
  change (TUNNEL_SEQ =? 0) with false. cbv iota.
  rewrite Hid, low32_of_be64, high32_of_be64 by assumption.
  split; [reflexivity |].
  cbn [tpi_key tpi_seq].
  split; [apply be32_round; assumption |].
  split; [apply be32_round; assumption |].
  unfold gre_rcv. cbn [tpi_key tpi_seq tpi_flags].
  rewrite flags_keep_key, flags_have_seq, Hk0.
  change (TUNNEL_SEQ =? 0) with false. cbn [negb andb]. rewrite Hnet. cbn [negb].
  rewrite filter_of_header_flags, key_to_tunnel_id_wire, Hsum by assumption.
  split; [reflexivity |].
  split; [destruct e2; simpl; [reflexivity | apply swab64_involutive; assumption] |].
  intros ->. reflexivity.
Qed.

(** The scenario S5: [tun_id] 0x0000000100000002 on a little-endian sender
    and a big-endian receiver. *)
Lemma gre64_tun_id_round_trip_witness :
  exists p tpi key,
    gre64_send LITTLE_ENDIAN
      (Some {| tun_id := cpu_to_be64 LITTLE_ENDIAN 4294967298; ipv4_src := 1;
               ipv4_dst := 2; tun_flags := TUNNEL_KEY; ipv4_tos := 0;
               ipv4_ttl := 64 |}) = Some p
    /\ tpi_flags (packet_tpi p) = Z.lor TUNNEL_KEY TUNNEL_SEQ
    /\ packet_hlen p = 12
    /\ be32_to_cpu LITTLE_ENDIAN (tpi_key (packet_tpi p)) = 2
    /\ be32_to_cpu LITTLE_ENDIAN (tpi_seq (packet_tpi p)) = 1
    /\ on_the_wire LITTLE_ENDIAN BIG_ENDIAN p = Some tpi
    /\ tpi_key tpi = 2
    /\ tpi_seq tpi = 1
    /\ gre_rcv BIG_ENDIAN {| gre_vport := false; gre64_vport := true |} tpi
       = Some (OVS_VPORT_TYPE_GRE64, key, TUNNEL_KEY)
    /\ key = 4294967298.
Proof.
  destruct (gre64_tun_id_round_trip LITTLE_ENDIAN BIG_ENDIAN 4294967298
              {| tun_id := cpu_to_be64 LITTLE_ENDIAN 4294967298; ipv4_src := 1;
                 ipv4_dst := 2; tun_flags := TUNNEL_KEY; ipv4_tos := 0;
                 ipv4_ttl := 64 |}
              {| gre_vport := false; gre64_vport := true |})
    as (p & tpi & key & Hs & Hk & Hq & _ & _ & _ & Hw & Hk' & Hq' & Hr & Hid & _).
  - split; [discriminate | reflexivity].
  - reflexivity.
  - discriminate.
  - reflexivity.
  - reflexivity.
  - exists p, tpi, key. split; [exact Hs |].
    split; [injection Hs as <-; reflexivity |].
    split; [injection Hs as <-; reflexivity |].
    split; [exact Hk |]. split; [exact Hq |]. split; [exact Hw |].
    split; [exact Hk' |]. split; [exact Hq' |]. split; [exact Hr | exact Hid].
Defined.

End GRE_facts.

(** ** C2: the upcall queues *)

Section Queue_facts.
Context `{Ext : Externals}.

Lemma queue_at_set_same (i : dpif_upcall_type) (q : dp_netdev_queue) (dp : dp_netdev) :
  queue_at (set_queue_at i q dp) i = q.
Proof. destruct i; reflexivity. Qed.

Lemma queue_at_set_other (i j : dpif_upcall_type) (q : dp_netdev_queue) (dp : dp_netdev) :
  i <> j -> queue_at (set_queue_at i q dp) j = queue_at dp j.
Proof. destruct i, j; intros Hij; try reflexivity; contradiction. Qed.

Lemma queue_ok_xzalloc (name : string) (class : dpif_class) :
  queues_ok (dp_netdev_xzalloc name class).
Proof. split; repeat split; simpl; try (vm_compute; congruence); pow2_consts; lia. Qed.

Lemma queue_ok_push (q : dp_netdev_queue) (s : gmap Z dp_netdev_upcall) :
  queue_ok q -> uint32 (q_head q - q_tail q) < MAX_QUEUE_LEN ->
  queue_ok {| upcalls := s; q_head := uint32 (q_head q + 1); q_tail := q_tail q |}
  /\ uint32 (uint32 (q_head q + 1) - q_tail q) = uint32 (q_head q - q_tail q) + 1.
Proof.
  unfold queue_ok, uint32, MAX_QUEUE_LEN. simpl. intros (Hh & Ht & Hd) Hlt.
  pow2_consts. Z.div_mod_to_equations. lia.
Qed.

Lemma queue_ok_pop (q : dp_netdev_queue) :
  queue_ok q -> q_head q <> q_tail q ->
  queue_ok {| upcalls := upcalls q; q_head := q_head q; q_tail := uint32 (q_tail q + 1) |}
  /\ uint32 (q_head q - uint32 (q_tail q + 1)) = uint32 (q_head q - q_tail q) - 1.
Proof.
  unfold queue_ok, uint32, MAX_QUEUE_LEN. simpl. intros (Hh & Ht & Hd) Hne.
  pow2_consts. Z.div_mod_to_equations. lia.
Qed.

Lemma purge_rounds (n : nat) (q : dp_netdev_queue) :
  Nat.iter n purge_one q
  = {| upcalls := upcalls q; q_head := q_head q;
       q_tail := if decide (n = 0%nat) then q_tail q
                 else uint32 (q_tail q + Z.of_nat n) |}.
Proof.
  induction n as [| n IH].
  - destruct q; reflexivity.
  - simpl Nat.iter. rewrite IH. unfold purge_one. simpl. f_equal.
    destruct (decide (n = 0%nat)) as [-> | Hn].
    + reflexivity.
    + destruct (decide (S n = 0%nat)); [lia |].
      unfold uint32. rewrite Zplus_mod_idemp_l. f_equal. lia.
Qed.

(** [dp_netdev_purge_queues] leaves a queue empty. *)
Lemma purge_queue_empties (q : dp_netdev_queue) :
  queue_ok q ->
  purge_queue q = {| upcalls := upcalls q; q_head := q_head q; q_tail := q_head q |}.
Proof.
  intros (Hh & Ht & Hd). unfold purge_queue. rewrite purge_rounds. f_equal.
  pose proof (uint32_range (q_head q - q_tail q)) as Hr.
  destruct (decide _) as [E | E].
  - assert (uint32 (q_head q - q_tail q) = 0) as E0 by lia.
    revert E0. unfold uint32. pow2_consts. Z.div_mod_to_equations. lia.
  - rewrite Z2Nat.id by lia. unfold uint32. rewrite Zplus_mod_idemp_r.
    replace (q_tail q + (q_head q - q_tail q)) with (q_head q) by lia.
    apply Z.mod_small. lia.
Qed.



(** C2.  On a queue within its invariant, [dp_netdev_output_userspace]
    returns ENOBUFS (NO_BUFFER) exactly when [head - tail] is MAX_QUEUE_LEN,
    and 0 otherwise; on that failure the datapath changes in [n_lost] alone,
    which grows by one, so both queues keep head, tail and contents.
    [dpif_netdev_recv] returns EAGAIN (RETRY) exactly when both queues are
    empty; otherwise it returns 0 with the record at the tail of the MISS
    queue if that queue is not empty, else with the record at the tail of
    the ACTION queue, advances that tail and leaves the other queue
    alone. *)
Theorem upcall_queue_push_pop (dp : dp_netdev) (packet : ofpbuf)
    (queue_no : dpif_upcall_type) (k : flow) (userdata : option nlattrs) :
  queue_ok (queue_at dp queue_no) ->
  0 <= n_lost dp < LLONG_MAX ->
  let q := queue_at dp queue_no in
  let pushed := dp_netdev_output_userspace dp packet queue_no k userdata in
  let popped := dpif_netdev_recv dp in
  let miss := queue_miss dp in
  let act := queue_action dp in
  (snd pushed = ENOBUFS <-> uint32 (q_head q - q_tail q) = MAX_QUEUE_LEN)
  /\ (snd pushed <> ENOBUFS -> snd pushed = 0)
  /\ (snd pushed = ENOBUFS ->
      fst pushed = set_n_lost (n_lost dp + 1) dp
      /\ n_lost (fst pushed) = n_lost dp + 1
      /\ queue_miss (fst pushed) = miss /\ queue_action (fst pushed) = act)
  /\ (snd (fst popped) = EAGAIN <->
      q_head miss = q_tail miss /\ q_head act = q_tail act)
  /\ (q_head miss <> q_tail miss ->
      snd (fst popped) = 0
      /\ snd popped = upcalls miss !! Z.land (q_tail miss) QUEUE_MASK
      /\ queue_miss (fst (fst popped))
         = {| upcalls := upcalls miss; q_head := q_head miss;
              q_tail := uint32 (q_tail miss + 1) |}
      /\ queue_action (fst (fst popped)) = act)
  /\ (q_head miss = q_tail miss -> q_head act <> q_tail act ->
      snd (fst popped) = 0
      /\ snd popped = upcalls act !! Z.land (q_tail act) QUEUE_MASK
      /\ queue_action (fst (fst popped))
         = {| upcalls := upcalls act; q_head := q_head act;
              q_tail := uint32 (q_tail act + 1) |}
      /\ queue_miss (fst (fst popped)) = miss).
Proof.
  intros Hok Hlost q pushed popped miss act.
  assert (Hpush : (snd pushed = ENOBUFS <-> uint32 (q_head q - q_tail q) = MAX_QUEUE_LEN)
                  /\ (snd pushed <> ENOBUFS -> snd pushed = 0)
                  /\ (snd pushed = ENOBUFS -> fst pushed = set_n_lost (n_lost dp + 1) dp)).
  { subst pushed. unfold dp_netdev_output_userspace. fold q.
    destruct Hok as (Hh & Ht & Hd). fold q in Hh, Ht, Hd.
    destruct (Z.ltb_spec (uint32 (q_head q - q_tail q)) MAX_QUEUE_LEN) as [Hlt | Hge];
      simpl.
    - repeat split; try (intros; lia); try discriminate.
    - repeat split; try (intros; lia).
      intros _. rewrite to_llong_small; [reflexivity |].
      unfold LLONG_MAX in Hlost. pow2_consts. lia. }
  destruct Hpush as (P1 & P2 & P3).
  split; [exact P1 |]. split; [exact P2 |].
  split; [intros E; rewrite (P3 E); repeat split |].
  subst popped. unfold dpif_netdev_recv, find_nonempty_queue. simpl. fold miss act.
  destruct (Z.eqb_spec (q_head miss) (q_tail miss)) as [E1 | N1]; simpl.
  - destruct (Z.eqb_spec (q_head act) (q_tail act)) as [E2 | N2]; simpl.
    + repeat split; try tauto; try contradiction.
    + repeat split; try tauto; try contradiction; try discriminate.
  - repeat split; try tauto; try contradiction; try discriminate.
Qed.

End Queue_facts.

(** ** C3: the capacity of the flow table *)

Section Flow_facts.
Context `{Ext : Externals}.

Lemma lookup_flow_key (dp : dp_netdev) (k : flow) (f : dp_netdev_flow) :
  dp_netdev_lookup_flow dp k = Some f -> key f = k.
Proof.
  unfold dp_netdev_lookup_flow. intros H.
  apply List.find_some in H as [_ H]. apply bool_decide_eq_true in H. exact H.
Qed.

Lemma flow_store_length (f : dp_netdev_flow) (t : list dp_netdev_flow) :
  length (flow_store f t) = length t.
Proof.
  induction t as [| g t IH]; simpl; [reflexivity |].
  destruct (bool_decide (key g = key f)); simpl; congruence.
Qed.

Lemma hmap_remove_length (k : flow) (t : list dp_netdev_flow) (f : dp_netdev_flow) :
  List.find (fun g => bool_decide (key g = k)) t = Some f ->
  S (length (hmap_remove k t)) = length t.
Proof.
  induction t as [| g t IH]; simpl; [discriminate |].
  destruct (bool_decide (key g = k)); simpl; [reflexivity |].
  intros H. rewrite IH by assumption. reflexivity.
Qed.

Lemma hmap_remove_length_le (k : flow) (t : list dp_netdev_flow) :
  (length (hmap_remove k t) <= length t)%nat.
Proof.
  induction t as [| g t IH]; simpl; [lia |].
  destruct (bool_decide (key g = k)); simpl; lia.
Qed.

Lemma hmap_remove_absent (k k' : flow) (t : list dp_netdev_flow) :
  List.find (fun g => bool_decide (key g = k)) t = None ->
  List.find (fun g => bool_decide (key g = k)) (hmap_remove k' t) = None.
Proof.
  induction t as [| g t IH]; simpl; [reflexivity |].
  destruct (bool_decide (key g = k)) eqn:E; [discriminate |].
  intros H. destruct (bool_decide (key g = k')); simpl; [assumption |].
  rewrite E. apply IH, H.
Qed.

(** A successful CREATE of an absent key, step by step. *)
Lemma flow_put_create (dp : dp_netdev) (put : dpif_flow_put) (k : flow) :
  dpif_netdev_flow_from_nlattrs (put_key put) = (0, k) ->
  dp_netdev_lookup_flow dp k = None ->
  Z.land (put_flags put) DPIF_FP_CREATE <> 0 ->
  hmap_count (flow_table dp) < MAX_FLOWS ->
  let new := {| key := k; used := 0; packet_count := 0; byte_count := 0;
                tcp_flags := 0; actions := put_actions put |} in
  dpif_netdev_flow_put dp put
  = (set_flow_table (new :: flow_table dp) dp, 0,
     if put_stats put
     then Some {| n_packets := 0; n_bytes := 0; stats_used := 0; stats_tcp_flags := 0 |}
     else None).
Proof.
  intros Hkey Habs Hflag Hcount new. unfold dpif_netdev_flow_put.
  rewrite Hkey. simpl. rewrite Habs.
  destruct (Z.eqb_spec (Z.land (put_flags put) DPIF_FP_CREATE) 0) as [E | _];
    [contradiction |]. simpl.
  rewrite to_int_small
    by (unfold hmap_count, MAX_FLOWS in *; pow2_consts; lia).
  destruct (Z.ltb_spec (hmap_count (flow_table dp)) MAX_FLOWS) as [_ | Hge]; [| lia].
  reflexivity.
Qed.

Lemma flow_put_size (dp : dp_netdev) (put : dpif_flow_put) :
  hmap_count (flow_table dp) <= MAX_FLOWS ->
  hmap_count (flow_table (fst (fst (dpif_netdev_flow_put dp put)))) <= MAX_FLOWS.
Proof.
  intros Hle. unfold dpif_netdev_flow_put.
  destruct (dpif_netdev_flow_from_nlattrs (put_key put)) as [error k].
  destruct (negb (error =? 0)); [exact Hle |].
  destruct (dp_netdev_lookup_flow dp k) as [f |].
  - destruct (negb (Z.land (put_flags put) DPIF_FP_MODIFY =? 0)); [| exact Hle].
    simpl. unfold hmap_count in *. rewrite flow_store_length. exact Hle.
  - destruct (negb (Z.land (put_flags put) DPIF_FP_CREATE =? 0)); [| exact Hle].
    rewrite to_int_small
      by (unfold hmap_count, MAX_FLOWS in *; pow2_consts; lia).
    destruct (Z.ltb_spec (hmap_count (flow_table dp)) MAX_FLOWS) as [Hlt | _];
      [| exact Hle].
    simpl. unfold hmap_count in *. simpl length. lia.
Qed.

(** C3.  For a well-formed key that the table does not hold,
    [dpif_netdev_flow_put] with the CREATE flag returns 0 and puts a fresh
    entry (the key, the actions, zeroed statistics) into the table when the
    table holds fewer than MAX_FLOWS entries, and returns EFBIG (TOO_BIG)
    with the datapath unchanged when it holds MAX_FLOWS.  From a full table,
    deleting a flow that is there returns 0 and leaves MAX_FLOWS - 1
    entries, after which a CREATE of any well-formed absent key returns 0.
    No [dpif_netdev_flow_put] takes a table from at most MAX_FLOWS entries
    to more. *)
Theorem flow_put_capacity (dp : dp_netdev) (put : dpif_flow_put) (k : flow) :
  dpif_netdev_flow_from_nlattrs (put_key put) = (0, k) ->
  dp_netdev_lookup_flow dp k = None ->
  Z.land (put_flags put) DPIF_FP_CREATE <> 0 ->
  let new := {| key := k; used := 0; packet_count := 0; byte_count := 0;
                tcp_flags := 0; actions := put_actions put |} in
  let r := dpif_netdev_flow_put dp put in
  (hmap_count (flow_table dp) < MAX_FLOWS ->
     snd (fst r) = 0
     /\ flow_table (fst (fst r)) = new :: flow_table dp
     /\ dp_netdev_lookup_flow (fst (fst r)) k = Some new
     /\ hmap_count (flow_table (fst (fst r))) = hmap_count (flow_table dp) + 1)
  /\ (hmap_count (flow_table dp) = MAX_FLOWS -> r = (dp, EFBIG, None))
  /\ (hmap_count (flow_table dp) = MAX_FLOWS ->
      forall (del : dpif_flow_del) (k' : flow),
        dpif_netdev_flow_from_nlattrs (del_key del) = (0, k') ->
        is_Some (dp_netdev_lookup_flow dp k') ->
        let d := dpif_netdev_flow_del dp del in
        snd (fst d) = 0
        /\ hmap_count (flow_table (fst (fst d))) = MAX_FLOWS - 1
        /\ snd (fst (dpif_netdev_flow_put (fst (fst d)) put)) = 0
        /\ hmap_count (flow_table (fst (fst (dpif_netdev_flow_put (fst (fst d)) put))))
           = MAX_FLOWS)
  /\ (forall (dp' : dp_netdev) (put' : dpif_flow_put),
        hmap_count (flow_table dp') <= MAX_FLOWS ->
        hmap_count (flow_table (fst (fst (dpif_netdev_flow_put dp' put')))) <= MAX_FLOWS).
Proof.
  intros Hkey Habs Hflag new r.
  split; [| split; [| split]].
  - intros Hlt. subst r. rewrite (flow_put_create dp put k) by assumption.
    fold new. simpl. repeat split.
    + unfold dp_netdev_lookup_flow. simpl.
      rewrite bool_decide_eq_true_2 by reflexivity. reflexivity.
    + unfold hmap_count. simpl length. lia.
  - intros Hfull. subst r. unfold dpif_netdev_flow_put.
    rewrite Hkey. simpl. rewrite Habs.
    destruct (Z.eqb_spec (Z.land (put_flags put) DPIF_FP_CREATE) 0) as [E | _];
      [contradiction |]. simpl.
    rewrite to_int_small by (rewrite Hfull; vm_compute; split; congruence).
    rewrite Hfull. reflexivity.
  - intros Hfull del k' Hkey' [f Hf] d.
    assert (Hd : d = (dp_netdev_free_flow dp f, 0,
                      if del_stats del then Some (get_dpif_flow_stats f) else None)).
    { subst d. unfold dpif_netdev_flow_del. rewrite Hkey'. simpl. rewrite Hf.
      reflexivity. }
    assert (Hlen : hmap_count (flow_table (dp_netdev_free_flow dp f)) = MAX_FLOWS - 1).
    { unfold dp_netdev_free_flow, hmap_count in *. simpl.
      rewrite (lookup_flow_key dp k' f Hf).
      pose proof (hmap_remove_length k' (flow_table dp) f Hf). lia. }
    assert (Habs' : dp_netdev_lookup_flow (dp_netdev_free_flow dp f) k = None).
    { unfold dp_netdev_lookup_flow, dp_netdev_free_flow. simpl.
      apply hmap_remove_absent, Habs. }
    rewrite Hd. simpl.
    rewrite (flow_put_create (dp_netdev_free_flow dp f) put k)
      by (try assumption; rewrite Hlen; vm_compute; reflexivity).
    simpl. repeat split; try assumption.
    unfold hmap_count, dp_netdev_free_flow in *. simpl in Hlen. simpl length. lia.
  - intros dp' put'. apply flow_put_size.
Qed.

End Flow_facts.

(** ** The action engine *)

(** Induction over actions that reaches the actions nested in SAMPLE. *)
Lemma action_nested_ind (P : action -> Prop) :
  (forall a, nested_hold P a -> P a) -> forall a, P a.
Proof.
  intros step.
  refine (fix ind (a : action) : P a := step a _).
  destruct a as [| | | | | | | attrs | | |]; try exact I.
  simpl.
  induction attrs as [| sa rest IH]; constructor; [| exact IH].
  destruct sa as [| acts | | |]; try exact I.
  induction acts as [| a' rest' IH']; constructor; [apply ind | exact IH'].
Qed.

Section Engine_facts.
Context `{Ext : Externals}.

Lemma engine_frame_refl (dp : dp_netdev) : engine_frame dp dp.
Proof. destruct dp; reflexivity. Qed.

Lemma engine_frame_trans (dp1 dp2 dp3 : dp_netdev) :
  engine_frame dp1 dp2 -> engine_frame dp2 dp3 -> engine_frame dp1 dp3.
Proof.
  unfold engine_frame. intros H12 H23. rewrite H23 at 1. rewrite H12 at 1.
  destruct dp1; reflexivity.
Qed.

Lemma engine_frame_output_userspace (dp : dp_netdev) (packet : ofpbuf)
    (queue_no : dpif_upcall_type) (k : flow) (userdata : option nlattrs) :
  engine_frame dp (fst (dp_netdev_output_userspace dp packet queue_no k userdata)).
Proof.
  unfold dp_netdev_output_userspace.
  destruct (_ <? _); destruct dp, queue_no; reflexivity.
Qed.

(** The fields of the datapath that the engine cannot write. *)
Lemma engine_frame_fields (dp dp' : dp_netdev) :
  engine_frame dp dp' ->
  flow_table dp' = flow_table dp /\ n_hit dp' = n_hit dp
  /\ n_missed dp' = n_missed dp /\ ports dp' = ports dp
  /\ port_list dp' = port_list dp /\ serial dp' = serial dp.
Proof. unfold engine_frame. intros ->. repeat split. Qed.

Lemma execute_each_frame (exec : action -> machine * ofpbuf -> outcome (machine * ofpbuf))
    (acts : list action) :
  Forall (fun a => keeps_frame (exec a)) acts -> keeps_frame (execute_each exec acts).
Proof.
  induction 1 as [| a rest Ha _ IH]; intros s s' H; simpl in H.
  - injection H as <-. apply engine_frame_refl.
  - destruct (exec a s) as [s1 | f] eqn:E1; simpl in H; [| discriminate].
    eapply engine_frame_trans; [apply (Ha _ _ E1) | apply (IH _ _ H)].
Qed.

Lemma sample_each_frame (exec : action -> machine * ofpbuf -> outcome (machine * ofpbuf))
    (attrs : list (sample_attr action)) :
  Forall (fun sa => match sa with
                    | OVS_SAMPLE_ATTR_ACTIONS acts =>
                        Forall (fun a => keeps_frame (exec a)) acts
                    | _ => True
                    end) attrs ->
  forall subactions,
    (forall run, subactions = Some run -> keeps_frame run) ->
    keeps_frame (sample_each exec attrs subactions).
Proof.
  induction 1 as [| sa rest Hsa _ IH]; intros subactions Hsub s s' H; simpl in H.
  - destruct subactions as [run |]; [| discriminate].
    eapply Hsub; [reflexivity | exact H].
  - destruct sa as [probability | acts | | | t]; try discriminate.
    + destruct (random_uint32 (m_rng (fst s))) as [r rng].
      destruct (probability <=? r).
      * injection H as <-. simpl. apply engine_frame_refl.
      * apply (IH subactions Hsub) in H. exact H.
    + refine (IH _ _ _ _ H). intros run [= <-].
      apply execute_each_frame, Hsa.
Qed.

(** Whatever the actions, the engine leaves the flow table, the hit and
    miss counters and the ports as they are. *)
Lemma execute_action_frame (k : flow) (a : action) : keeps_frame (execute_action k a).
Proof.
  induction a as [a Hnested] using action_nested_ind.
  intros s s' H. destruct a; simpl in H;
    try (injection H as <-; simpl; apply engine_frame_refl);
    try discriminate.
  - unfold dp_netdev_output_port in H.
    destruct ((0 <=? port) && (port <? MAX_PORTS)); [| discriminate].
    destruct (ports (m_dp (fst s)) !! port); simpl in H;
      injection H as <-; apply engine_frame_refl.
  - injection H as <-. simpl. apply engine_frame_output_userspace.
  - destruct (execute_set_action (snd s) a); simpl in H; [| discriminate].
    injection H as <-. apply engine_frame_refl.
  - refine (sample_each_frame _ attrs Hnested None _ s s' H). discriminate.
Qed.

Lemma dp_netdev_execute_actions_frame (m : machine) (packet : ofpbuf) (k : flow)
    (acts : list action) (s' : machine * ofpbuf) :
  dp_netdev_execute_actions m packet k acts = Done s' ->
  engine_frame (m_dp m) (m_dp (fst s')).
Proof.
  intros H. refine (execute_each_frame _ acts _ (m, packet) s' H).
  apply Forall_forall. intros a _. apply execute_action_frame.
Qed.

(** ** C5: OUTPUT *)

(** The part of the claim that the code keeps: for a port number below
    MAX_PORTS, OUTPUT hands the packet to the device of [ports[port]] when
    that slot is filled and does nothing otherwise. *)
Lemma output_port_in_range (m : machine) (packet : ofpbuf) (out_port : Z) :
  0 <= out_port < MAX_PORTS ->
  dp_netdev_output_port m packet out_port
  = Done match ports (m_dp m) !! out_port with
         | Some p => {| m_dp := m_dp m; m_sent := m_sent m ++ [(p, packet)];
                        m_rng := m_rng m |}
         | None => m
         end.
Proof.
  intros [H0 H1]. unfold dp_netdev_output_port.
  destruct (Z.leb_spec 0 out_port); [| lia].
  destruct (Z.ltb_spec out_port MAX_PORTS); [| lia]. simpl.
  destruct (ports (m_dp m) !! out_port); reflexivity.
Qed.

(** C5, where the code departs from the claim: for a port number of
    MAX_PORTS or more the read of [dp->ports[out_port]] lies outside the
    array, and so does the run of an action stream that reaches such an
    OUTPUT. *)
Theorem output_port_out_of_bounds (m : machine) (packet : ofpbuf) (k : flow)
    (out_port : Z) (rest : list action) :
  MAX_PORTS <= out_port ->
  dp_netdev_output_port m packet out_port = Fault OUT_OF_BOUNDS
  /\ dp_netdev_execute_actions m packet k (OVS_ACTION_ATTR_OUTPUT out_port :: rest)
     = Fault OUT_OF_BOUNDS.
Proof.
  intros H.
  assert (E : dp_netdev_output_port m packet out_port = Fault OUT_OF_BOUNDS).
  { unfold dp_netdev_output_port.
    destruct (Z.ltb_spec out_port MAX_PORTS); [lia |].
    rewrite andb_false_r. reflexivity. }
  split; [exact E |].
  unfold dp_netdev_execute_actions. simpl. rewrite E. reflexivity.
Qed.

(** ** C10: the size check of [dpif_netdev_execute] *)

(** C10.  For a packet shorter than an Ethernet header or longer than
    65,535 bytes [dpif_netdev_execute] returns EINVAL (INVALID) and the
    machine is the one it was given: no action has run, nothing was sent or
    queued, no random number drawn. *)
Theorem execute_rejects_size (m : machine) (execute : dpif_execute) :
  ofpbuf_size (execute_packet execute) < ETH_HEADER_LEN
  \/ UINT16_MAX < ofpbuf_size (execute_packet execute) ->
  dpif_netdev_execute m execute = Done (m, EINVAL).
Proof.
  intros H. unfold dpif_netdev_execute.
  destruct (Z.ltb_spec (ofpbuf_size (execute_packet execute)) ETH_HEADER_LEN);
    [reflexivity |].
  destruct (Z.ltb_spec UINT16_MAX (ofpbuf_size (execute_packet execute)));
    [reflexivity | lia].
Qed.

End Engine_facts.

(** ** C4: SAMPLE *)

Section Sample_facts.
Context `{Ext : Externals}.

Lemma passing_draws_upto (probability : Z) (n : nat) :
  0 <= probability ->
  passing_draws probability (Z.of_nat n) = Z.min probability (Z.of_nat n).
Proof.
  intros Hp. unfold passing_draws. induction n as [| n IH].
  - simpl. lia.
  - rewrite seqZ_S, List.filter_app, List.length_app, Nat2Z.inj_add, IH.
    simpl. rewrite Z.add_0_l. unfold sample_passes.
    destruct (Z.leb_spec probability (Z.of_nat n)); simpl; lia.
Qed.

(** Of the 2^32 values that a draw can take, [probability] pass the test. *)
Lemma passing_draws_32 (probability : Z) :
  0 <= probability <= 2 ^ 32 -> passing_draws probability (2 ^ 32) = probability.
Proof.
  intros Hp. rewrite <- (Z2Nat.id (2 ^ 32)) by lia.
  rewrite passing_draws_upto by lia. rewrite Z2Nat.id by lia. lia.
Qed.

(** C4, as the code has it.  A SAMPLE with one PROBABILITY attribute [P]
    and one ACTIONS attribute, in either order, draws one 32-bit number [r]
    and runs the nested actions exactly when [r < P]: [P] of the 2^32
    possible draws, a probability of P / 2^32.  With P = 0 the nested
    actions never run.  With P = 2^32 - 1 they run for every draw but
    2^32 - 1, for which they are skipped. *)
Theorem sample_probability (m : machine) (packet : ofpbuf) (k : flow)
    (probability : Z) (acts : list action) :
  0 <= probability < 2 ^ 32 ->
  let r := fst (random_uint32 (m_rng m)) in
  let m' := {| m_dp := m_dp m; m_sent := m_sent m;
               m_rng := snd (random_uint32 (m_rng m)) |} in
  let run := dp_netdev_sample m packet k
               [OVS_SAMPLE_ATTR_PROBABILITY probability;
                OVS_SAMPLE_ATTR_ACTIONS acts] in
  run = (if sample_passes probability r
         then dp_netdev_execute_actions m' packet k acts
         else Done (m', packet))
  /\ dp_netdev_sample m packet k
       [OVS_SAMPLE_ATTR_ACTIONS acts;
        OVS_SAMPLE_ATTR_PROBABILITY probability] = run
  /\ (sample_passes probability r = true <-> r < probability)
  /\ passing_draws probability (2 ^ 32) = probability
  /\ (probability = 0 -> run = Done (m', packet))
  /\ (probability = 2 ^ 32 - 1 -> r <> 2 ^ 32 - 1 ->
      run = dp_netdev_execute_actions m' packet k acts)
  /\ (probability = 2 ^ 32 - 1 -> r = 2 ^ 32 - 1 -> run = Done (m', packet)).
Proof.
  intros Hp r m' run.
  pose proof (random_uint32_range (m_rng m)) as Hr. fold r in Hr.
  assert (Hrun : run = (if sample_passes probability r
                        then dp_netdev_execute_actions m' packet k acts
                        else Done (m', packet))).
  { subst run r m'. unfold dp_netdev_sample, sample_passes. simpl.
    destruct (random_uint32 (m_rng m)) as [r rng]. simpl.
    destruct (probability <=? r); reflexivity. }
  assert (Hpass : sample_passes probability r = true <-> r < probability).
  { unfold sample_passes. destruct (Z.leb_spec probability r); simpl; split;
      intros; try lia; try discriminate; reflexivity. }
  split; [exact Hrun |]. split.
  { rewrite Hrun. subst r m'. unfold dp_netdev_sample, sample_passes. simpl.
    destruct (random_uint32 (m_rng m)) as [r rng]. simpl.
    destruct (probability <=? r); reflexivity. }
  split; [exact Hpass |]. split; [apply passing_draws_32; lia |].
  rewrite Hrun. repeat split.
  - intros ->. destruct (sample_passes 0 r); [| reflexivity].
    pose proof (proj1 Hpass eq_refl). lia.
  - intros -> Hne. destruct (sample_passes (2 ^ 32 - 1) r); [reflexivity |].
    assert (r < 2 ^ 32 - 1) as Hlt by lia. apply Hpass in Hlt. discriminate.
  - intros -> Heq. destruct (sample_passes (2 ^ 32 - 1) r); [| reflexivity].
    pose proof (proj1 Hpass eq_refl). lia.
Qed.

End Sample_facts.

(** ** C1: packet ingress *)

Section Ingress_facts.
Context `{Ext : Externals}.

Lemma lookup_flow_store (t : list dp_netdev_flow) (k : flow) (f f' : dp_netdev_flow) :
  List.find (fun g => bool_decide (key g = k)) t = Some f ->
  key f' = k ->
  List.find (fun g => bool_decide (key g = k)) (flow_store f' t) = Some f'.
Proof.
  intros Hfind Hk. induction t as [| g t IH]; simpl in *; [discriminate |].
  rewrite Hk. destruct (bool_decide (key g = k)) eqn:E; simpl.
  - rewrite Hk, bool_decide_eq_true_2 by reflexivity. reflexivity.
  - rewrite E. apply IH, Hfind.
Qed.

(** A frame shorter than an Ethernet header is dropped. *)
Lemma port_input_short (m : machine) (now : Z) (port : dp_netdev_port)
    (packet : ofpbuf) :
  ofpbuf_size packet < ETH_HEADER_LEN ->
  dp_netdev_port_input m now port packet = Done m.
Proof.
  intros H. unfold dp_netdev_port_input.
  destruct (Z.ltb_spec (ofpbuf_size packet) ETH_HEADER_LEN); [reflexivity | lia].
Qed.

(** A hit. *)
Lemma port_input_hit (m : machine) (now : Z) (port : dp_netdev_port)
    (packet : ofpbuf) (f : dp_netdev_flow) :
  ETH_HEADER_LEN <= ofpbuf_size packet ->
  let k := flow_extract packet (port_no port) in
  dp_netdev_lookup_flow (m_dp m) k = Some f ->
  0 <= packet_count f < LLONG_MAX ->
  0 <= byte_count f <= LLONG_MAX - ofpbuf_size packet ->
  0 <= tcp_flags f < 256 ->
  0 <= n_hit (m_dp m) < LLONG_MAX ->
  let f' := {| key := key f; used := now;
               packet_count := packet_count f + 1;
               byte_count := byte_count f + ofpbuf_size packet;
               tcp_flags := Z.lor (tcp_flags f) (packet_get_tcp_flags packet (key f));
               actions := actions f |} in
  let m1 := set_m_dp (set_flow_table (flow_store f' (flow_table (m_dp m))) (m_dp m)) m in
  match dp_netdev_execute_actions m1 packet k (actions f) with
  | Done s =>
      dp_netdev_port_input m now port packet
      = Done (set_m_dp (set_n_hit (n_hit (m_dp m) + 1) (m_dp (fst s))) (fst s))
      /\ flow_table (m_dp (fst s)) = flow_store f' (flow_table (m_dp m))
      /\ dp_netdev_lookup_flow (m_dp (fst s)) k = Some f'
      /\ n_hit (m_dp (fst s)) = n_hit (m_dp m)
      /\ n_missed (m_dp (fst s)) = n_missed (m_dp m)
  | Fault e => dp_netdev_port_input m now port packet = Fault e
  end.
Proof.
  intros Hsize k Hlook Hpc Hbc Htf Hnh f' m1.
  assert (Hused : dp_netdev_flow_used now f packet = f').
  { unfold dp_netdev_flow_used, f'. f_equal;
      try (apply to_llong_small; unfold LLONG_MAX, ofpbuf_size in *;
           pow2_consts; lia).
    apply lor_uint8; [assumption | apply packet_get_tcp_flags_range]. }
  assert (Hin : dp_netdev_port_input m now port packet
                = (s ← dp_netdev_execute_actions m1 packet k (actions f);
                   Done (set_m_dp (set_n_hit (to_llong (n_hit (m_dp (fst s)) + 1))
                                             (m_dp (fst s))) (fst s)))).
  { unfold dp_netdev_port_input.
    destruct (Z.ltb_spec (ofpbuf_size packet) ETH_HEADER_LEN); [lia |].
    fold k. rewrite Hlook, Hused. reflexivity. }
  rewrite Hin.
  destruct (dp_netdev_execute_actions m1 packet k (actions f)) as [s | e] eqn:E;
    [| reflexivity].
  apply dp_netdev_execute_actions_frame in E.
  apply engine_frame_fields in E as (Eft & Enh & Enm & _). simpl in Eft, Enh, Enm.
  simpl. rewrite Enh, to_llong_small by (unfold LLONG_MAX in *; pow2_consts; lia).
  repeat split; try assumption.
  unfold dp_netdev_lookup_flow. rewrite Eft.
  apply (lookup_flow_store _ k f f' Hlook).
  simpl. apply (lookup_flow_key _ _ _ Hlook).
Qed.

(** A miss. *)
Lemma port_input_miss (m : machine) (now : Z) (port : dp_netdev_port)
    (packet : ofpbuf) :
  ETH_HEADER_LEN <= ofpbuf_size packet ->
  let k := flow_extract packet (port_no port) in
  dp_netdev_lookup_flow (m_dp m) k = None ->
  0 <= n_missed (m_dp m) < LLONG_MAX ->
  0 <= n_lost (m_dp m) < LLONG_MAX ->
  let q := queue_miss (m_dp m) in
  let slot := Z.land (q_head q) QUEUE_MASK in
  let u := {| upcall_type := DPIF_UC_MISS;
              upcall_key := odp_flow_key_from_flow k (flow_in_port k);
              upcall_userdata := upcalls q !! slot ≫= upcall_userdata;
              upcall_packet := packet |} in
  exists m',
    dp_netdev_port_input m now port packet = Done m'
    /\ n_missed (m_dp m') = n_missed (m_dp m) + 1
    /\ n_hit (m_dp m') = n_hit (m_dp m)
    /\ flow_table (m_dp m') = flow_table (m_dp m)
    /\ queue_action (m_dp m') = queue_action (m_dp m)
    /\ m_sent m' = m_sent m
    /\ (queue_len q < MAX_QUEUE_LEN ->
        queue_miss (m_dp m')
        = {| upcalls := <[slot := u]> (upcalls q);
             q_head := uint32 (q_head q + 1); q_tail := q_tail q |}
        /\ n_lost (m_dp m') = n_lost (m_dp m))
    /\ (MAX_QUEUE_LEN <= queue_len q ->
        queue_miss (m_dp m') = q
        /\ n_lost (m_dp m') = n_lost (m_dp m) + 1).
Proof.
  intros Hsize k Hlook Hnm Hnl q slot u.
  eexists. split.
  { unfold dp_netdev_port_input.
    destruct (Z.ltb_spec (ofpbuf_size packet) ETH_HEADER_LEN); [lia |].
    fold k. rewrite Hlook. reflexivity. }
  unfold dp_netdev_output_userspace, queue_len. simpl. fold q.
  rewrite !to_llong_small by (unfold LLONG_MAX in *; pow2_consts; lia).
  destruct (Z.ltb_spec (uint32 (q_head q - q_tail q)) MAX_QUEUE_LEN); simpl;
    repeat split; try reflexivity; intros; lia.
Qed.

End Ingress_facts.

(** C1, as the code has it.  A frame shorter than an Ethernet header is
    dropped and the machine stays as it is.  Otherwise the key is extracted
    with [in_port] the number of the receiving port.  If the flow table
    holds a flow with that key, the flow's [used] becomes the current time,
    its [packet_count] grows by one, its [byte_count] by the frame's size,
    its [tcp_flags] is OR-ed with the frame's; the flow's actions are run
    on the machine so updated; and when they return, [n_hit] has grown by
    exactly one while the engine has left the table and [n_missed] alone
    (when the engine faults, so does the call).  If the table holds no such
    flow, [n_missed] grows by exactly one, and a record of class MISS with
    the key and the frame is queued when the MISS queue holds fewer than
    MAX_QUEUE_LEN records; when that queue is full nothing is queued and
    [n_lost] grows by one. *)
Theorem port_input_classifies `{Ext : Externals} (m : machine) (now : Z)
    (port : dp_netdev_port) (packet : ofpbuf) :
  let k := flow_extract packet (port_no port) in
  (ofpbuf_size packet < ETH_HEADER_LEN ->
   dp_netdev_port_input m now port packet = Done m)
  /\ (ETH_HEADER_LEN <= ofpbuf_size packet ->
      forall f : dp_netdev_flow,
        dp_netdev_lookup_flow (m_dp m) k = Some f ->
        0 <= packet_count f < LLONG_MAX ->
        0 <= byte_count f <= LLONG_MAX - ofpbuf_size packet ->
        0 <= tcp_flags f < 256 ->
        0 <= n_hit (m_dp m) < LLONG_MAX ->
        let f' := {| key := key f; used := now;
                     packet_count := packet_count f + 1;
                     byte_count := byte_count f + ofpbuf_size packet;
                     tcp_flags := Z.lor (tcp_flags f)
                                        (packet_get_tcp_flags packet (key f));
                     actions := actions f |} in
        let m1 := set_m_dp (set_flow_table (flow_store f' (flow_table (m_dp m)))
                                           (m_dp m)) m in
        match dp_netdev_execute_actions m1 packet k (actions f) with
        | Done s =>
            dp_netdev_port_input m now port packet
            = Done (set_m_dp (set_n_hit (n_hit (m_dp m) + 1) (m_dp (fst s))) (fst s))
            /\ flow_table (m_dp (fst s)) = flow_store f' (flow_table (m_dp m))
            /\ dp_netdev_lookup_flow (m_dp (fst s)) k = Some f'
            /\ n_hit (m_dp (fst s)) = n_hit (m_dp m)
            /\ n_missed (m_dp (fst s)) = n_missed (m_dp m)
        | Fault e => dp_netdev_port_input m now port packet = Fault e
        end)
  /\ (ETH_HEADER_LEN <= ofpbuf_size packet ->
      dp_netdev_lookup_flow (m_dp m) k = None ->
      0 <= n_missed (m_dp m) < LLONG_MAX ->
      0 <= n_lost (m_dp m) < LLONG_MAX ->
      let q := queue_miss (m_dp m) in
      let slot := Z.land (q_head q) QUEUE_MASK in
      let u := {| upcall_type := DPIF_UC_MISS;
                  upcall_key := odp_flow_key_from_flow k (flow_in_port k);
                  upcall_userdata := upcalls q !! slot ≫= upcall_userdata;
                  upcall_packet := packet |} in
      exists m',
        dp_netdev_port_input m now port packet = Done m'
        /\ n_missed (m_dp m') = n_missed (m_dp m) + 1
        /\ n_hit (m_dp m') = n_hit (m_dp m)
        /\ flow_table (m_dp m') = flow_table (m_dp m)
        /\ queue_action (m_dp m') = queue_action (m_dp m)
        /\ m_sent m' = m_sent m
        /\ (queue_len q < MAX_QUEUE_LEN ->
            queue_miss (m_dp m')
            = {| upcalls := <[slot := u]> (upcalls q);
                 q_head := uint32 (q_head q + 1); q_tail := q_tail q |}
            /\ n_lost (m_dp m') = n_lost (m_dp m))
        /\ (MAX_QUEUE_LEN <= queue_len q ->
            queue_miss (m_dp m') = q
            /\ n_lost (m_dp m') = n_lost (m_dp m) + 1)).
Proof.
  intros k. split; [apply port_input_short |]. split.
  - intros Hsize f Hf Hpc Hbc Htf Hnh. apply port_input_hit; assumption.
  - intros Hsize Hk Hnm Hnl. apply port_input_miss; assumption.
Qed.

(** ** C8 and C6: the serial of the port set *)

Section Port_facts.
Context `{Ext : Externals}.

Lemma do_add_port_cases (dp : dp_netdev) (devname type : string) (port_no : Z)
    (calls : netdev_calls) :
  let r := do_add_port dp devname type port_no calls in
  (snd r <> 0 /\ fst r = dp)
  \/ (snd r = 0
      /\ fst r = set_ports
           (<[port_no := {| port_no := port_no;
                            port_netdev :=
                              {| netdev_vport_get_dpif_port := devname;
                                 netdev_get_type :=
                                   dpif_netdev_port_open_type (dp_class dp) type |};
                            port_type := type |}]> (ports dp))
           (port_list dp
            ++ [{| port_no := port_no;
                   port_netdev :=
                     {| netdev_vport_get_dpif_port := devname;
                        netdev_get_type :=
                          dpif_netdev_port_open_type (dp_class dp) type |};
                   port_type := type |}])
           (uint32 (serial dp + 1)) dp).
Proof.
  unfold do_add_port.
  destruct (Z.eqb_spec (netdev_open_error calls) 0) as [E1 | N1]; simpl;
    [| left; split; [assumption | reflexivity]].
  destruct (negb (netdev_listen_error calls =? 0)
            && negb ((netdev_listen_error calls =? EOPNOTSUPP)
                     && dpif_netdev_class_is_dummy (dp_class dp))) eqn:E2.
  - left. split; [| reflexivity]. simpl.
    destruct (Z.eqb_spec (netdev_listen_error calls) 0); [discriminate | assumption].
  - destruct (Z.eqb_spec (netdev_turn_flags_on_error calls) 0) as [E3 | N3]; simpl.
    + right. split; reflexivity.
    + left. split; [assumption | reflexivity].
Qed.

Lemma do_del_port_cases (dp : dp_netdev) (port_no' : Z) :
  let r := do_del_port dp port_no' in
  (snd r <> 0 /\ fst r = dp)
  \/ (exists port, ports dp !! port_no' = Some port /\ port_no' < MAX_PORTS
      /\ snd r = 0
      /\ fst r = set_ports (delete (port_no port) (ports dp))
                           (list_remove (port_no port) (port_list dp))
                           (uint32 (serial dp + 1)) dp).
Proof.
  unfold do_del_port, get_port_by_number, is_valid_port_number.
  destruct (Z.ltb_spec port_no' MAX_PORTS); simpl.
  - destruct (ports dp !! port_no') as [port |] eqn:E.
    + right. exists port. repeat split; assumption.
    + left. split; [discriminate | reflexivity].
  - left. split; [discriminate | reflexivity].
Qed.

(** A call that changes the port set either fails and leaves the datapath
    as it was, or returns 0 and steps the serial by one modulo 2^32. *)
Lemma apply_mutation_cases (dp : dp_netdev) (mu : port_mutation) :
  let r := apply_mutation dp mu in
  (snd r <> 0 /\ fst r = dp)
  \/ (snd r = 0 /\ serial (fst r) = uint32 (serial dp + 1)).
Proof.
  destruct mu as [netdev port_nop calls | port_no]; simpl.
  - unfold dpif_netdev_port_add.
    assert (Hadd : forall n,
      let r := (if 0 <=? n
                then let '(dp', error) :=
                       do_add_port dp (netdev_vport_get_dpif_port netdev)
                                   (netdev_get_type netdev) n calls in
                     (dp', n, error)
                else (dp, port_nop, EFBIG)) in
      (snd r <> 0 /\ fst (fst r) = dp)
      \/ (snd r = 0 /\ serial (fst (fst r)) = uint32 (serial dp + 1))).
    { intros n. destruct (0 <=? n); simpl;
        [| left; split; [discriminate | reflexivity]].
      pose proof (do_add_port_cases dp (netdev_vport_get_dpif_port netdev)
                    (netdev_get_type netdev) n calls) as Hc.
      destruct (do_add_port _ _ _ n calls) as [dp' error]. simpl in *.
      destruct Hc as [[? ?] | [? ->]]; [left | right]; split;
        try assumption; reflexivity. }
    destruct (negb (port_nop =? UINT32_MAX)).
    + destruct (MAX_PORTS <=? port_nop);
        [left; split; [discriminate | reflexivity] |].
      destruct (negb (port_is_free dp port_nop));
        [left; split; [discriminate | reflexivity] |].
      specialize (Hadd port_nop). simpl in Hadd.
      destruct (if 0 <=? port_nop then _ else _) as [[dp' p'] e']. exact Hadd.
    + specialize (Hadd (choose_port dp (netdev_vport_get_dpif_port netdev))).
      simpl in Hadd.
      destruct (if 0 <=? choose_port dp _ then _ else _) as [[dp' p'] e']. exact Hadd.
  - unfold dpif_netdev_port_del.
    destruct (port_no =? OVSP_LOCAL); [left; split; [discriminate | reflexivity] |].
    destruct (do_del_port_cases dp port_no) as [? | (port & _ & _ & ? & ->)];
      [left; assumption | right; split; [assumption | reflexivity]].
Qed.

Lemma apply_mutations_serial (mus : list port_mutation) (dp : dp_netdev) :
  0 <= serial dp < 2 ^ 32 ->
  0 <= snd (apply_mutations dp mus)
  /\ serial (fst (apply_mutations dp mus))
     = uint32 (serial dp + snd (apply_mutations dp mus)).
Proof.
  revert dp. induction mus as [| mu rest IH]; intros dp Hs; simpl.
  - rewrite Z.add_0_r, uint32_small by assumption. split; [lia | reflexivity].
  - pose proof (apply_mutation_cases dp mu) as Hc.
    destruct (apply_mutation dp mu) as [dp' error]. simpl in Hc.
    assert (Hs' : 0 <= serial dp' < 2 ^ 32).
    { destruct Hc as [[_ ->] | [_ ->]]; [assumption | apply uint32_range]. }
    specialize (IH dp' Hs').
    destruct (apply_mutations dp' rest) as [dp'' n]. simpl in *.
    destruct IH as [Hn ->].
    destruct Hc as [[Hne ->] | [-> ->]].
    + destruct (Z.eqb_spec error 0); [contradiction |]. simpl.
      split; [lia | reflexivity].
    + simpl. split; [lia |]. unfold uint32. rewrite Zplus_mod_idemp_l.
      f_equal. lia.
Qed.

(** C8, as the code has it.  On any datapath, whose [serial] is an
    unsigned int and so a number below 2^32, a successful
    [dpif_netdev_port_add] or [dpif_netdev_port_del] steps [serial] by one
    modulo 2^32: the serial changes, it grows by exactly one when it was
    below 2^32 - 1, and it goes from 2^32 - 1 to 0.  A failed call leaves the
    whole datapath, and so the serial, as it was.  After any run of such
    calls the serial is the old one plus the number of successes, modulo
    2^32. *)
Theorem serial_steps (dp : dp_netdev) (mu : port_mutation) :
  0 <= serial dp < 2 ^ 32 ->
  let r := apply_mutation dp mu in
  (snd r = 0 ->
     serial (fst r) = uint32 (serial dp + 1)
     /\ serial (fst r) <> serial dp
     /\ (serial dp < UINT32_MAX ->
         serial (fst r) = serial dp + 1 /\ serial dp < serial (fst r))
     /\ (serial dp = UINT32_MAX -> serial (fst r) = 0))
  /\ (snd r <> 0 -> fst r = dp)
  /\ (forall mus : list port_mutation,
        serial (fst (apply_mutations dp mus))
        = uint32 (serial dp + snd (apply_mutations dp mus))).
Proof.
  intros Hs r.
  pose proof (apply_mutation_cases dp mu) as Hc. fold r in Hc.
  split; [| split].
  - intros H0. destruct Hc as [[Hne _] | [_ Heq]]; [contradiction |].
    rewrite Heq. split; [reflexivity |]. split; [apply uint32_succ_ne, Hs |].
    split.
    + intros Hlt. unfold UINT32_MAX in Hlt.
      rewrite uint32_small by (pow2_consts; lia). lia.
    + intros ->. reflexivity.
  - intros Hne. destruct Hc as [[_ ?] | [? _]]; [assumption | contradiction].
  - intros mus. apply apply_mutations_serial, Hs.
Qed.

Lemma poll_n_synced (n : nat) (dp : dp_netdev) (dpif : dpif_netdev) :
  dp_serial dpif = serial dp ->
  poll_n n dp dpif = (dpif, repeat EAGAIN n).
Proof.
  intros Heq. induction n as [| n IH]; simpl; [reflexivity |].
  unfold dpif_netdev_port_poll. rewrite Heq, Z.eqb_refl. simpl.
  rewrite IH. reflexivity.
Qed.

Lemma poll_n_unsynced (n : nat) (dp : dp_netdev) (dpif : dpif_netdev) :
  dp_serial dpif <> serial dp ->
  snd (poll_n (S n) dp dpif) = ENOBUFS :: repeat EAGAIN n.
Proof.
  intros Hne. cbn [poll_n]. unfold dpif_netdev_port_poll.
  destruct (Z.eqb_spec (dp_serial dpif) (serial dp)) as [? | _]; [contradiction |].
  cbn [negb]. rewrite poll_n_synced by reflexivity. reflexivity.
Qed.

(** C6, as the code has it.  [dpif_netdev_port_poll] returns ENOBUFS
    (NO_BUFFER) exactly when the handle's cached serial differs from the
    datapath's, and EAGAIN (RETRY) exactly when they are equal; in either
    case the cache equals the datapath's serial afterwards, so the next poll
    returns EAGAIN if the port set has not changed in between.  Hence, for
    a handle in step with its datapath, a run of calls of which at least one
    and fewer than 2^32 succeed is answered by ENOBUFS once, however many
    they were, and by EAGAIN from then on. *)
Theorem port_poll_once (dp : dp_netdev) (dpif : dpif_netdev) :
  let r := dpif_netdev_port_poll dp dpif in
  (snd r = ENOBUFS <-> dp_serial dpif <> serial dp)
  /\ (snd r = EAGAIN <-> dp_serial dpif = serial dp)
  /\ dp_serial (fst r) = serial dp
  /\ dpif_netdev_port_poll dp (fst r) = (fst r, EAGAIN)
  /\ (forall mus : list port_mutation,
        0 <= serial dp < 2 ^ 32 ->
        dp_serial dpif = serial dp ->
        let dp' := fst (apply_mutations dp mus) in
        0 < snd (apply_mutations dp mus) < 2 ^ 32 ->
        forall n : nat,
          snd (poll_n (S n) dp' dpif) = ENOBUFS :: repeat EAGAIN n).
Proof.
  intros r. subst r. unfold dpif_netdev_port_poll.
  destruct (Z.eqb_spec (dp_serial dpif) (serial dp)) as [Heq | Hne]; simpl.
  - repeat split; try (intros; congruence); try discriminate.
    + rewrite Heq, Z.eqb_refl. reflexivity.
    + intros mus Hs _ Hj n. set (dp' := fst (apply_mutations dp mus)).
      unfold dpif_netdev_port_poll.
      destruct (apply_mutations_serial mus dp Hs) as [_ Hser]. fold dp' in Hser.
      destruct (Z.eqb_spec (dp_serial dpif) (serial dp')) as [Heq' | Hne']; simpl.
      * exfalso. rewrite Heq, Hser in Heq'. revert Heq'. unfold uint32.
        pow2_consts. Z.div_mod_to_equations. lia.
      * rewrite poll_n_synced by reflexivity. reflexivity.
  - repeat split; try (intros; congruence); try discriminate.
    rewrite Z.eqb_refl. reflexivity.
Qed.

End Port_facts.

(** ** C7: the number given to a new port *)

Section Numbering_facts.
Context `{Ext : Externals}.

Lemma find_seqZ_some (f : Z -> bool) (len : nat) (a n : Z) :
  List.find f (seqZ a (Z.of_nat len)) = Some n ->
  a <= n < a + Z.of_nat len /\ f n = true
  /\ forall i, a <= i < n -> f i = false.
Proof.
  revert a. induction len as [| len IH]; intros a H.
  - discriminate.
  - rewrite seqZ_cons in H by lia. simpl in H.
    replace (Z.pred (Z.of_nat (S len))) with (Z.of_nat len) in H by lia.
    destruct (f a) eqn:Ea.
    + injection H as <-. split; [lia |]. split; [assumption |]. intros i Hi. lia.
    + apply IH in H as (Hr & Hf & Hi). split; [lia |]. split; [assumption |].
      intros i Hia. destruct (Z.eq_dec i a) as [-> | ?]; [assumption |].
      apply Hi. lia.
Qed.

Lemma find_seqZ_none (f : Z -> bool) (len : nat) (a : Z) :
  List.find f (seqZ a (Z.of_nat len)) = None ->
  forall i, a <= i < a + Z.of_nat len -> f i = false.
Proof.
  revert a. induction len as [| len IH]; intros a H i Hi.
  - lia.
  - rewrite seqZ_cons in H by lia. simpl in H.
    replace (Z.pred (Z.of_nat (S len))) with (Z.of_nat len) in H by lia.
    destruct (f a) eqn:Ea; [discriminate |].
    destruct (Z.eq_dec i a) as [-> | ?]; [assumption |].
    apply (IH _ H). lia.
Qed.

Lemma port_is_free_true (dp : dp_netdev) (n : Z) :
  port_is_free dp n = true <-> ports dp !! n = None.
Proof.
  unfold port_is_free. destruct (ports dp !! n); split; congruence.
Qed.

Lemma port_is_free_false (dp : dp_netdev) (n : Z) :
  port_is_free dp n = false <-> is_Some (ports dp !! n).
Proof.
  unfold port_is_free. destruct (ports dp !! n); split;
    try congruence; eauto. intros [? ?]. discriminate.
Qed.

(** The final loop of [choose_port] returns the lowest free slot of
    1 .. MAX_PORTS-1, and -1 when all of them are taken. *)
Lemma lowest_free_port_spec (dp : dp_netdev) :
  let low := lowest_free_port dp in
  (low = -1 /\ forall i, 1 <= i < MAX_PORTS -> is_Some (ports dp !! i))
  \/ (1 <= low < MAX_PORTS /\ ports dp !! low = None
      /\ forall i, 1 <= i < low -> is_Some (ports dp !! i)).
Proof.
  unfold lowest_free_port.
  change (MAX_PORTS - 1) with (Z.of_nat 255).
  destruct (List.find (port_is_free dp) (seqZ 1 (Z.of_nat 255))) as [n |] eqn:E.
  - right. apply find_seqZ_some in E as (Hr & Hf & Hi).
    split; [unfold MAX_PORTS; lia |]. split; [apply port_is_free_true, Hf |].
    intros i Hil. apply port_is_free_false, Hi. lia.
  - left. split; [reflexivity |]. intros i Hi.
    apply port_is_free_false. apply (find_seqZ_none _ _ _ E).
    unfold MAX_PORTS in Hi. lia.
Qed.

Lemma port_add_at (dp : dp_netdev) (netdev : netdev) (port_nop n : Z)
    (calls : netdev_calls) :
  (if 0 <=? n
   then let '(dp', error) :=
          do_add_port dp (netdev_vport_get_dpif_port netdev)
                      (netdev_get_type netdev) n calls in
        (dp', n, error)
   else (dp, port_nop, EFBIG))
  = if 0 <=? n
    then (fst (do_add_port dp (netdev_vport_get_dpif_port netdev)
                           (netdev_get_type netdev) n calls), n,
          snd (do_add_port dp (netdev_vport_get_dpif_port netdev)
                           (netdev_get_type netdev) n calls))
    else (dp, port_nop, EFBIG).
Proof. destruct (0 <=? n); [| reflexivity]. destruct (do_add_port _ _ _ _ _); reflexivity. Qed.


End Numbering_facts.

(** ** The upcall queues are first-in first-out *)

Section Fifo_facts.
Context `{Ext : Externals}.

Lemma land_queue_mask (x : Z) : Z.land x QUEUE_MASK = x mod 128.
Proof. change QUEUE_MASK with (Z.ones 7). rewrite Z.land_ones by lia. reflexivity. Qed.

Lemma slot_of_uint32 (x : Z) : Z.land (uint32 x) QUEUE_MASK = x mod 128.
Proof.
  rewrite land_queue_mask. unfold uint32. pow2_consts.
  apply Z.mod_mod_divide.
  exists 33554432. reflexivity.
Qed.

Lemma queue_len_range (q : dp_netdev_queue) : 0 <= queue_len q.
Proof. apply uint32_range. Qed.

(** A record written to the slot of [head] lands behind the records that
    wait. *)
Lemma queue_contents_push (q : dp_netdev_queue) (u : dp_netdev_upcall) :
  queue_ok q -> queue_len q < MAX_QUEUE_LEN ->
  queue_contents {| upcalls := <[Z.land (q_head q) QUEUE_MASK := u]> (upcalls q);
                    q_head := uint32 (q_head q + 1); q_tail := q_tail q |}
  = queue_contents q ++ [Some u].
Proof.
  intros Hok Hlt. pose proof (queue_ok_push q (<[Z.land (q_head q) QUEUE_MASK := u]> (upcalls q)) Hok Hlt) as [_ Hlen].
  unfold queue_contents, queue_len in *. simpl. rewrite Hlen.
  pose proof (uint32_range (q_head q - q_tail q)) as Hr.
  rewrite seqZ_app by lia. rewrite fmap_app. f_equal.
  - apply list_fmap_ext. intros i j Hj.
    apply lookup_seqZ in Hj as [-> Hi].
    apply lookup_insert_ne.
    rewrite land_queue_mask, slot_of_uint32.
    destruct Hok as (Hh & Ht & _). revert Hlt Hi Hh Ht.
    unfold uint32, MAX_QUEUE_LEN. pow2_consts.
    generalize (q_head q) (q_tail q). intros h t. intros.
    Z.div_mod_to_equations. lia.
  - rewrite seqZ_cons by lia. simpl. f_equal.
    rewrite slot_of_uint32, land_queue_mask.
    replace ((q_tail q + (0 + uint32 (q_head q - q_tail q))) mod 128)
      with (q_head q mod 128).
    + apply lookup_insert_eq.
    + destruct Hok as (Hh & Ht & _). revert Hh Ht.
      unfold uint32. pow2_consts.
      generalize (q_head q) (q_tail q). intros h t. intros.
      Z.div_mod_to_equations. lia.
Qed.

(** The record at the slot of [tail] is the oldest; taking it leaves the
    others in their order. *)
Lemma queue_contents_pop (q : dp_netdev_queue) :
  queue_ok q -> q_head q <> q_tail q ->
  queue_contents q
  = upcalls q !! Z.land (q_tail q) QUEUE_MASK
    :: queue_contents {| upcalls := upcalls q; q_head := q_head q;
                         q_tail := uint32 (q_tail q + 1) |}.
Proof.
  intros Hok Hne. pose proof (queue_ok_pop q Hok Hne) as [_ Hlen].
  unfold queue_contents, queue_len in *. simpl. rewrite Hlen.
  pose proof (uint32_range (q_head q - q_tail q)) as Hr.
  assert (0 < uint32 (q_head q - q_tail q)) as Hpos.
  { destruct Hok as (Hh & Ht & _). revert Hh Ht Hne. unfold uint32. pow2_consts.
    generalize (q_head q) (q_tail q). intros h t. intros.
    Z.div_mod_to_equations. lia. }
  rewrite seqZ_cons by lia. simpl. f_equal.
  - rewrite Z.add_0_r, uint32_small by apply Hok. reflexivity.
  - replace (Z.succ 0) with (1 + 0) by lia.
    rewrite <- fmap_add_seqZ, <- list_fmap_compose.
    replace (Z.pred (uint32 (q_head q - q_tail q)))
      with (uint32 (q_head q - q_tail q) - 1) by lia.
    apply list_fmap_ext. intros i j _. simpl.
    rewrite !slot_of_uint32. f_equal.
    unfold uint32. pow2_consts. generalize (q_tail q). intros t.
    Z.div_mod_to_equations. lia.
Qed.

Lemma queue_contents_empty (q : dp_netdev_queue) :
  q_head q = q_tail q -> queue_contents q = [].
Proof.
  intros E. unfold queue_contents, queue_len. rewrite E, Z.sub_diag. reflexivity.
Qed.

Lemma queue_contents_length (q : dp_netdev_queue) :
  Z.of_nat (length (queue_contents q)) = queue_len q.
Proof.
  unfold queue_contents. rewrite length_fmap, length_seqZ.
  pose proof (queue_len_range q). lia.
Qed.

(** X1.  A record that [dp_netdev_output_userspace] accepts goes to the back
    of its queue, with the frame, the queue's type, the serialized key and
    the user data given; the other queue keeps its records. A record it
    refuses leaves both queues as they were, and is refused only when
    MAX_QUEUE_LEN records wait. *)
Theorem output_userspace_appends (dp : dp_netdev) (packet : ofpbuf)
    (queue_no : dpif_upcall_type) (k : flow) (userdata : option nlattrs) :
  queue_ok (queue_at dp queue_no) ->
  let pushed := dp_netdev_output_userspace dp packet queue_no k userdata in
  (snd pushed = 0 ->
     exists u,
       queue_contents (queue_at (fst pushed) queue_no)
       = queue_contents (queue_at dp queue_no) ++ [Some u]
       /\ upcall_type u = queue_no
       /\ upcall_packet u = packet
       /\ upcall_key u = odp_flow_key_from_flow k (flow_in_port k)
       /\ (forall d, userdata = Some d -> upcall_userdata u = Some d))
  /\ (snd pushed <> 0 ->
        queue_contents (queue_at (fst pushed) queue_no)
        = queue_contents (queue_at dp queue_no)
        /\ Z.of_nat (length (queue_contents (queue_at dp queue_no))) = MAX_QUEUE_LEN)
  /\ (forall j, j <> queue_no -> queue_at (fst pushed) j = queue_at dp j).
Proof.
  intros Hok pushed. subst pushed. unfold dp_netdev_output_userspace.
  destruct (Z.ltb_spec (uint32 (q_head (queue_at dp queue_no)
                                - q_tail (queue_at dp queue_no))) MAX_QUEUE_LEN)
    as [Hlt | Hge]; simpl.
  - split; [| split].
    + intros _. eexists. split.
      * rewrite queue_at_set_same. apply queue_contents_push; assumption.
      * simpl. repeat split. intros d ->. reflexivity.
    + intros H. contradiction.
    + intros j Hj. apply queue_at_set_other. congruence.
  - split; [| split].
    + discriminate.
    + intros _. split.
      * destruct queue_no; reflexivity.
      * rewrite queue_contents_length. unfold queue_len.
        destruct Hok as (_ & _ & Hle). lia.
    + intros j _. destruct j; reflexivity.
Qed.

(** X2.  [dpif_netdev_recv] hands out the oldest record of the MISS queue,
    or of the ACTION queue when no MISS record waits, removes it and keeps
    the rest in order; with no record waiting it returns EAGAIN and changes
    nothing. *)
Theorem recv_takes_oldest (dp : dp_netdev) :
  queues_ok dp ->
  let popped := dpif_netdev_recv dp in
  let dp' := fst (fst popped) in
  match queue_contents (queue_miss dp), queue_contents (queue_action dp) with
  | u :: rest, waiting =>
      snd (fst popped) = 0 /\ snd popped = u
      /\ queue_contents (queue_miss dp') = rest
      /\ queue_contents (queue_action dp') = waiting
  | [], u :: rest =>
      snd (fst popped) = 0 /\ snd popped = u
      /\ queue_contents (queue_miss dp') = []
      /\ queue_contents (queue_action dp') = rest
  | [], [] => popped = (dp, EAGAIN, None)
  end.
Proof.
  intros [Hm Ha] popped dp'. subst dp' popped.
  unfold dpif_netdev_recv, find_nonempty_queue. simpl.
  destruct (Z.eqb_spec (q_head (queue_miss dp)) (q_tail (queue_miss dp))) as [E1 | N1];
    simpl.
  - rewrite (queue_contents_empty _ E1).
    destruct (Z.eqb_spec (q_head (queue_action dp)) (q_tail (queue_action dp)))
      as [E2 | N2]; simpl.
    + rewrite (queue_contents_empty _ E2). reflexivity.
    + rewrite (queue_contents_pop _ Ha N2).
      repeat split. apply queue_contents_empty, E1.
  - rewrite (queue_contents_pop _ Hm N1). repeat split.
Qed.

End Fifo_facts.

Section Burst_facts.
Context `{Ext : Externals}.

Lemma lookup_flow_same_table (dp dp' : dp_netdev) (k : flow) :
  flow_table dp' = flow_table dp ->
  dp_netdev_lookup_flow dp' k = dp_netdev_lookup_flow dp k.
Proof. unfold dp_netdev_lookup_flow. intros ->. reflexivity. Qed.

(** X4.  A burst of frames that all miss: each one is counted in [n_missed];
    the MISS queue takes the earliest of them, as many as it has room for,
    behind the records that wait; the later ones are dropped and counted in
    [n_lost]. Nothing is sent, and the flow table, [n_hit] and the ACTION
    queue stay as they were. *)
Theorem miss_burst_accounting (frames : list (dp_netdev_port * ofpbuf)) (now : Z)
    (m : machine) :
  queue_ok (queue_miss (m_dp m)) ->
  Forall (fun pf => ETH_HEADER_LEN <= ofpbuf_size (snd pf)
                    /\ dp_netdev_lookup_flow (m_dp m)
                         (flow_extract (snd pf) (port_no (fst pf))) = None) frames ->
  let n := Z.of_nat (length frames) in
  let room := MAX_QUEUE_LEN - queue_len (queue_miss (m_dp m)) in
  0 <= n_missed (m_dp m) -> n_missed (m_dp m) + n <= LLONG_MAX ->
  0 <= n_lost (m_dp m) -> n_lost (m_dp m) + n <= LLONG_MAX ->
  exists m',
    port_input_each frames now m = Done m'
    /\ n_missed (m_dp m') = n_missed (m_dp m) + n
    /\ n_lost (m_dp m') = n_lost (m_dp m) + Z.max 0 (n - room)
    /\ queue_packets (queue_miss (m_dp m'))
       = queue_packets (queue_miss (m_dp m))
         ++ ((fun pf => Some (snd pf)) <$> take (Z.to_nat room) frames)
    /\ queue_ok (queue_miss (m_dp m'))
    /\ flow_table (m_dp m') = flow_table (m_dp m)
    /\ n_hit (m_dp m') = n_hit (m_dp m)
    /\ queue_action (m_dp m') = queue_action (m_dp m)
    /\ m_sent m' = m_sent m.
Proof.
  revert m. induction frames as [| [port packet] rest IH]; intros m Hok Hall n room.
  - intros _ _ _ _. exists m. subst n room. simpl.
    rewrite take_nil, app_nil_r.
    assert (queue_len (queue_miss (m_dp m)) <= MAX_QUEUE_LEN) by apply Hok.
    split; [reflexivity |]. split; [lia |]. split; [lia |].
    split; [reflexivity |]. split; [exact Hok |]. repeat split.
  - intros Hm0 Hm1 Hl0 Hl1. subst n room.
    rewrite length_cons, Nat2Z.inj_succ in *.
    apply Forall_cons in Hall as [[Hsize Hlook] Hall]. simpl in Hsize, Hlook.
    destruct (port_input_miss m now port packet Hsize Hlook)
      as (m1 & Hin & Hnm & Hnh & Hft & Hqa & Hsent & Hroom & Hfull);
      [unfold LLONG_MAX in *; lia | unfold LLONG_MAX in *; lia |].
    assert (Hall1 : Forall (fun pf => ETH_HEADER_LEN <= ofpbuf_size (snd pf)
                      /\ dp_netdev_lookup_flow (m_dp m1)
                           (flow_extract (snd pf) (port_no (fst pf))) = None) rest).
    { eapply Forall_impl; [exact Hall |]. intros pf [? ?]. split; [assumption |].
      rewrite (lookup_flow_same_table _ _ _ Hft). assumption. }
    pose proof (queue_len_range (queue_miss (m_dp m))) as Hlen0.
    assert (Hlen128 : queue_len (queue_miss (m_dp m)) <= MAX_QUEUE_LEN) by apply Hok.
    simpl port_input_each. rewrite Hin. simpl.
    destruct (Z.lt_ge_cases (queue_len (queue_miss (m_dp m))) MAX_QUEUE_LEN)
      as [Hlt | Hge].
    + destruct (Hroom Hlt) as [Hq Hnl].
      set (u := {| upcall_type := DPIF_UC_MISS;
                   upcall_key := odp_flow_key_from_flow
                                   (flow_extract packet (port_no port))
                                   (flow_in_port (flow_extract packet (port_no port)));
                   upcall_userdata :=
                     (upcalls (queue_miss (m_dp m))
                        !! Z.land (q_head (queue_miss (m_dp m))) QUEUE_MASK)
                       ≫= upcall_userdata;
                   upcall_packet := packet |}) in *.
      destruct (queue_ok_push (queue_miss (m_dp m))
                  (<[Z.land (q_head (queue_miss (m_dp m))) QUEUE_MASK := u]>
                     (upcalls (queue_miss (m_dp m)))) Hok Hlt) as [Hok1 Hlen1].
      rewrite <- Hq in Hok1.
      assert (Hlen1' : queue_len (queue_miss (m_dp m1))
                       = queue_len (queue_miss (m_dp m)) + 1).
      { rewrite Hq. exact Hlen1. }
      destruct (IH m1 Hok1 Hall1) as (m' & Hrun & Hnm' & Hnl' & Hqp & Hok' & Hft' & Hnh' & Hqa' & Hsent');
        try lia.
      exists m'. split; [exact Hrun |].
      split; [lia |]. split; [lia |].
      split.
      * rewrite Hqp, Hlen1'. unfold queue_packets.
        rewrite Hq, queue_contents_push by assumption.
        rewrite fmap_app, <- app_assoc. f_equal. simpl.
        replace (Z.to_nat (MAX_QUEUE_LEN - queue_len (queue_miss (m_dp m))))
          with (S (Z.to_nat (MAX_QUEUE_LEN - (queue_len (queue_miss (m_dp m)) + 1))))
          by lia.
        reflexivity.
      * split; [exact Hok' |]. repeat split; congruence.
    + destruct (Hfull Hge) as [Hq Hnl].
      assert (Hok1 : queue_ok (queue_miss (m_dp m1))) by (rewrite Hq; exact Hok).
      destruct (IH m1 Hok1 Hall1) as (m' & Hrun & Hnm' & Hnl' & Hqp & Hok' & Hft' & Hnh' & Hqa' & Hsent');
        try lia.
      exists m'. split; [exact Hrun |].
      rewrite Hq in *.
      split; [lia |]. split; [lia |].
      split.
      * rewrite Hqp. f_equal.
        replace (Z.to_nat (MAX_QUEUE_LEN - queue_len (queue_miss (m_dp m))))
          with O by lia.
        reflexivity.
      * split; [exact Hok' |]. repeat split; congruence.
Qed.

End Burst_facts.

(** ** What running actions can change *)

Section Engine_relation.
Context `{Ext : Externals}.
Variable R : machine -> machine -> Prop.
Hypothesis R_refl : forall m, R m m.
Hypothesis R_trans : forall m1 m2 m3, R m1 m2 -> R m2 m3 -> R m1 m3.
Hypothesis R_rng : forall m rng,
  R m {| m_dp := m_dp m; m_sent := m_sent m; m_rng := rng |}.
Hypothesis R_output : forall m n p packet,
  0 <= n < MAX_PORTS -> ports (m_dp m) !! n = Some p ->
  R m {| m_dp := m_dp m; m_sent := m_sent m ++ [(p, packet)]; m_rng := m_rng m |}.
Hypothesis R_userspace : forall m packet k userdata,
  R m (dp_netdev_action_userspace m packet k userdata).

Lemma execute_each_keeps (exec : action -> machine * ofpbuf -> outcome (machine * ofpbuf))
    (acts : list action) :
  Forall (fun a => keeps_relation R (exec a)) acts ->
  keeps_relation R (execute_each exec acts).
Proof.
  induction 1 as [| a rest Ha _ IH]; intros s s' H; simpl in H.
  - injection H as <-. apply R_refl.
  - destruct (exec a s) as [s1 | f] eqn:E1; simpl in H; [| discriminate].
    eapply R_trans; [apply (Ha _ _ E1) | apply (IH _ _ H)].
Qed.

Lemma sample_each_keeps (exec : action -> machine * ofpbuf -> outcome (machine * ofpbuf))
    (attrs : list (sample_attr action)) :
  Forall (fun sa => match sa with
                    | OVS_SAMPLE_ATTR_ACTIONS acts =>
                        Forall (fun a => keeps_relation R (exec a)) acts
                    | _ => True
                    end) attrs ->
  forall subactions,
    (forall run, subactions = Some run -> keeps_relation R run) ->
    keeps_relation R (sample_each exec attrs subactions).
Proof.
  induction 1 as [| sa rest Hsa _ IH]; intros subactions Hsub s s' H; simpl in H.
  - destruct subactions as [run |]; [| discriminate].
    eapply Hsub; [reflexivity | exact H].
  - destruct sa as [probability | acts | | | t]; try discriminate.
    + destruct (random_uint32 (m_rng (fst s))) as [r rng].
      destruct (probability <=? r).
      * injection H as <-. simpl. apply R_rng.
      * apply (IH subactions Hsub) in H. simpl in H.
        eapply R_trans; [apply (R_rng (fst s) rng) | exact H].
    + refine (IH _ _ _ _ H). intros run [= <-].
      apply execute_each_keeps, Hsa.
Qed.

Lemma execute_action_keeps (k : flow) (a : action) :
  keeps_relation R (execute_action k a).
Proof.
  induction a as [a Hnested] using action_nested_ind.
  intros s s' H. destruct a; simpl in H;
    try (injection H as <-; simpl; apply R_refl);
    try discriminate.
  - unfold dp_netdev_output_port in H.
    destruct (Z.leb_spec 0 port); [| discriminate].
    destruct (Z.ltb_spec port MAX_PORTS); [| discriminate]. simpl in H.
    destruct (ports (m_dp (fst s)) !! port) as [p |] eqn:Ep; simpl in H;
      injection H as <-; simpl; [| apply R_refl].
    apply (R_output _ port); [lia | exact Ep].
  - injection H as <-. simpl. apply R_userspace.
  - destruct (execute_set_action (snd s) a); simpl in H; [| discriminate].
    injection H as <-. apply R_refl.
  - refine (sample_each_keeps _ attrs Hnested None _ s s' H). discriminate.
Qed.

Lemma execute_actions_keeps (m : machine) (packet : ofpbuf) (k : flow)
    (acts : list action) (s' : machine * ofpbuf) :
  dp_netdev_execute_actions m packet k acts = Done s' -> R m (fst s').
Proof.
  intros H. refine (execute_each_keeps _ acts _ (m, packet) s' H).
  apply Forall_forall. intros a _. apply execute_action_keeps.
Qed.

End Engine_relation.

Section Effect_facts.
Context `{Ext : Externals}.

Lemma engine_effect_refl (m : machine) : engine_effect m m.
Proof.
  split; [destruct m as [[] ? ?]; reflexivity |]. split; [tauto |].
  exists []. rewrite app_nil_r. split; [reflexivity | constructor].
Qed.

Lemma engine_effect_ports (m m' : machine) :
  engine_effect m m' -> ports (m_dp m') = ports (m_dp m).
Proof. intros [-> _]. reflexivity. Qed.

Lemma engine_effect_trans (m1 m2 m3 : machine) :
  engine_effect m1 m2 -> engine_effect m2 m3 -> engine_effect m1 m3.
Proof.
  intros H12 H23. pose proof (engine_effect_ports _ _ H12) as Hp.
  destruct H12 as (E12 & Q12 & sent12 & S12 & F12).
  destruct H23 as (E23 & Q23 & sent23 & S23 & F23).
  split; [| split].
  - rewrite E23 at 1. rewrite E12 at 1. destruct (m_dp m1); reflexivity.
  - tauto.
  - exists (sent12 ++ sent23). split; [rewrite S23, S12, app_assoc; reflexivity |].
    apply Forall_app. split; [exact F12 |].
    eapply Forall_impl; [exact F23 |]. intros s (n & Hn & Hs).
    exists n. rewrite <- Hp. split; assumption.
Qed.

Lemma engine_effect_rng (m : machine) (rng : rng_state) :
  engine_effect m {| m_dp := m_dp m; m_sent := m_sent m; m_rng := rng |}.
Proof.
  split; [destruct m as [[] ? ?]; reflexivity |]. split; [tauto |].
  exists []. simpl. rewrite app_nil_r. split; [reflexivity | constructor].
Qed.

Lemma engine_effect_output (m : machine) (n : Z) (p : dp_netdev_port) (packet : ofpbuf) :
  0 <= n < MAX_PORTS -> ports (m_dp m) !! n = Some p ->
  engine_effect m {| m_dp := m_dp m; m_sent := m_sent m ++ [(p, packet)];
                     m_rng := m_rng m |}.
Proof.
  intros Hn Hp. split; [destruct m as [[] ? ?]; reflexivity |]. split; [tauto |].
  exists [(p, packet)]. split; [reflexivity |].
  constructor; [| constructor]. exists n. split; assumption.
Qed.

Lemma engine_effect_userspace (m : machine) (packet : ofpbuf) (k : flow)
    (userdata : option nlattrs) :
  engine_effect m (dp_netdev_action_userspace m packet k userdata).
Proof.
  unfold dp_netdev_action_userspace, dp_netdev_output_userspace. simpl.
  destruct (Z.ltb_spec (uint32 (q_head (queue_action (m_dp m))
                                - q_tail (queue_action (m_dp m)))) MAX_QUEUE_LEN)
    as [Hlt | Hge]; simpl.
  - split; [destruct m as [[] ? ?]; reflexivity |]. split.
    + intros Hok. simpl. eapply queue_ok_push; eassumption.
    + exists []. rewrite app_nil_r. split; [reflexivity | constructor].
  - split; [destruct m as [[] ? ?]; reflexivity |]. split; [tauto |].
    exists []. rewrite app_nil_r. split; [reflexivity | constructor].
Qed.

Lemma execute_actions_effect (m : machine) (packet : ofpbuf) (k : flow)
    (acts : list action) (s' : machine * ofpbuf) :
  dp_netdev_execute_actions m packet k acts = Done s' -> engine_effect m (fst s').
Proof.
  apply (execute_actions_keeps engine_effect engine_effect_refl engine_effect_trans
           engine_effect_rng engine_effect_output engine_effect_userspace).
Qed.

Lemma execute_effect (m m' : machine) (execute : dpif_execute) (r : Z) :
  dpif_netdev_execute m execute = Done (m', r) ->
  engine_effect m m' /\ (r <> 0 -> m' = m).
Proof.
  intros H. unfold dpif_netdev_execute in H.
  destruct (_ || _).
  - injection H as <- <-. split; [apply engine_effect_refl | reflexivity].
  - destruct (dpif_netdev_flow_from_nlattrs (execute_key execute)) as [error k].
    destruct (Z.eqb_spec error 0) as [-> | Hne].
    + destruct (dp_netdev_execute_actions m (execute_packet execute) k
                  (execute_actions execute)) as [s |] eqn:E; simpl in H;
        [| discriminate].
      injection H as <- <-. split; [| intros Hr; contradiction].
      eapply execute_actions_effect, E.
    + injection H as <- <-. split; [apply engine_effect_refl | reflexivity].
Qed.

Lemma execute_keeps_fields (m m' : machine) (execute : dpif_execute) (r : Z) :
  dpif_netdev_execute m execute = Done (m', r) ->
  flow_table (m_dp m') = flow_table (m_dp m).
Proof. intros H. apply execute_effect in H as [[-> _] _]. reflexivity. Qed.

(** X5.  Whatever the actions, [dpif_netdev_execute] leaves the flow table,
    the counters of hits and misses, the MISS queue, the ports and the
    serial as they are; it keeps the ACTION queue within its invariant; it
    sends frames only on devices that are ports of the datapath and takes
    back none that was sent; and when it returns an error nothing has
    changed at all. *)
Theorem execute_keeps_datapath (m m' : machine) (execute : dpif_execute) (r : Z) :
  dpif_netdev_execute m execute = Done (m', r) ->
  flow_table (m_dp m') = flow_table (m_dp m)
  /\ n_hit (m_dp m') = n_hit (m_dp m)
  /\ n_missed (m_dp m') = n_missed (m_dp m)
  /\ queue_miss (m_dp m') = queue_miss (m_dp m)
  /\ ports (m_dp m') = ports (m_dp m)
  /\ port_list (m_dp m') = port_list (m_dp m)
  /\ serial (m_dp m') = serial (m_dp m)
  /\ open_cnt (m_dp m') = open_cnt (m_dp m)
  /\ (queue_ok (queue_action (m_dp m)) -> queue_ok (queue_action (m_dp m')))
  /\ (exists sent,
        m_sent m' = m_sent m ++ sent
        /\ Forall (fun s => exists n, 0 <= n < MAX_PORTS
                                      /\ ports (m_dp m) !! n = Some (fst s)) sent)
  /\ (r <> 0 -> m' = m).
Proof.
  intros H.
  apply execute_effect in H as Heff.
  destruct Heff as [(E & Q & S) Herr].
  do 8 (split; [rewrite E; reflexivity |]).
  split; [exact Q |]. split; [exact S |]. exact Herr.
Qed.

End Effect_facts.

(** ** Every frame is counted once *)

Section Run_facts.
Context `{Ext : Externals}.

Lemma flow_store_keys (f : dp_netdev_flow) (t : list dp_netdev_flow) :
  key <$> flow_store f t = key <$> t.
Proof.
  induction t as [| g t IH]; [reflexivity |]. cbn [flow_store].
  destruct (bool_decide (key g = key f)) eqn:E; rewrite !fmap_cons.
  - apply bool_decide_eq_true in E. rewrite E. reflexivity.
  - rewrite IH. reflexivity.
Qed.





End Run_facts.

(** ** The array of ports and the list of ports *)

Section Ports_invariant.
Context `{Ext : Externals}.

Lemma ports_ok_xzalloc (name : string) (class : dpif_class) :
  ports_ok (dp_netdev_xzalloc name class).
Proof.
  split; [| split]; simpl.
  - intros n p H. rewrite lookup_empty in H. discriminate.
  - intros p H. apply elem_of_nil in H. contradiction.
  - constructor.
Qed.

Lemma ports_ok_set_ports (dp : dp_netdev) (n s : Z) (p : dp_netdev_port) :
  ports_ok dp -> 0 <= n < MAX_PORTS -> ports dp !! n = None -> port_no p = n ->
  ports_ok (set_ports (<[n := p]> (ports dp)) (port_list dp ++ [p]) s dp).
Proof.
  intros (H1 & H2 & H3) Hn Hfree Hp. split; [| split]; simpl.
  - intros n' p' H. destruct (decide (n = n')) as [<- | Hne].
    + rewrite lookup_insert_eq in H. injection H as <-.
      split; [assumption |]. split; [assumption |].
      apply elem_of_app. right. apply list_elem_of_singleton. reflexivity.
    + rewrite lookup_insert_ne in H by assumption.
      destruct (H1 _ _ H) as (? & ? & ?). split; [assumption |].
      split; [assumption |]. apply elem_of_app. left. assumption.
  - intros q Hq. apply elem_of_app in Hq as [Hq | Hq].
    + pose proof (H2 _ Hq) as Hl.
      rewrite lookup_insert_ne; [assumption |]. intros E. rewrite <- E in Hl. congruence.
    + apply list_elem_of_singleton in Hq as ->. rewrite Hp. apply lookup_insert_eq.
  - rewrite fmap_app. apply NoDup_app. split; [assumption |]. split.
    + intros x Hx Hx'. apply list_elem_of_singleton in Hx' as ->.
      apply list_elem_of_fmap in Hx as (q & Hq & Hin). apply H2 in Hin.
      rewrite <- Hq, Hp in Hin. congruence.
    + apply NoDup_singleton.
Qed.

Lemma ports_ok_add (dp : dp_netdev) (devname type : string) (n : Z)
    (calls : netdev_calls) :
  ports_ok dp -> 0 <= n < MAX_PORTS -> ports dp !! n = None ->
  ports_ok (fst (do_add_port dp devname type n calls)).
Proof.
  intros Hok Hn Hfree.
  destruct (do_add_port_cases dp devname type n calls) as [[_ ->] | [_ ->]];
    [assumption |].
  apply ports_ok_set_ports; try assumption. reflexivity.
Qed.

Lemma list_remove_elem (n : Z) (l : list dp_netdev_port) (q : dp_netdev_port) :
  NoDup (port_no <$> l) ->
  q ∈ list_remove n l <-> q ∈ l /\ port_no q <> n.
Proof.
  induction l as [| p l IH]; cbn [list_remove]; intros Hnd.
  - split; [intros H | intros [H _]]; apply elem_of_nil in H; contradiction.
  - rewrite fmap_cons in Hnd. apply NoDup_cons in Hnd as [Hp Hnd].
    destruct (Z.eqb_spec (port_no p) n) as [E | N].
    + split.
      * intros Hq. split; [apply elem_of_cons; right; assumption |].
        intros Hqn. apply Hp. rewrite E, <- Hqn.
        apply list_elem_of_fmap. exists q. split; [reflexivity | assumption].
      * intros [Hq Hqn]. apply elem_of_cons in Hq as [-> | Hq];
          [contradiction | assumption].
    + rewrite !elem_of_cons, (IH Hnd). split.
      * intros [-> | [? ?]]; [split; [left; reflexivity | assumption] |].
        split; [right; assumption | assumption].
      * intros [[-> | ?] ?]; [left; reflexivity | right; split; assumption].
Qed.

Lemma list_remove_NoDup (n : Z) (l : list dp_netdev_port) :
  NoDup (port_no <$> l) -> NoDup (port_no <$> list_remove n l).
Proof.
  induction l as [| p l IH]; cbn [list_remove]; intros Hnd; [constructor |].
  rewrite fmap_cons in Hnd. apply NoDup_cons in Hnd as [Hp Hnd].
  destruct (Z.eqb_spec (port_no p) n) as [E | N]; [assumption |].
  rewrite fmap_cons. apply NoDup_cons. split; [| apply IH, Hnd].
  intros Hin. apply Hp. apply list_elem_of_fmap in Hin as (q & Hq & Hin).
  apply list_remove_elem in Hin as [Hin _]; [| assumption].
  apply list_elem_of_fmap. exists q. split; assumption.
Qed.

Lemma ports_ok_del (dp : dp_netdev) (n : Z) :
  ports_ok dp -> ports_ok (fst (do_del_port dp n)).
Proof.
  intros Hok.
  destruct (do_del_port_cases dp n) as [[_ ->] | (port & Hport & _ & _ & ->)];
    [assumption |].
  destruct Hok as (H1 & H2 & H3).
  destruct (H1 _ _ Hport) as (Hno & _ & _). rewrite Hno.
  split; [| split]; simpl.
  - intros n' p' H. apply lookup_delete_Some in H as [Hne H].
    destruct (H1 _ _ H) as (? & ? & ?). split; [assumption |].
    split; [assumption |]. apply list_remove_elem; [assumption |].
    split; [assumption | congruence].
  - intros q Hq. apply list_remove_elem in Hq as [Hq Hqn]; [| assumption].
    rewrite lookup_delete_ne by congruence. apply H2, Hq.
  - apply list_remove_NoDup, H3.
Qed.

Lemma ports_ok_create (name : string) (class : dpif_class) (calls : netdev_calls)
    (dp : dp_netdev) :
  create_dp_netdev name class calls = (0, Some dp) -> ports_ok dp.
Proof.
  unfold create_dp_netdev. intros H.
  pose proof (ports_ok_add (dp_netdev_xzalloc name class) name "internal" OVSP_LOCAL
                calls (ports_ok_xzalloc name class)) as Hadd.
  destruct (do_add_port _ name "internal" OVSP_LOCAL calls) as [dp' error].
  destruct (negb (error =? 0)); [discriminate |]. injection H as <-.
  apply Hadd; [unfold OVSP_LOCAL, MAX_PORTS; lia | apply lookup_empty].
Qed.

(** [choose_port] gives -1 or the number of a free slot other than 0. *)
Lemma choose_port_free (dp : dp_netdev) (name : string) :
  choose_port dp name = -1
  \/ (1 <= choose_port dp name < MAX_PORTS /\ ports dp !! choose_port dp name = None).
Proof.
  assert (Hlow : lowest_free_port dp = -1
                 \/ (1 <= lowest_free_port dp < MAX_PORTS
                     /\ ports dp !! lowest_free_port dp = None)).
  { destruct (lowest_free_port_spec dp) as [[-> _] | (? & ? & _)];
      [left; reflexivity | right; split; assumption]. }
  unfold choose_port.
  destruct (dpif_netdev_class_is_dummy (dp_class dp)); [| exact Hlow].
  destruct (first_digit name) as [p |]; [| exact Hlow].
  destruct (Z.ltb_spec 0 (named_port name p)); simpl; [| exact Hlow].
  destruct (Z.ltb_spec (named_port name p) MAX_PORTS); simpl; [| exact Hlow].
  destruct (port_is_free dp (named_port name p)) eqn:Ef; [| exact Hlow].
  right. split; [lia |]. apply port_is_free_true, Ef.
Qed.

(** A call of [dpif_netdev_port_add] fails and changes nothing, or fills a
    slot that was free. *)
Lemma port_add_cases (dp : dp_netdev) (netdev : netdev) (port_nop : Z)
    (calls : netdev_calls) :
  let r := dpif_netdev_port_add dp netdev port_nop calls in
  let n := snd (fst r) in
  let added := do_add_port dp (netdev_vport_get_dpif_port netdev)
                           (netdev_get_type netdev) n calls in
  (snd r <> 0 /\ fst (fst r) = dp)
  \/ (snd r = 0 /\ 0 <= n < MAX_PORTS /\ ports dp !! n = None
      /\ fst (fst r) = fst added /\ snd added = 0).
Proof.
  unfold dpif_netdev_port_add. rewrite !port_add_at.
  destruct (port_nop =? UINT32_MAX); simpl.
  - destruct (choose_port_free dp (netdev_vport_get_dpif_port netdev))
      as [E | [Hr Hfree]].
    + rewrite E. simpl. left. split; [discriminate | reflexivity].
    + destruct (Z.leb_spec 0 (choose_port dp (netdev_vport_get_dpif_port netdev)));
        [| lia]. simpl.
      destruct (do_add_port_cases dp (netdev_vport_get_dpif_port netdev)
                  (netdev_get_type netdev)
                  (choose_port dp (netdev_vport_get_dpif_port netdev)) calls)
        as [[Hne Hsame] | [Hz _]].
      * left. split; assumption.
      * right. split; [assumption |]. split; [lia |]. split; [assumption |].
        split; [reflexivity | assumption].
  - destruct (Z.leb_spec MAX_PORTS port_nop); simpl;
      [left; split; [discriminate | reflexivity] |].
    destruct (port_is_free dp port_nop) eqn:Ef; simpl;
      [| left; split; [discriminate | reflexivity]].
    destruct (Z.leb_spec 0 port_nop); simpl;
      [| left; split; [discriminate | reflexivity]].
    destruct (do_add_port_cases dp (netdev_vport_get_dpif_port netdev)
                (netdev_get_type netdev) port_nop calls)
      as [[Hne Hsame] | [Hz _]].
    + left. split; assumption.
    + right. split; [assumption |]. split; [lia |].
      split; [apply port_is_free_true, Ef |]. split; [reflexivity | assumption].
Qed.

Lemma ports_ok_mutation (dp : dp_netdev) (mu : port_mutation) :
  ports_ok dp -> ports_ok (fst (apply_mutation dp mu)).
Proof.
  intros Hok. destruct mu as [netdev port_nop calls | n]; simpl.
  - pose proof (port_add_cases dp netdev port_nop calls) as Hc.
    destruct (dpif_netdev_port_add dp netdev port_nop calls) as [[dp' n] e].
    simpl in *. destruct Hc as [[_ ->] | (_ & Hn & Hfree & -> & _)]; [assumption |].
    apply ports_ok_add; assumption.
  - unfold dpif_netdev_port_del. destruct (n =? OVSP_LOCAL); [assumption |].
    apply ports_ok_del, Hok.
Qed.

Lemma ports_ok_mutations (mus : list port_mutation) (dp : dp_netdev) :
  ports_ok dp -> ports_ok (fst (apply_mutations dp mus)).
Proof.
  revert dp. induction mus as [| mu rest IH]; intros dp Hok; [exact Hok |].
  cbn [apply_mutations].
  pose proof (ports_ok_mutation dp mu Hok) as Hstep.
  destruct (apply_mutation dp mu) as [dp1 e1]. cbn [fst] in Hstep.
  specialize (IH dp1 Hstep).
  destruct (apply_mutations dp1 rest) as [dp2 n]. exact IH.
Qed.

Lemma ports_ok_bound (dp : dp_netdev) :
  ports_ok dp -> Z.of_nat (length (port_list dp)) <= MAX_PORTS.
Proof.
  intros (H1 & H2 & H3).
  assert (Hsub : (port_no <$> port_list dp) ⊆+ seqZ 0 MAX_PORTS).
  { apply NoDup_submseteq; [assumption |]. intros x Hx.
    apply list_elem_of_fmap in Hx as (q & -> & Hq).
    apply H2, H1 in Hq as (_ & Hr & _). apply elem_of_seqZ. lia. }
  apply submseteq_length in Hsub. rewrite length_fmap, length_seqZ in Hsub.
  unfold MAX_PORTS in *. lia.
Qed.

(** The ingress path writes neither the ports nor the name. *)
Lemma port_input_same_ports (m m' : machine) (now : Z) (port : dp_netdev_port)
    (packet : ofpbuf) :
  dp_netdev_port_input m now port packet = Done m' ->
  ports (m_dp m') = ports (m_dp m)
  /\ port_list (m_dp m') = port_list (m_dp m)
  /\ dp_name (m_dp m') = dp_name (m_dp m).
Proof.
  intros H. unfold dp_netdev_port_input in H.
  destruct (ofpbuf_size packet <? ETH_HEADER_LEN).
  - injection H as <-. repeat split.
  - destruct (dp_netdev_lookup_flow (m_dp m) (flow_extract packet (port_no port)))
      as [f |] eqn:Elook.
    + destruct (dp_netdev_execute_actions _ packet _ (actions _)) as [s |] eqn:E;
        simpl in H; [| discriminate].
      injection H as <-.
      apply execute_actions_effect in E as (E & _). simpl in E. simpl.
      rewrite E. repeat split.
    + injection H as <-. simpl.
      unfold dp_netdev_output_userspace.
      destruct (_ <? MAX_QUEUE_LEN); simpl; [| repeat split].
      repeat split.
Qed.

Lemma run_each_same_ports (netdev_recv : dp_netdev_port -> Z * ofpbuf) (now : Z)
    (todo : list dp_netdev_port) (m m' : machine) :
  run_each netdev_recv now todo m = Done m' ->
  ports (m_dp m') = ports (m_dp m)
  /\ port_list (m_dp m') = port_list (m_dp m)
  /\ dp_name (m_dp m') = dp_name (m_dp m).
Proof.
  revert m. induction todo as [| port rest IH]; intros m H; cbn [run_each] in H.
  - injection H as <-. repeat split.
  - destruct (netdev_recv port) as [error packet].
    destruct (error =? 0); [| apply IH, H].
    destruct (dp_netdev_port_input m now port packet) as [m1 |] eqn:E;
      simpl in H; [| discriminate].
    apply port_input_same_ports in E as (E1 & E2 & E3).
    apply IH in H as (H1 & H2 & H3).
    rewrite H1, H2, H3. repeat split; assumption.
Qed.

(** A call is a call on the port set, or it writes neither the ports nor
    the name. *)
Lemma datapath_call_cases (dp dp' : dp_netdev) :
  datapath_call dp dp' ->
  (exists mu, dp' = fst (apply_mutation dp mu))
  \/ (ports dp' = ports dp /\ port_list dp' = port_list dp
      /\ dp_name dp' = dp_name dp).
Proof.
  intros H.
  destruct H as [mu | | dp_netdevs dp_netdevs' dpif dp' Hin Hclose Hout
                 | dp_netdevs dpif dp' Hin Hout | put | del | | |
                 | m m' execute r Hm Hex | netdev_recv now m m' Hm Hrun].
  - left. exists mu. reflexivity.
  - right. repeat split.
  - right. unfold dpif_netdev_close in Hclose. rewrite Hin in Hclose.
    destruct (negb (0 <? open_cnt dp)); [discriminate |].
    cbn [open_cnt set_open_cnt] in Hclose.
    destruct ((_ =? 0) && _).
    + injection Hclose as <-. cbn [dp_name set_open_cnt] in Hout.
      destruct (decide (dp_name dp = dpif_dp dpif)) as [E | N].
      * rewrite E, lookup_delete_eq in Hout. discriminate.
      * rewrite lookup_delete_ne, Hin in Hout by exact N.
        injection Hout as <-. repeat split.
    + injection Hclose as <-. rewrite lookup_insert_eq in Hout.
      injection Hout as <-. repeat split.
  - right. unfold dpif_netdev_destroy in Hout. rewrite Hin in Hout.
    cbn [fst] in Hout. rewrite lookup_insert_eq in Hout.
    injection Hout as <-. repeat split.
  - right. unfold dpif_netdev_flow_put.
    destruct (dpif_netdev_flow_from_nlattrs (put_key put)) as [error k].
    destruct (negb (error =? 0)); [repeat split |].
    destruct (dp_netdev_lookup_flow dp k) as [flow |].
    + destruct (negb (Z.land (put_flags put) DPIF_FP_MODIFY =? 0));
        [| repeat split]. simpl. repeat split.
    + destruct (negb (Z.land (put_flags put) DPIF_FP_CREATE =? 0));
        [| repeat split].
      destruct (_ <? MAX_FLOWS); [| repeat split]. simpl. repeat split.
  - right. unfold dpif_netdev_flow_del.
    destruct (dpif_netdev_flow_from_nlattrs (del_key del)) as [error k].
    destruct (negb (error =? 0)); [repeat split |].
    destruct (dp_netdev_lookup_flow dp k) as [flow |]; repeat split.
  - right. repeat split.
  - right. unfold dpif_netdev_recv.
    destruct (find_nonempty_queue dp) as [[] |]; repeat split.
  - right. repeat split.
  - right. subst dp. apply execute_effect in Hex as [[E _] _].
    rewrite E. repeat split.
  - right. subst dp. apply run_each_same_ports in Hrun. exact Hrun.
Qed.

Lemma ports_ok_call (dp dp' : dp_netdev) :
  ports_ok dp -> datapath_call dp dp' -> ports_ok dp'.
Proof.
  intros Hok Hcall.
  destruct (datapath_call_cases dp dp' Hcall) as [[mu ->] | (E1 & E2 & _)].
  - apply ports_ok_mutation, Hok.
  - unfold ports_ok. rewrite E1, E2. exact Hok.
Qed.

Lemma ports_ok_calls (dp dp' : dp_netdev) :
  ports_ok dp -> datapath_calls dp dp' -> ports_ok dp'.
Proof.
  intros Hok Hcalls. induction Hcalls as [| dp' dp'' _ IH Hcall]; [exact Hok |].
  eapply ports_ok_call; [exact IH | exact Hcall].
Qed.

(** A call on the port set keeps the name and what slot 0 holds. *)
Lemma local_port_mutation (dp : dp_netdev) (mu : port_mutation) :
  ports_ok dp -> local_port_ok dp -> local_port_ok (fst (apply_mutation dp mu)).
Proof.
  intros (H1 & _ & _) (p & Hp & Hno & Hty & Hname).
  destruct mu as [netdev port_nop calls | n]; simpl.
  - pose proof (port_add_cases dp netdev port_nop calls) as Hc.
    destruct (dpif_netdev_port_add dp netdev port_nop calls) as [[dp' n] e].
    simpl in *. destruct Hc as [[_ ->] | (_ & Hn & Hfree & -> & _)].
    + exists p. repeat split; assumption.
    + destruct (do_add_port_cases dp (netdev_vport_get_dpif_port netdev)
                  (netdev_get_type netdev) n calls) as [[_ ->] | [_ ->]].
      * exists p. repeat split; assumption.
      * exists p. simpl. rewrite lookup_insert_ne by congruence.
        repeat split; assumption.
  - unfold dpif_netdev_port_del. destruct (Z.eqb_spec n OVSP_LOCAL) as [E | N].
    + exists p. repeat split; assumption.
    + destruct (do_del_port_cases dp n) as [[_ ->] | (port & Hport & _ & _ & ->)].
      * exists p. repeat split; assumption.
      * exists p. simpl. destruct (H1 _ _ Hport) as (-> & _ & _).
        rewrite lookup_delete_ne by congruence. repeat split; assumption.
Qed.

Lemma local_port_create (name : string) (class : dpif_class) (calls : netdev_calls)
    (dp : dp_netdev) :
  create_dp_netdev name class calls = (0, Some dp) -> local_port_ok dp.
Proof.
  intros Hc. unfold create_dp_netdev in Hc.
  destruct (do_add_port_cases (dp_netdev_xzalloc name class) name "internal"
              OVSP_LOCAL calls) as [[Hne _] | [_ Hadd]].
  - destruct (do_add_port _ name "internal" OVSP_LOCAL calls) as [dp' error].
    simpl in Hne. destruct (Z.eqb_spec error 0); [contradiction | discriminate].
  - destruct (do_add_port _ name "internal" OVSP_LOCAL calls) as [dp' error].
    simpl in Hadd. destruct (negb (error =? 0)); [discriminate |].
    injection Hc as <-. subst dp'. eexists. simpl.
    rewrite lookup_insert_eq. repeat split.
Qed.

(** X8.  The array of ports and the list of ports of a datapath hold the
    same ports, each in the slot of its own number, which is below
    MAX_PORTS, and once in the list: this is so of the datapath that
    [create_dp_netdev] returns, and from any datapath of which it is so,
    whatever its handles, flows, counters and queues, it stays so through
    every call that writes to the datapath: adding and deleting ports,
    opening, closing and destroying a handle, putting, deleting and
    flushing flows, receiving and purging upcalls, executing actions and
    running the ingress path.  So there are never more than MAX_PORTS
    ports. *)
Theorem ports_ok_kept :
  (forall (name : string) (class : dpif_class) (calls : netdev_calls)
          (dp : dp_netdev),
      create_dp_netdev name class calls = (0, Some dp) -> ports_ok dp)
  /\ (forall dp dp' : dp_netdev,
        ports_ok dp -> datapath_calls dp dp' ->
        ports_ok dp' /\ Z.of_nat (length (port_list dp')) <= MAX_PORTS)
  /\ (forall (dp : dp_netdev) (mus : list port_mutation),
        ports_ok dp ->
        ports_ok (fst (apply_mutations dp mus))
        /\ Z.of_nat (length (port_list (fst (apply_mutations dp mus)))) <= MAX_PORTS).
Proof.
  split; [exact ports_ok_create |]. split.
  - intros dp dp' Hok Hcalls. pose proof (ports_ok_calls dp dp' Hok Hcalls) as H.
    split; [exact H | apply ports_ok_bound, H].
  - intros dp mus Hok. pose proof (ports_ok_mutations mus dp Hok) as H.
    split; [exact H | apply ports_ok_bound, H].
Qed.

(** X9.  The LOCAL port that [create_dp_netdev] adds stays: slot 0 of the
    datapath it returns holds an internal port for the device named as the
    datapath, and from any datapath with such a port whose array and list
    of ports agree, whatever its handles, flows, counters and queues, no
    call that writes to the datapath takes the port away or changes it. *)
Theorem local_port_stays :
  (forall (name : string) (class : dpif_class) (calls : netdev_calls)
          (dp : dp_netdev),
      create_dp_netdev name class calls = (0, Some dp) -> local_port_ok dp)
  /\ (forall dp dp' : dp_netdev,
        ports_ok dp -> local_port_ok dp -> datapath_calls dp dp' ->
        local_port_ok dp').
Proof.
  split; [exact local_port_create |].
  intros dp dp' Hok Hlocal Hcalls.
  induction Hcalls as [| dp' dp'' Hcalls IH Hcall]; [exact Hlocal |].
  pose proof (ports_ok_calls dp dp' Hok Hcalls) as Hok'.
  destruct (datapath_call_cases dp' dp'' Hcall) as [[mu ->] | (E1 & _ & E3)].
  - apply local_port_mutation; assumption.
  - destruct IH as (p & Hp & Hrest). exists p. rewrite E1, E3.
    split; assumption.
Qed.

End Ports_invariant.

(** ** Port queries and the port dump *)

Section Query_facts.
Context `{Ext : Externals}.

Lemma query_by_number_slot (dp dp' : dp_netdev) (j : Z) (want : bool) :
  ports dp' !! j = ports dp !! j ->
  dpif_netdev_port_query_by_number dp' j want
  = dpif_netdev_port_query_by_number dp j want.
Proof.
  unfold dpif_netdev_port_query_by_number, get_port_by_number. intros ->. reflexivity.
Qed.

Lemma query_by_number_found (dp : dp_netdev) (n : Z) (p : dp_netdev_port) (want : bool) :
  n < MAX_PORTS -> ports dp !! n = Some p ->
  dpif_netdev_port_query_by_number dp n want
  = (0, if want then Some (answer_port_query p) else None).
Proof.
  intros Hn Hp. unfold dpif_netdev_port_query_by_number, get_port_by_number,
    is_valid_port_number.
  destruct (Z.ltb_spec n MAX_PORTS); [| lia]. simpl. rewrite Hp. reflexivity.
Qed.

Lemma query_by_number_empty (dp : dp_netdev) (n : Z) (want : bool) :
  n < MAX_PORTS -> ports dp !! n = None ->
  dpif_netdev_port_query_by_number dp n want = (ENOENT, None).
Proof.
  intros Hn Hp. unfold dpif_netdev_port_query_by_number, get_port_by_number,
    is_valid_port_number.
  destruct (Z.ltb_spec n MAX_PORTS); [| lia]. simpl. rewrite Hp. reflexivity.
Qed.

(** X10.  A port that [dpif_netdev_port_add] added is found by its number,
    with the name and the type of the device given; its slot was free
    before; and the queries of every other number answer as before. *)
Theorem port_add_then_query (dp dp' : dp_netdev) (netdev : netdev)
    (port_nop n : Z) (calls : netdev_calls) :
  dpif_netdev_port_add dp netdev port_nop calls = (dp', n, 0) ->
  0 <= n < MAX_PORTS
  /\ dpif_netdev_port_query_by_number dp n true = (ENOENT, None)
  /\ dpif_netdev_port_query_by_number dp' n true
     = (0, Some {| dpif_port_name := netdev_vport_get_dpif_port netdev;
                   dpif_port_type := netdev_get_type netdev;
                   dpif_port_no := n |})
  /\ (forall j want, j <> n ->
        dpif_netdev_port_query_by_number dp' j want
        = dpif_netdev_port_query_by_number dp j want)
  /\ length (port_list dp') = S (length (port_list dp)).
Proof.
  intros H. pose proof (port_add_cases dp netdev port_nop calls) as Hc.
  rewrite H in Hc. simpl in Hc.
  destruct Hc as [[Hne _] | (_ & Hn & Hfree & -> & Hz)]; [contradiction |].
  destruct (do_add_port_cases dp (netdev_vport_get_dpif_port netdev)
              (netdev_get_type netdev) n calls) as [[Hne _] | [_ ->]];
    [contradiction |].
  split; [assumption |].
  split; [apply query_by_number_empty; [lia | assumption] |].
  split; [| split].
  - erewrite query_by_number_found; [| lia | simpl; apply lookup_insert_eq];
      reflexivity.
  - intros j want Hj. apply query_by_number_slot. simpl.
    apply lookup_insert_ne. congruence.
  - simpl. rewrite length_app. simpl. lia.
Qed.

(** X11.  [dpif_netdev_port_del] refuses the LOCAL port and numbers of
    MAX_PORTS or more with EINVAL and an empty slot with ENOENT, and then
    changes nothing. When it returns 0 the port was there, it is no longer
    found by its number, and the queries of every other number answer as
    before. *)
Theorem port_del_then_query (dp : dp_netdev) (n : Z) :
  ports_ok dp ->
  let r := dpif_netdev_port_del dp n in
  (snd r = 0 \/ snd r = EINVAL \/ snd r = ENOENT)
  /\ (snd r = EINVAL <-> n = OVSP_LOCAL \/ MAX_PORTS <= n)
  /\ (snd r <> 0 -> fst r = dp)
  /\ (snd r = 0 ->
      (exists a, dpif_netdev_port_query_by_number dp n true = (0, Some a))
      /\ (forall want, dpif_netdev_port_query_by_number (fst r) n want = (ENOENT, None))
      /\ (forall j want, j <> n ->
            dpif_netdev_port_query_by_number (fst r) j want
            = dpif_netdev_port_query_by_number dp j want)
      /\ S (length (port_list (fst r))) = length (port_list dp)
      /\ ports_ok (fst r)).
Proof.
  intros Hok r. subst r. unfold dpif_netdev_port_del.
  destruct (Z.eqb_spec n OVSP_LOCAL) as [E | N]; simpl.
  - split; [right; left; reflexivity |]. split; [split; [left; assumption | reflexivity] |].
    split; [reflexivity | discriminate].
  - pose proof (ports_ok_del dp n Hok) as Hok'.
    unfold do_del_port, get_port_by_number, is_valid_port_number in *.
    destruct (Z.ltb_spec n MAX_PORTS) as [Hlt | Hge]; simpl in *.
    + destruct (ports dp !! n) as [port |] eqn:Eport; simpl in *.
      * destruct Hok as (H1 & H2 & H3). destruct (H1 _ _ Eport) as (Hno & Hr & Hin).
        rewrite Hno in *.
        split; [left; reflexivity |].
        split; [split; [discriminate | intros [? | ?]; [contradiction | lia]] |].
        split; [contradiction |]. intros _.
        split; [exists (answer_port_query port);
                apply (query_by_number_found dp n port true); [lia | exact Eport] |].
        split; [intros want; apply query_by_number_empty; [lia | apply lookup_delete_eq] |].
        split; [intros j want Hj; apply query_by_number_slot; simpl;
                apply lookup_delete_ne; congruence |].
        split; [| exact Hok'].
        clear - Hin Hno. induction (port_list dp) as [| p l IH]; simpl.
        -- apply elem_of_nil in Hin. contradiction.
        -- destruct (Z.eqb_spec (port_no p) n) as [E | Np]; [reflexivity |].
           simpl. f_equal. apply IH. apply elem_of_cons in Hin as [-> | Hin];
             [contradiction | assumption].
      * split; [right; right; reflexivity |].
        split; [split; [discriminate | intros [? | ?]; [contradiction | lia]] |].
        split; [reflexivity | discriminate].
    + split; [right; left; reflexivity |].
      split; [split; [right; assumption | reflexivity] |].
      split; [reflexivity | discriminate].
Qed.

Lemma find_port_by_name (l : list dp_netdev_port) (devname : string) :
  match List.find (fun port =>
                     String.eqb (netdev_vport_get_dpif_port (port_netdev port))
                                devname) l with
  | Some p => p ∈ l /\ netdev_vport_get_dpif_port (port_netdev p) = devname
  | None => forall p, p ∈ l -> netdev_vport_get_dpif_port (port_netdev p) <> devname
  end.
Proof.
  induction l as [| q l IH]; simpl.
  - intros p Hp. apply elem_of_nil in Hp. contradiction.
  - destruct (String.eqb_spec (netdev_vport_get_dpif_port (port_netdev q)) devname)
      as [E | N].
    + split; [apply elem_of_cons; left; reflexivity | assumption].
    + destruct (List.find _ l) as [p |].
      * destruct IH as [Hin Hn]. split; [apply elem_of_cons; right |]; assumption.
      * intros p Hp. apply elem_of_cons in Hp as [-> | Hp]; [assumption | apply IH, Hp].
Qed.

(** X12.  The two queries agree: [dpif_netdev_port_query_by_name] finds a
    port exactly when some port of the datapath is for a device of that
    name; its answer bears the name, and the query by the number it reports
    gives the same answer. Otherwise it returns ENOENT. *)
Theorem port_query_by_name_agrees (dp : dp_netdev) (devname : string) :
  ports_ok dp ->
  match dpif_netdev_port_query_by_name dp devname true with
  | (error, Some a) =>
      error = 0 /\ dpif_port_name a = devname
      /\ dpif_netdev_port_query_by_number dp (dpif_port_no a) true = (0, Some a)
  | (error, None) =>
      error = ENOENT
      /\ forall n p, ports dp !! n = Some p ->
           netdev_vport_get_dpif_port (port_netdev p) <> devname
  end.
Proof.
  intros (H1 & H2 & H3).
  unfold dpif_netdev_port_query_by_name, get_port_by_name.
  pose proof (find_port_by_name (port_list dp) devname) as Hf.
  destruct (List.find _ (port_list dp)) as [p |]; simpl.
  - destruct Hf as [Hin Hname]. split; [reflexivity |]. split; [exact Hname |].
    pose proof (H2 _ Hin) as Hslot. destruct (H1 _ _ Hslot) as (_ & Hr & _).
    apply (query_by_number_found dp (port_no p) p true); [lia | exact Hslot].
  - split; [reflexivity |]. intros n p Hp. apply Hf. apply (H1 _ _ Hp).
Qed.

Lemma omap_seqZ_free (dp : dp_netdev) (a : Z) (len : nat) :
  (forall i, a <= i < a + Z.of_nat len -> ports dp !! i = None) ->
  omap (fun n => ports dp !! n) (seqZ a (Z.of_nat len)) = [].
Proof.
  revert a. induction len as [| len IH]; intros a H; [reflexivity |].
  rewrite seqZ_cons by lia. simpl. rewrite H by lia.
  replace (Z.pred (Z.of_nat (S len))) with (Z.of_nat len) by lia.
  apply IH. intros i Hi. apply H. lia.
Qed.

Lemma port_dump_from (fuel : nat) (dp : dp_netdev) (s : Z) (name : option string) :
  0 <= s <= MAX_PORTS -> (Z.to_nat (MAX_PORTS - s) < fuel)%nat ->
  port_dump_all fuel dp {| state_port_no := s; state_name := name |}
  = Some (answer_port_query
            <$> omap (fun n => ports dp !! n) (seqZ s (MAX_PORTS - s))).
Proof.
  assert (HM : MAX_PORTS = 256) by reflexivity.
  revert s name. induction fuel as [| fuel IH]; intros s name Hs Hfuel; [lia |].
  cbn [port_dump_all]. unfold dpif_netdev_port_dump_next. cbn [state_port_no].
  replace (MAX_PORTS - s) with (Z.of_nat (Z.to_nat (MAX_PORTS - s))) by lia.
  destruct (List.find _ _) as [n |] eqn:Efind.
  - apply find_seqZ_some in Efind as (Hr & Hocc & Hfree).
    apply negb_true_iff, port_is_free_false in Hocc as [p Hp]. rewrite Hp.
    assert (Hn : uint32 (n + 1) = n + 1).
    { apply uint32_small. pow2_consts. lia. }
    assert (A1 : 0 <= n + 1 <= MAX_PORTS) by lia.
    assert (A2 : (Z.to_nat (MAX_PORTS - (n + 1)) < fuel)%nat) by lia.
    rewrite Hn, (IH _ _ A1 A2).
    assert (Hsplit : omap (fun n => ports dp !! n)
                          (seqZ s (Z.of_nat (Z.to_nat (MAX_PORTS - s))))
                     = p :: omap (fun n => ports dp !! n)
                                 (seqZ (n + 1) (MAX_PORTS - (n + 1)))).
    { replace (Z.of_nat (Z.to_nat (MAX_PORTS - s)))
        with ((n - s) + (1 + (MAX_PORTS - (n + 1)))) by lia.
      rewrite seqZ_app, omap_app by lia.
      rewrite (seqZ_cons (s + (n - s))) by lia.
      replace (n - s) with (Z.of_nat (Z.to_nat (n - s))) at 1 by lia.
      rewrite omap_seqZ_free.
      - simpl. replace (s + (n - s)) with n by lia. rewrite Hp.
        replace (Z.succ n) with (n + 1) by lia.
        replace (Z.pred (1 + (MAX_PORTS - (n + 1)))) with (MAX_PORTS - (n + 1)) by lia.
        reflexivity.
      - intros i Hi. apply port_is_free_true. specialize (Hfree i ltac:(lia)).
        apply negb_false_iff in Hfree. exact Hfree. }
    rewrite Hsplit. reflexivity.
  - rewrite omap_seqZ_free; [reflexivity |].
    intros i Hi. apply port_is_free_true.
    pose proof (find_seqZ_none _ _ _ Efind i Hi) as Hfree.
    apply negb_false_iff in Hfree. exact Hfree.
Qed.

Lemma ports_ok_listing (dp : dp_netdev) :
  ports_ok dp ->
  omap (fun n => ports dp !! n) (seqZ 0 MAX_PORTS) ≡ₚ port_list dp.
Proof.
  intros (H1 & H2 & H3).
  assert (Hnum : forall l,
            port_no <$> omap (fun n => ports dp !! n) l
            = List.filter (fun n => negb (port_is_free dp n)) l).
  { induction l as [| n l IH]; [reflexivity |]. simpl. unfold port_is_free at 1.
    destruct (ports dp !! n) as [p |] eqn:Ep; simpl; [| exact IH].
    destruct (H1 _ _ Ep) as (-> & _ & _). rewrite <- IH. reflexivity. }
  apply NoDup_Permutation.
  - apply (NoDup_fmap_1 port_no). rewrite Hnum.
    apply NoDup_ListNoDup, List.NoDup_filter, NoDup_ListNoDup, NoDup_seqZ.
  - apply (NoDup_fmap_1 port_no), H3.
  - intros p. rewrite list_elem_of_omap. split.
    + intros (n & _ & Hp). apply (H1 _ _ Hp).
    + intros Hp. pose proof (H2 _ Hp) as Hslot.
      destruct (H1 _ _ Hslot) as (_ & Hr & _).
      exists (port_no p). split; [apply elem_of_seqZ; lia | exact Hslot].
Qed.

(** X13.  A port dump ends: from [dpif_netdev_port_dump_start], at most
    MAX_PORTS + 1 calls of [dpif_netdev_port_dump_next] reach EOF. It
    reports the ports of the filled slots in the ascending order of the
    slots, which on a datapath within its invariant is every port of the
    list once. *)
Theorem port_dump_lists_all (dp : dp_netdev) :
  let dumped := answer_port_query
                  <$> omap (fun n => ports dp !! n) (seqZ 0 MAX_PORTS) in
  port_dump_all (S (Z.to_nat MAX_PORTS)) dp (fst dpif_netdev_port_dump_start)
  = Some dumped
  /\ (ports_ok dp -> dumped ≡ₚ answer_port_query <$> port_list dp).
Proof.
  split.
  - unfold dpif_netdev_port_dump_start. simpl fst.
    rewrite port_dump_from by (unfold MAX_PORTS; lia).
    rewrite Z.sub_0_r. reflexivity.
  - intros Hok. apply fmap_Permutation, ports_ok_listing, Hok.
Qed.

(** X14.  A handle that has seen the current port set is not woken by
    [dpif_netdev_port_poll_wait]; it is woken after one change of the port
    set that returned 0, and not after one that failed. A poll brings the
    handle up to date. *)
Theorem port_change_wakes (dp : dp_netdev) (dpif : dpif_netdev) (mu : port_mutation) :
  0 <= serial dp < 2 ^ 32 ->
  dp_serial dpif = serial dp ->
  let r := apply_mutation dp mu in
  dpif_netdev_port_poll_wait dp dpif = false
  /\ dpif_netdev_port_poll_wait (fst r) dpif = bool_decide (snd r = 0)
  /\ dpif_netdev_port_poll_wait (fst r)
       (fst (dpif_netdev_port_poll (fst r) dpif)) = false.
Proof.
  intros Hs Hsync r. subst r.
  unfold dpif_netdev_port_poll_wait, dpif_netdev_port_poll.
  split; [rewrite Hsync, Z.eqb_refl; reflexivity |].
  split.
  - destruct (apply_mutation_cases dp mu) as [[Hne ->] | [Hz Hser]].
    + rewrite Hsync, Z.eqb_refl. simpl. symmetry. apply bool_decide_eq_false_2, Hne.
    + rewrite Hser, Hsync, bool_decide_eq_true_2 by assumption.
      destruct (Z.eqb_spec (serial dp) (uint32 (serial dp + 1))) as [E | N];
        [| reflexivity].
      symmetry in E. apply uint32_succ_ne in E; [contradiction | assumption].
  - destruct (dp_serial dpif =? serial (fst (apply_mutation dp mu))) eqn:E; simpl.
    + rewrite E. reflexivity.
    + rewrite Z.eqb_refl. reflexivity.
Qed.

End Query_facts.

(** ** The flow table as a map from keys to flows *)

Section Table_facts.
Context `{Ext : Externals}.

Lemma from_nlattrs_error (nl_key : nlattrs) :
  fst (dpif_netdev_flow_from_nlattrs nl_key) = 0
  \/ fst (dpif_netdev_flow_from_nlattrs nl_key) = EINVAL.
Proof.
  unfold dpif_netdev_flow_from_nlattrs.
  destruct (odp_flow_key_to_flow nl_key) as [[] k]; try (right; reflexivity).
  destruct (if flow_in_port k <? OFPP_MAX then _ else _);
    [right | left]; reflexivity.
Qed.

Lemma find_key_none (k : flow) (t : list dp_netdev_flow) :
  List.find (fun g => bool_decide (key g = k)) t = None <-> k ∉ key <$> t.
Proof.
  induction t as [| g t IH]; cbn [List.find].
  - split; [intros _ H; apply elem_of_nil in H; contradiction | reflexivity].
  - rewrite fmap_cons, not_elem_of_cons.
    destruct (bool_decide (key g = k)) eqn:E.
    + apply bool_decide_eq_true in E. split; [discriminate | intros [H _]; congruence].
    + apply bool_decide_eq_false in E. rewrite IH. split; [intros H | intros [_ H]]; auto.
Qed.

Lemma find_flow_store_other (k : flow) (f' : dp_netdev_flow) (t : list dp_netdev_flow) :
  key f' <> k ->
  List.find (fun g => bool_decide (key g = k)) (flow_store f' t)
  = List.find (fun g => bool_decide (key g = k)) t.
Proof.
  intros Hne. induction t as [| g t IH]; simpl; [reflexivity |].
  destruct (bool_decide (key g = key f')) eqn:E; simpl.
  - apply bool_decide_eq_true in E.
    rewrite !bool_decide_eq_false_2 by congruence. reflexivity.
  - rewrite IH. reflexivity.
Qed.

Lemma find_hmap_remove_other (k k' : flow) (t : list dp_netdev_flow) :
  k <> k' ->
  List.find (fun g => bool_decide (key g = k)) (hmap_remove k' t)
  = List.find (fun g => bool_decide (key g = k)) t.
Proof.
  intros Hne. induction t as [| g t IH]; simpl; [reflexivity |].
  destruct (bool_decide (key g = k')) eqn:E; simpl.
  - apply bool_decide_eq_true in E.
    rewrite bool_decide_eq_false_2 by congruence. reflexivity.
  - rewrite IH. reflexivity.
Qed.

Lemma hmap_remove_keys (k : flow) (t : list dp_netdev_flow) :
  NoDup (key <$> t) ->
  NoDup (key <$> hmap_remove k t) /\ k ∉ key <$> hmap_remove k t.
Proof.
  induction t as [| g t IH]; cbn [hmap_remove]; intros Hnd.
  - split; [constructor | intros H; apply elem_of_nil in H; contradiction].
  - rewrite fmap_cons in Hnd. apply NoDup_cons in Hnd as [Hg Hnd].
    destruct (bool_decide (key g = k)) eqn:E.
    + apply bool_decide_eq_true in E. subst k. split; assumption.
    + apply bool_decide_eq_false in E. destruct (IH Hnd) as [IH1 IH2].
      rewrite fmap_cons. split.
      * apply NoDup_cons. split; [| assumption].
        intros Hin. apply Hg. clear - Hin.
        induction t as [| h t IHt]; cbn [hmap_remove] in Hin; [assumption |].
        rewrite fmap_cons. destruct (bool_decide (key h = k)).
        -- apply elem_of_cons. right. assumption.
        -- rewrite fmap_cons in Hin. apply elem_of_cons in Hin as [-> | Hin].
           ++ apply elem_of_cons. left. reflexivity.
           ++ apply elem_of_cons. right. apply IHt, Hin.
      * apply not_elem_of_cons. split; [congruence | assumption].
Qed.

Lemma flow_get_lookup (dp : dp_netdev) (nl_key : nlattrs) (k : flow)
    (want_actions want_stats : bool) :
  dpif_netdev_flow_from_nlattrs nl_key = (0, k) ->
  dpif_netdev_flow_get dp nl_key want_actions want_stats
  = match dp_netdev_lookup_flow dp k with
    | None => (ENOENT, None, None)
    | Some flow =>
        (0, if want_actions then Some (actions flow) else None,
         if want_stats then Some (get_dpif_flow_stats flow) else None)
    end.
Proof. unfold dpif_netdev_flow_get. intros ->. reflexivity. Qed.

(** Two calls of [dpif_netdev_flow_get] agree when the key sought finds
    the same thing in the two tables. *)
Lemma flow_get_same (dp dp' : dp_netdev) (nl_key : nlattrs)
    (want_actions want_stats : bool) :
  dp_netdev_lookup_flow dp' (snd (dpif_netdev_flow_from_nlattrs nl_key))
  = dp_netdev_lookup_flow dp (snd (dpif_netdev_flow_from_nlattrs nl_key)) ->
  dpif_netdev_flow_get dp' nl_key want_actions want_stats
  = dpif_netdev_flow_get dp nl_key want_actions want_stats.
Proof.
  unfold dpif_netdev_flow_get.
  destruct (dpif_netdev_flow_from_nlattrs nl_key) as [error k]. simpl.
  intros ->. reflexivity.
Qed.

(** X15.  No operation brings two entries with one key into the flow table:
    not the creation of the datapath, a change of its ports, a flow put, a
    flow delete, a flush, a frame that comes in, nor an execute. *)
Theorem flow_keys_unique_kept (dp : dp_netdev) :
  flow_keys_unique dp ->
  (forall put, flow_keys_unique (fst (fst (dpif_netdev_flow_put dp put))))
  /\ (forall del, flow_keys_unique (fst (fst (dpif_netdev_flow_del dp del))))
  /\ flow_keys_unique (fst (dpif_netdev_flow_flush dp))
  /\ (forall mu, flow_keys_unique (fst (apply_mutation dp mu)))
  /\ (forall m now port packet m',
        m_dp m = dp -> dp_netdev_port_input m now port packet = Done m' ->
        flow_keys_unique (m_dp m'))
  /\ (forall m execute m' r,
        m_dp m = dp -> dpif_netdev_execute m execute = Done (m', r) ->
        flow_keys_unique (m_dp m'))
  /\ (forall name class calls dp0,
        create_dp_netdev name class calls = (0, Some dp0) -> flow_keys_unique dp0).
Proof.
  unfold flow_keys_unique. intros Hnd.
  split; [| split; [| split; [| split; [| split; [| split]]]]].
  - intros put. unfold dpif_netdev_flow_put.
    destruct (dpif_netdev_flow_from_nlattrs (put_key put)) as [error k].
    destruct (negb (error =? 0)); [assumption |].
    destruct (dp_netdev_lookup_flow dp k) as [f |] eqn:Elook.
    + destruct (negb (Z.land (put_flags put) DPIF_FP_MODIFY =? 0)); [| assumption].
      simpl. destruct (negb _); rewrite flow_store_keys; assumption.
    + destruct (negb (Z.land (put_flags put) DPIF_FP_CREATE =? 0)); [| assumption].
      destruct (_ <? MAX_FLOWS); [| assumption]. simpl.
      apply NoDup_cons. split; [| assumption]. apply find_key_none, Elook.
  - intros del. unfold dpif_netdev_flow_del.
    destruct (dpif_netdev_flow_from_nlattrs (del_key del)) as [error k].
    destruct (negb (error =? 0)); [assumption |].
    destruct (dp_netdev_lookup_flow dp k) as [f |]; [| assumption].
    simpl. apply hmap_remove_keys, Hnd.
  - simpl. constructor.
  - intros mu.
    assert (Hft : flow_table (fst (apply_mutation dp mu)) = flow_table dp).
    { destruct mu as [netdev port_nop calls | n]; simpl.
      - pose proof (port_add_cases dp netdev port_nop calls) as Hc.
        destruct (dpif_netdev_port_add dp netdev port_nop calls) as [[dp' n] e].
        simpl in *. destruct Hc as [[_ ->] | (_ & _ & _ & -> & _)]; [reflexivity |].
        destruct (do_add_port_cases dp (netdev_vport_get_dpif_port netdev)
                    (netdev_get_type netdev) n calls) as [[_ ->] | [_ ->]]; reflexivity.
      - unfold dpif_netdev_port_del. destruct (n =? OVSP_LOCAL); [reflexivity |].
        destruct (do_del_port_cases dp n) as [[_ ->] | (port & _ & _ & _ & ->)];
          reflexivity. }
    rewrite Hft. assumption.
  - intros m now port packet m' <- Hin.
    unfold dp_netdev_port_input in Hin.
    destruct (ofpbuf_size packet <? ETH_HEADER_LEN); [injection Hin as <-; assumption |].
    destruct (dp_netdev_lookup_flow (m_dp m) (flow_extract packet (port_no port)))
      as [f |].
    + destruct (dp_netdev_execute_actions _ packet _ (actions _)) as [s |] eqn:E;
        simpl in Hin; [| discriminate].
      injection Hin as <-. apply execute_actions_effect in E as (E & _). simpl in E.
      simpl. rewrite E. simpl. rewrite flow_store_keys. assumption.
    + injection Hin as <-. simpl.
      pose proof (engine_frame_output_userspace
                    (set_n_missed (to_llong (n_missed (m_dp m) + 1)) (m_dp m))
                    packet DPIF_UC_MISS (flow_extract packet (port_no port)) None) as Hf.
      apply engine_frame_fields in Hf as (-> & _). assumption.
  - intros m execute m' r <- Hex.
    apply execute_keeps_fields in Hex as ->. assumption.
  - intros name class calls dp0 Hc. unfold create_dp_netdev in Hc.
    destruct (do_add_port_cases (dp_netdev_xzalloc name class) name "internal"
                OVSP_LOCAL calls) as [[_ Hs] | [_ Hs]];
      destruct (do_add_port _ name "internal" OVSP_LOCAL calls) as [dp1 error];
      simpl in Hs; subst dp1; destruct (negb (error =? 0)); try discriminate;
      injection Hc as <-; constructor.
Qed.

(** X16.  A flow that [dpif_netdev_flow_put] accepted is what
    [dpif_netdev_flow_get] then returns for the key: the actions are those
    put; the statistics are zero for a flow that was created or whose put
    asked for ZERO_STATS, and else those that the flow had. A created flow
    makes the table one larger; a modified one keeps its size, and the put
    reports the statistics that the flow had before they were zeroed. What
    the other keys find does not change. *)
Theorem flow_put_then_get (dp dp' : dp_netdev) (put : dpif_flow_put)
    (st : option dpif_flow_stats) :
  dpif_netdev_flow_put dp put = (dp', 0, st) ->
  exists k stats,
    dpif_netdev_flow_from_nlattrs (put_key put) = (0, k)
    /\ dpif_netdev_flow_get dp' (put_key put) true true
       = (0, Some (put_actions put), Some stats)
    /\ match dp_netdev_lookup_flow dp k with
       | None =>
           Z.land (put_flags put) DPIF_FP_CREATE <> 0
           /\ stats = zero_stats
           /\ hmap_count (flow_table dp') = hmap_count (flow_table dp) + 1
           /\ st = (if put_stats put then Some zero_stats else None)
       | Some f =>
           Z.land (put_flags put) DPIF_FP_MODIFY <> 0
           /\ stats = (if Z.land (put_flags put) DPIF_FP_ZERO_STATS =? 0
                       then get_dpif_flow_stats f else zero_stats)
           /\ hmap_count (flow_table dp') = hmap_count (flow_table dp)
           /\ st = (if put_stats put then Some (get_dpif_flow_stats f) else None)
       end
    /\ (forall k', k' <> k ->
          dp_netdev_lookup_flow dp' k' = dp_netdev_lookup_flow dp k').
Proof.
  intros H. unfold dpif_netdev_flow_put in H.
  destruct (dpif_netdev_flow_from_nlattrs (put_key put)) as [error k] eqn:Ek.
  destruct (Z.eqb_spec error 0) as [-> | Hne]; simpl in H;
    [| injection H as _ E _; contradiction].
  exists k. rewrite (flow_get_lookup _ _ k _ _ Ek).
  destruct (dp_netdev_lookup_flow dp k) as [f |] eqn:Elook.
  - destruct (Z.eqb_spec (Z.land (put_flags put) DPIF_FP_MODIFY) 0) as [E | Hmod];
      simpl in H; [discriminate |].
    injection H as <- <-.
    set (f1 := {| key := key f; used := used f; packet_count := packet_count f;
                  byte_count := byte_count f; tcp_flags := tcp_flags f;
                  actions := put_actions put |}).
    set (f2 := if negb (Z.land (put_flags put) DPIF_FP_ZERO_STATS =? 0)
               then clear_stats f1 else f1).
    assert (Hk2 : key f2 = k).
    { subst f2 f1. destruct (negb _); simpl; apply (lookup_flow_key _ _ _ Elook). }
    exists (get_dpif_flow_stats f2).
    split; [reflexivity |]. split.
    + unfold dp_netdev_lookup_flow. simpl.
      rewrite (lookup_flow_store _ k f f2 Elook Hk2).
      subst f2 f1. destruct (negb _); reflexivity.
    + split.
      * split; [assumption |]. split.
        -- subst f2 f1. destruct (Z.land (put_flags put) DPIF_FP_ZERO_STATS =? 0);
             reflexivity.
        -- split; [| reflexivity]. unfold hmap_count. simpl.
           rewrite flow_store_length. reflexivity.
      * intros k' Hk'. unfold dp_netdev_lookup_flow. simpl.
        apply find_flow_store_other. congruence.
  - destruct (Z.eqb_spec (Z.land (put_flags put) DPIF_FP_CREATE) 0) as [E | Hcr];
      simpl in H; [discriminate |].
    destruct (to_int (hmap_count (flow_table dp)) <? MAX_FLOWS); [| discriminate].
    simpl in H. injection H as <- <-.
    exists zero_stats. split; [reflexivity |]. split.
    + unfold dp_netdev_lookup_flow. simpl.
      rewrite bool_decide_eq_true_2 by reflexivity. reflexivity.
    + split.
      * split; [assumption |]. split; [reflexivity |]. split; [| reflexivity].
        unfold hmap_count. simpl. lia.
      * intros k' Hk'. unfold dp_netdev_lookup_flow. simpl.
        rewrite bool_decide_eq_false_2 by congruence. reflexivity.
Qed.

(** X17.  On a table without duplicate keys, a flow that
    [dpif_netdev_flow_del] deleted is no longer found:
    [dpif_netdev_flow_get] returns ENOENT for the key. The flow was there
    before, with the statistics that the delete reports; the table is one
    smaller; what the other keys find does not change. *)
Theorem flow_del_then_get (dp dp' : dp_netdev) (del : dpif_flow_del)
    (st : option dpif_flow_stats) :
  flow_keys_unique dp ->
  dpif_netdev_flow_del dp del = (dp', 0, st) ->
  exists k f,
    dpif_netdev_flow_from_nlattrs (del_key del) = (0, k)
    /\ dpif_netdev_flow_get dp (del_key del) true true
       = (0, Some (actions f), Some (get_dpif_flow_stats f))
    /\ st = (if del_stats del then Some (get_dpif_flow_stats f) else None)
    /\ (forall want_actions want_stats,
          dpif_netdev_flow_get dp' (del_key del) want_actions want_stats
          = (ENOENT, None, None))
    /\ hmap_count (flow_table dp') = hmap_count (flow_table dp) - 1
    /\ (forall k', k' <> k ->
          dp_netdev_lookup_flow dp' k' = dp_netdev_lookup_flow dp k').
Proof.
  intros Hnd H. unfold dpif_netdev_flow_del in H.
  destruct (dpif_netdev_flow_from_nlattrs (del_key del)) as [error k] eqn:Ek.
  destruct (Z.eqb_spec error 0) as [-> | Hne]; simpl in H;
    [| injection H as _ E _; contradiction].
  destruct (dp_netdev_lookup_flow dp k) as [f |] eqn:Elook; [| discriminate].
  injection H as <- <-. exists k, f.
  pose proof (lookup_flow_key _ _ _ Elook) as Hkf.
  split; [reflexivity |].
  split; [rewrite (flow_get_lookup _ _ k _ _ Ek), Elook; reflexivity |].
  split; [reflexivity |]. split; [| split].
  - intros wa ws. rewrite (flow_get_lookup _ _ k _ _ Ek).
    unfold dp_netdev_lookup_flow, dp_netdev_free_flow. simpl. rewrite Hkf.
    destruct (hmap_remove_keys k (flow_table dp) Hnd) as [_ Hgone].
    apply find_key_none in Hgone. rewrite Hgone. reflexivity.
  - unfold hmap_count, dp_netdev_free_flow. simpl. rewrite Hkf.
    pose proof (hmap_remove_length k (flow_table dp) f Elook). lia.
  - intros k' Hk'. unfold dp_netdev_lookup_flow, dp_netdev_free_flow. simpl.
    rewrite Hkf. apply find_hmap_remove_other, Hk'.
Qed.

(** X18.  A key that [dpif_netdev_flow_from_nlattrs] rejects is refused by
    every operation that takes a key: flow put, flow delete, flow get and
    execute return EINVAL and change nothing. *)
Theorem bad_key_rejected (dp : dp_netdev) (nl_key : nlattrs) :
  fst (dpif_netdev_flow_from_nlattrs nl_key) <> 0 ->
  (forall flags acts want,
      dpif_netdev_flow_put dp {| put_flags := flags; put_key := nl_key;
                                 put_actions := acts; put_stats := want |}
      = (dp, EINVAL, None))
  /\ (forall want,
        dpif_netdev_flow_del dp {| del_key := nl_key; del_stats := want |}
        = (dp, EINVAL, None))
  /\ (forall want_actions want_stats,
        dpif_netdev_flow_get dp nl_key want_actions want_stats = (EINVAL, None, None))
  /\ (forall m packet acts,
        dpif_netdev_execute m {| execute_packet := packet; execute_key := nl_key;
                                 execute_actions := acts |}
        = Done (m, EINVAL)).
Proof.
  intros Hbad. destruct (from_nlattrs_error nl_key) as [E | E]; [contradiction |].
  unfold dpif_netdev_flow_put, dpif_netdev_flow_del, dpif_netdev_flow_get,
    dpif_netdev_execute. simpl.
  destruct (dpif_netdev_flow_from_nlattrs nl_key) as [error k]. simpl in E. subst error.
  repeat split. intros m packet acts. destruct (_ || _); reflexivity.
Qed.

End Table_facts.

(** ** From a miss to a hit *)

Section Slow_path_facts.
Context `{Ext : Externals}.

(** X7.  The slow path closes the loop. A frame that misses is queued with
    its serialized key; when that key parses back to the flow extracted from
    the frame, a CREATE put under the key of the record installs the flow,
    and the same frame coming in again is a hit: the actions put are run on
    it, and the flow counts one packet of the frame's size. *)
Theorem miss_install_hit (m : machine) (now now' : Z) (port : dp_netdev_port)
    (packet : ofpbuf) (acts : list action) :
  let k := flow_extract packet (port_no port) in
  let nl_key := odp_flow_key_from_flow k (flow_in_port k) in
  ETH_HEADER_LEN <= ofpbuf_size packet <= LLONG_MAX ->
  dp_netdev_lookup_flow (m_dp m) k = None ->
  dpif_netdev_flow_from_nlattrs nl_key = (0, k) ->
  queue_ok (queue_miss (m_dp m)) ->
  queue_len (queue_miss (m_dp m)) < MAX_QUEUE_LEN ->
  hmap_count (flow_table (m_dp m)) < MAX_FLOWS ->
  0 <= n_missed (m_dp m) < LLONG_MAX ->
  0 <= n_lost (m_dp m) < LLONG_MAX ->
  0 <= n_hit (m_dp m) < LLONG_MAX ->
  exists m1 u dp2,
    dp_netdev_port_input m now port packet = Done m1
    /\ queue_contents (queue_miss (m_dp m1))
       = queue_contents (queue_miss (m_dp m)) ++ [Some u]
    /\ upcall_packet u = packet
    /\ upcall_key u = nl_key
    /\ dpif_netdev_flow_put (m_dp m1)
         {| put_flags := DPIF_FP_CREATE; put_key := upcall_key u;
            put_actions := acts; put_stats := false |}
       = (dp2, 0, None)
    /\ let f := {| key := k; used := now'; packet_count := 1;
                   byte_count := ofpbuf_size packet;
                   tcp_flags := packet_get_tcp_flags packet k;
                   actions := acts |} in
       let m2 := set_m_dp (set_flow_table (f :: flow_table (m_dp m)) dp2) m1 in
       match dp_netdev_execute_actions m2 packet k acts with
       | Done s =>
           exists m3,
             dp_netdev_port_input (set_m_dp dp2 m1) now' port packet = Done m3
             /\ m_dp m3 = set_n_hit (n_hit (m_dp m) + 1) (m_dp (fst s))
             /\ m_sent m3 = m_sent (fst s)
             /\ dp_netdev_lookup_flow (m_dp m3) k = Some f
             /\ n_missed (m_dp m3) = n_missed (m_dp m) + 1
       | Fault e =>
           dp_netdev_port_input (set_m_dp dp2 m1) now' port packet = Fault e
       end.
Proof.
  intros k nl_key Hsize Hlook Hkey Hok Hroom Hcap Hnm Hnl Hnh.
  destruct (port_input_miss m now port packet (proj1 Hsize) Hlook Hnm Hnl)
    as (m1 & Hin & Hnm1 & Hnh1 & Hft1 & Hqa1 & Hsent1 & Hpush & _).
  destruct (Hpush Hroom) as [Hq1 Hnl1]. fold k in Hq1.
  set (u := {| upcall_type := DPIF_UC_MISS;
               upcall_key := odp_flow_key_from_flow k (flow_in_port k);
               upcall_userdata :=
                 (upcalls (queue_miss (m_dp m))
                    !! Z.land (q_head (queue_miss (m_dp m))) QUEUE_MASK)
                   ≫= upcall_userdata;
               upcall_packet := packet |}) in *.
  assert (Hlook1 : dp_netdev_lookup_flow (m_dp m1) k = None).
  { rewrite (lookup_flow_same_table _ _ _ Hft1). exact Hlook. }
  set (f0 := {| key := k; used := 0; packet_count := 0; byte_count := 0;
                tcp_flags := 0; actions := acts |}).
  set (dp2 := set_flow_table (f0 :: flow_table (m_dp m1)) (m_dp m1)).
  assert (Hput : dpif_netdev_flow_put (m_dp m1)
                   {| put_flags := DPIF_FP_CREATE; put_key := upcall_key u;
                      put_actions := acts; put_stats := false |}
                 = (dp2, 0, None)).
  { unfold dpif_netdev_flow_put. cbn [put_key put_flags put_actions put_stats upcall_key u].
    fold nl_key. rewrite Hkey. simpl negb. cbv iota. rewrite Hlook1.
    change (negb (Z.land DPIF_FP_CREATE DPIF_FP_CREATE =? 0)) with true. cbv iota.
    rewrite Hft1.
    assert (Hcount : (to_int (hmap_count (flow_table (m_dp m))) <? MAX_FLOWS) = true).
    { apply Z.ltb_lt. rewrite to_int_small; [assumption |].
      unfold hmap_count, MAX_FLOWS in *. pow2_consts. lia. }
    rewrite Hcount. unfold dp_netdev_flow_add. simpl. subst dp2.
    rewrite Hft1. reflexivity. }
  exists m1, u, dp2.
  split; [exact Hin |].
  split; [rewrite Hq1; apply queue_contents_push; assumption |].
  split; [reflexivity |]. split; [reflexivity |]. split; [exact Hput |].
  intros f m2.
  assert (Hlook2 : dp_netdev_lookup_flow (m_dp (set_m_dp dp2 m1)) k = Some f0).
  { unfold dp_netdev_lookup_flow. simpl.
    rewrite bool_decide_eq_true_2 by reflexivity. reflexivity. }
  pose proof (port_input_hit (set_m_dp dp2 m1) now' port packet f0 (proj1 Hsize)
                Hlook2) as Hhit.
  cbn [packet_count byte_count tcp_flags f0 key actions] in Hhit.
  specialize (Hhit ltac:(unfold LLONG_MAX; lia) ltac:(lia) ltac:(lia)
                   ltac:(simpl; lia)).
  rewrite Z.lor_0_l in Hhit.
  change (0 + 1) with 1 in Hhit.
  change (0 + ofpbuf_size packet) with (ofpbuf_size packet) in Hhit.
  fold k in Hhit.
  assert (Hm2 : set_m_dp
                  (set_flow_table
                     (flow_store f (flow_table (m_dp (set_m_dp dp2 m1))))
                     (m_dp (set_m_dp dp2 m1))) (set_m_dp dp2 m1) = m2).
  { subst m2 dp2. simpl. rewrite bool_decide_eq_true_2 by reflexivity.
    rewrite Hft1. reflexivity. }
  fold f in Hhit. rewrite Hm2 in Hhit.
  destruct (dp_netdev_execute_actions m2 packet k acts) as [s | e]; [| exact Hhit].
  destruct Hhit as (Hin3 & Hft3 & Hlook3 & Hnh3 & Hnm3).
  eexists. split; [exact Hin3 |]. simpl in *.
  split; [rewrite Hnh1; reflexivity |]. split; [reflexivity |].
  split; [exact Hlook3 |]. lia.
Qed.

End Slow_path_facts.

(** ** Opening, closing and destroying datapaths *)

Section Registry_facts.
Context `{Ext : Externals}.

Lemma set_open_cnt_back (dp : dp_netdev) (c : Z) :
  set_open_cnt (open_cnt dp) (set_open_cnt c dp) = dp.
Proof. destruct dp; reflexivity. Qed.

Lemma create_dp_netdev_fields (name : string) (class : dpif_class)
    (calls : netdev_calls) (dp : dp_netdev) :
  create_dp_netdev name class calls = (0, Some dp) ->
  dp_name dp = name /\ dp_class dp = class /\ open_cnt dp = 0 /\ destroyed dp = false.
Proof.
  unfold create_dp_netdev. intros H.
  destruct (do_add_port_cases (dp_netdev_xzalloc name class) name "internal"
              OVSP_LOCAL calls) as [[_ Hs] | [_ Hs]];
    destruct (do_add_port _ name "internal" OVSP_LOCAL calls) as [dp1 error];
    simpl in Hs; subst dp1; destruct (negb (error =? 0)); try discriminate;
    injection H as <-; repeat split.
Qed.

Lemma create_dp_netdev_error (name : string) (class : dpif_class)
    (calls : netdev_calls) (error : Z) :
  create_dp_netdev name class calls = (error, None) -> error <> 0.
Proof.
  unfold create_dp_netdev.
  destruct (do_add_port _ name "internal" OVSP_LOCAL calls) as [dp1 e].
  destruct (Z.eqb_spec e 0); simpl; [discriminate |]. intros [= <-]. assumption.
Qed.

(** What [dpif_netdev_open] returns. *)
Lemma open_cases (dp_netdevs : gmap string dp_netdev) (class : dpif_class)
    (name : string) (create : bool) (calls : netdev_calls) :
  let r := dpif_netdev_open dp_netdevs class name create calls in
  (snd (fst r) <> 0 /\ fst (fst r) = dp_netdevs /\ snd r = None)
  \/ (exists dp,
        snd (fst r) = 0
        /\ fst (fst r) = <[name := set_open_cnt (to_int (open_cnt dp + 1)) dp]> dp_netdevs
        /\ snd r = Some {| dpif_dp := dp_name dp; dp_serial := serial dp |}
        /\ dp_class dp = class
        /\ match dp_netdevs !! name with
           | Some dp0 => dp = dp0 /\ create = false
           | None => create_dp_netdev name class calls = (0, Some dp) /\ create = true
           end).
Proof.
  unfold dpif_netdev_open.
  destruct (dp_netdevs !! name) as [dp0 |] eqn:E.
  - destruct (bool_decide (dp_class dp0 = class)) eqn:Ec; simpl.
    + apply bool_decide_eq_true in Ec. destruct create.
      * left. repeat split. discriminate.
      * right. exists dp0. repeat split. assumption.
    + left. repeat split. discriminate.
  - destruct create; simpl; [| left; repeat split; discriminate].
    destruct (create_dp_netdev name class calls) as [error [dp |]] eqn:Ecr.
    + assert (error = 0) as ->.
      { unfold create_dp_netdev in Ecr.
        destruct (do_add_port _ name "internal" OVSP_LOCAL calls) as [dp1 e].
        destruct (negb (e =? 0)); [discriminate |]. injection Ecr as <- _. reflexivity. }
      right. exists dp. destruct (create_dp_netdev_fields _ _ _ _ Ecr) as (_ & Hc & _).
      repeat split. assumption.
    + left. repeat split. eapply create_dp_netdev_error, Ecr.
Qed.

(** X19.  The registry stays as the code keeps it: whatever is opened,
    closed or destroyed, every datapath is filed under its own name, and one
    marked destroyed still has a handle open. *)
Theorem registry_ok_kept (dp_netdevs : gmap string dp_netdev) :
  registry_ok dp_netdevs ->
  (forall class name create calls,
      (forall dp, dp_netdevs !! name = Some dp -> open_cnt dp < INT_MAX) ->
      registry_ok (fst (fst (dpif_netdev_open dp_netdevs class name create calls))))
  /\ (forall dpif dp_netdevs',
        dpif_netdev_close dp_netdevs dpif = CLOSED dp_netdevs' ->
        registry_ok dp_netdevs')
  /\ (forall dpif,
        (forall dp, dp_netdevs !! dpif_dp dpif = Some dp -> 0 < open_cnt dp) ->
        registry_ok (fst (dpif_netdev_destroy dp_netdevs dpif))).
Proof.
  intros Hok. split; [| split].
  - intros class name create calls Hroom.
    destruct (open_cases dp_netdevs class name create calls)
      as [(_ & -> & _) | (dp & _ & -> & _ & _ & Hdp)]; [assumption |].
    assert (Hdp' : dp_name dp = name /\ 0 <= open_cnt dp < INT_MAX
                   /\ (destroyed dp = true -> 0 < open_cnt dp)).
    { destruct (dp_netdevs !! name) as [dp0 |] eqn:E.
      - destruct Hdp as [-> _]. destruct (Hok _ _ E) as (? & ? & ?).
        specialize (Hroom _ eq_refl). repeat split; try assumption; lia.
      - destruct Hdp as [Hcr _].
        destruct (create_dp_netdev_fields _ _ _ _ Hcr) as (? & _ & -> & ->).
        repeat split; try assumption; try discriminate; unfold INT_MAX; lia. }
    destruct Hdp' as (Hname & Hcnt & Hdes).
    intros n d Hd. destruct (decide (name = n)) as [<- | Hne].
    + rewrite lookup_insert_eq in Hd. injection Hd as <-. simpl.
      rewrite to_int_small by (unfold INT_MAX in *; pow2_consts; lia).
      repeat split; try assumption; try lia; intros; lia.
    + rewrite lookup_insert_ne in Hd by assumption. apply (Hok _ _ Hd).
  - intros dpif dps' Hclose. unfold dpif_netdev_close in Hclose.
    destruct (dp_netdevs !! dpif_dp dpif) as [dp |] eqn:E; [| discriminate].
    destruct (Hok _ _ E) as (Hname & Hcnt & Hdes).
    destruct (Z.ltb_spec 0 (open_cnt dp)); simpl in Hclose; [| discriminate].
    rewrite to_int_small in Hclose by (unfold INT_MAX in *; pow2_consts; lia).
    destruct (Z.eqb_spec (open_cnt dp - 1) 0) as [E0 | N0]; simpl in Hclose.
    + destruct (destroyed dp) eqn:Ed; injection Hclose as <-.
      * intros n d Hd. apply lookup_delete_Some in Hd as [_ Hd]. apply (Hok _ _ Hd).
      * intros n d Hd. destruct (decide (dpif_dp dpif = n)) as [<- | Hne].
        -- rewrite lookup_insert_eq in Hd. injection Hd as <-. simpl.
           repeat split; try assumption; try lia. rewrite Ed. discriminate.
        -- rewrite lookup_insert_ne in Hd by assumption. apply (Hok _ _ Hd).
    + injection Hclose as <-.
      intros n d Hd. destruct (decide (dpif_dp dpif = n)) as [<- | Hne].
      * rewrite lookup_insert_eq in Hd. injection Hd as <-. simpl.
        repeat split; try assumption; try lia; intros; lia.
      * rewrite lookup_insert_ne in Hd by assumption. apply (Hok _ _ Hd).
  - intros dpif Hopen. unfold dpif_netdev_destroy.
    destruct (dp_netdevs !! dpif_dp dpif) as [dp |] eqn:E; [| assumption]. simpl.
    destruct (Hok _ _ E) as (Hname & Hcnt & Hdes). specialize (Hopen _ eq_refl).
    intros n d Hd. destruct (decide (dpif_dp dpif = n)) as [<- | Hne].
    + rewrite lookup_insert_eq in Hd. injection Hd as <-. simpl.
      repeat split; try assumption; try lia.
    + rewrite lookup_insert_ne in Hd by assumption. apply (Hok _ _ Hd).
Qed.

(** X20.  Opening and closing undo each other. A handle that
    [dpif_netdev_open] returned names the datapath opened, which is of the
    class asked for, and carries its serial. Closing the handle of a
    datapath that existed brings the registry back to what it was; closing
    the handle of one just created leaves that datapath registered with no
    handle, so that it outlives its creator. A failed open changes nothing. *)
Theorem open_close_round_trip (dp_netdevs : gmap string dp_netdev)
    (class : dpif_class) (name : string) (create : bool) (calls : netdev_calls) :
  registry_ok dp_netdevs ->
  (forall dp, dp_netdevs !! name = Some dp -> open_cnt dp < INT_MAX) ->
  match dpif_netdev_open dp_netdevs class name create calls with
  | (dp_netdevs', error, None) => error <> 0 /\ dp_netdevs' = dp_netdevs
  | (dp_netdevs', error, Some dpif) =>
      error = 0 /\ dpif_dp dpif = name
      /\ (exists dp', dp_netdevs' !! name = Some dp'
                      /\ dp_class dp' = class /\ 0 < open_cnt dp'
                      /\ dp_serial dpif = serial dp')
      /\ match dp_netdevs !! name with
         | Some _ => create = false
                     /\ dpif_netdev_close dp_netdevs' dpif = CLOSED dp_netdevs
         | None =>
             create = true
             /\ exists dp0,
                  create_dp_netdev name class calls = (0, Some dp0)
                  /\ dpif_netdev_close dp_netdevs' dpif
                     = CLOSED (<[name := dp0]> dp_netdevs)
         end
  end.
Proof.
  intros Hok Hroom.
  pose proof (open_cases dp_netdevs class name create calls) as Hc.
  destruct (dpif_netdev_open dp_netdevs class name create calls) as [[dps' error] o].
  simpl in Hc. destruct Hc as [(Hne & -> & ->) | (dp & -> & -> & -> & Hcl & Hdp)];
    [split; [assumption | reflexivity] |].
  assert (Hdp' : dp_name dp = name /\ 0 <= open_cnt dp < INT_MAX
                 /\ (destroyed dp = true -> 0 < open_cnt dp)).
  { destruct (dp_netdevs !! name) as [dp0 |] eqn:E.
    - destruct Hdp as [-> _]. destruct (Hok _ _ E) as (? & ? & ?).
      specialize (Hroom _ eq_refl). repeat split; try assumption; lia.
    - destruct Hdp as [Hcr _].
      destruct (create_dp_netdev_fields _ _ _ _ Hcr) as (? & _ & -> & ->).
      repeat split; try assumption; try discriminate; unfold INT_MAX; lia. }
  destruct Hdp' as (Hname & Hcnt & Hdes).
  assert (Hinc : to_int (open_cnt dp + 1) = open_cnt dp + 1)
    by (apply to_int_small; unfold INT_MAX in *; pow2_consts; lia).
  split; [reflexivity |]. split; [exact Hname |]. split.
  { eexists. split; [apply lookup_insert_eq |]. simpl. rewrite Hinc.
    repeat split; [assumption | lia]. }
  assert (Hclose : dpif_netdev_close
                     (<[name := set_open_cnt (to_int (open_cnt dp + 1)) dp]> dp_netdevs)
                     {| dpif_dp := dp_name dp; dp_serial := serial dp |}
                   = CLOSED (<[name := dp]> dp_netdevs)).
  { unfold dpif_netdev_close. cbn [dpif_dp]. rewrite Hname, lookup_insert_eq.
    cbn [open_cnt set_open_cnt destroyed]. rewrite Hinc.
    destruct (Z.ltb_spec 0 (open_cnt dp + 1)); [| lia]. cbn [negb].
    replace (open_cnt dp + 1 - 1) with (open_cnt dp) by lia.
    rewrite to_int_small by (unfold INT_MAX in *; pow2_consts; lia).
    assert (Hkeep : (open_cnt dp =? 0) && destroyed dp = false).
    { destruct (Z.eqb_spec (open_cnt dp) 0) as [E0 | N0]; [| reflexivity].
      destruct (destroyed dp); [| reflexivity]. specialize (Hdes eq_refl). lia. }
    rewrite Hkeep, insert_insert_eq.
    f_equal. f_equal. destruct dp; reflexivity. }
  destruct (dp_netdevs !! name) as [dp0 |] eqn:E.
  - destruct Hdp as [-> ->]. split; [reflexivity |].
    rewrite Hclose. f_equal. apply insert_id, E.
  - destruct Hdp as [Hcr ->]. split; [reflexivity |].
    exists dp. split; [exact Hcr | exact Hclose].
Qed.

(** X21.  [dpif_netdev_destroy] marks the datapath and returns 0; the
    datapath goes away when its last handle is closed, and not before. With
    one handle open, closing it after the destroy removes the datapath from
    the registry, so that opening the name without [create] gives ENODEV.
    With more handles open, closing one leaves the datapath registered,
    marked and with one handle fewer. Closing a handle of a datapath with no
    handle open trips the assertion. *)
Theorem destroy_then_close (dp_netdevs : gmap string dp_netdev)
    (dpif : dpif_netdev) (dp : dp_netdev) :
  registry_ok dp_netdevs ->
  dp_netdevs !! dpif_dp dpif = Some dp ->
  let destroyed_dps := fst (dpif_netdev_destroy dp_netdevs dpif) in
  snd (dpif_netdev_destroy dp_netdevs dpif) = 0
  /\ (open_cnt dp = 0 ->
        dpif_netdev_close dp_netdevs dpif = ASSERTION_FAILED
        /\ dpif_netdev_close destroyed_dps dpif = ASSERTION_FAILED)
  /\ (open_cnt dp = 1 ->
        dpif_netdev_close destroyed_dps dpif
        = CLOSED (delete (dpif_dp dpif) dp_netdevs)
        /\ forall class calls,
             dpif_netdev_open (delete (dpif_dp dpif) dp_netdevs) class
               (dpif_dp dpif) false calls
             = (delete (dpif_dp dpif) dp_netdevs, ENODEV, None))
  /\ (1 < open_cnt dp ->
        dpif_netdev_close destroyed_dps dpif
        = CLOSED (<[dpif_dp dpif :=
                      set_open_cnt (open_cnt dp - 1) (set_destroyed true dp)]>
                    dp_netdevs)).
Proof.
  intros Hok E destroyed_dps. subst destroyed_dps.
  destruct (Hok _ _ E) as (Hname & Hcnt & Hdes).
  unfold dpif_netdev_destroy. rewrite E. cbn [fst snd].
  split; [reflexivity |].
  unfold dpif_netdev_close. rewrite E, lookup_insert_eq.
  cbn [open_cnt set_destroyed set_open_cnt destroyed dp_name].
  split; [| split].
  - intros ->. split; reflexivity.
  - intros E1. rewrite E1. cbn. rewrite Hname. split.
    + f_equal. apply delete_insert_eq.
    + intros class calls. unfold dpif_netdev_open.
      rewrite lookup_delete_eq. reflexivity.
  - intros Hmany. destruct (Z.ltb_spec 0 (open_cnt dp)); [| lia]. cbn [negb].
    rewrite to_int_small by (unfold INT_MAX in *; pow2_consts; lia).
    destruct (Z.eqb_spec (open_cnt dp - 1) 0); [lia |]. cbn [andb].
    rewrite insert_insert_eq. reflexivity.
Qed.

Lemma ports_ok_fields (dp dp' : dp_netdev) :
  ports dp' = ports dp -> port_list dp' = port_list dp -> ports_ok dp -> ports_ok dp'.
Proof. unfold ports_ok. intros -> ->. tauto. Qed.

Lemma del_ports_all (l : list dp_netdev_port) (dp : dp_netdev) :
  ports_ok dp -> port_list dp = l ->
  let dp' := fold_left (fun dp port => fst (do_del_port dp (port_no port))) l dp in
  ports dp' = ∅ /\ port_list dp' = []
  /\ flow_table dp' = flow_table dp
  /\ queue_miss dp' = queue_miss dp /\ queue_action dp' = queue_action dp.
Proof.
  revert dp. induction l as [| p rest IH]; intros dp Hok Hl; simpl.
  - repeat split; try assumption.
    apply map_empty. intros n. destruct (ports dp !! n) as [q |] eqn:Eq; [| reflexivity].
    destruct Hok as (H1 & _). destruct (H1 _ _ Eq) as (_ & _ & Hin).
    rewrite Hl in Hin. apply elem_of_nil in Hin. contradiction.
  - pose proof (ports_ok_del dp (port_no p) Hok) as Hok'.
    assert (Hdel : fst (do_del_port dp (port_no p))
                   = set_ports (delete (port_no p) (ports dp)) rest
                               (uint32 (serial dp + 1)) dp).
    { destruct Hok as (H1 & H2 & _).
      assert (Hin : p ∈ port_list dp) by (rewrite Hl; apply elem_of_cons; left; reflexivity).
      pose proof (H2 _ Hin) as Hslot. destruct (H1 _ _ Hslot) as (_ & Hr & _).
      unfold do_del_port, get_port_by_number, is_valid_port_number.
      destruct (Z.ltb_spec (port_no p) MAX_PORTS); [| lia]. simpl.
      rewrite Hslot. simpl. rewrite Hl. simpl. rewrite Z.eqb_refl. reflexivity. }
    rewrite Hdel in *.
    destruct (IH _ Hok' eq_refl) as (I1 & I2 & I3 & I4 & I5).
    repeat split; assumption.
Qed.

(** X22.  [dp_netdev_free] releases all that a datapath holds: on a datapath
    within its invariants it leaves no flow, no port in the array or in the
    list, and no record in either queue. *)
Theorem free_releases_all (dp : dp_netdev) :
  ports_ok dp -> queues_ok dp ->
  let dp' := dp_netdev_free dp in
  flow_table dp' = []
  /\ ports dp' = ∅ /\ port_list dp' = []
  /\ queue_contents (queue_miss dp') = []
  /\ queue_contents (queue_action dp') = []
  /\ dpif_netdev_recv dp' = (dp', EAGAIN, None).
Proof.
  intros Hp [Hqm Hqa] dp'. subst dp'. unfold dp_netdev_free.
  destruct (del_ports_all (port_list (dp_netdev_flow_flush dp)) (dp_netdev_flow_flush dp))
    as (D1 & D2 & D3 & D4 & D5);
    [apply (ports_ok_fields dp); [reflexivity | reflexivity | assumption] | reflexivity |].
  set (dp1 := fold_left _ _ _) in *.
  unfold dp_netdev_purge_queues.
  cbn [flow_table ports port_list queue_miss queue_action set_queue_action set_queue_miss].
  rewrite D4, D5. cbn [queue_miss queue_action dp_netdev_flow_flush set_flow_table].
  rewrite !purge_queue_empties by assumption.
  split; [rewrite D3; reflexivity |]. split; [assumption |]. split; [assumption |].
  split; [apply queue_contents_empty; reflexivity |].
  split; [apply queue_contents_empty; reflexivity |].
  unfold dpif_netdev_recv, find_nonempty_queue. simpl. rewrite !Z.eqb_refl. reflexivity.
Qed.

End Registry_facts.

(** ** More on the GRE vports *)

Module GRE_more_facts.
Import GRE GRE_vports GRE_facts.

Lemma filter_tnl_flags_idem (f : Z) :
  filter_tnl_flags (filter_tnl_flags f) = filter_tnl_flags f.
Proof.
  unfold filter_tnl_flags. rewrite <- Z.land_assoc, Z.land_diag. reflexivity.
Qed.

Lemma be64_round (e : endianness) (T : Z) : 0 <= T < 2 ^ 64 ->
  be64_to_cpu e (cpu_to_be64 e T) = T.
Proof. intros HT. destruct e; simpl; [reflexivity | apply swab64_involutive, HT]. Qed.

Lemma key_to_tunnel_id_zero (e : endianness) (lo : Z) : 0 <= lo < 2 ^ 32 ->
  be64_to_cpu e (key_to_tunnel_id e (cpu_to_be32 e lo) 0) = lo.
Proof.
  intros Hl.
  assert (E : cpu_to_be32 e 0 = 0) by (destruct e; reflexivity).
  rewrite <- E at 1.
  rewrite key_to_tunnel_id_wire by (pow2_consts; lia).
  rewrite be64_round by (pow2_consts; lia). lia.
Qed.

(** X23.  Plain GRE carries the low 32 bits of the tunnel id when the
    tunnel key has the KEY flag, and nothing of it otherwise.  For a tunnel
    key whose [tun_id] holds the 64-bit number [T] and whose flags are
    without SEQ, [gre_send] describes a header without the SEQ flag whose
    key is [T] modulo 2^32 and reserves the length that the flags of the
    header call for.  The header reaches a host of either byte order; its
    receive handler hands it to the GRE vport with the CSUM and KEY bits of
    the sender's flags and with a [tun_id] that holds [T] modulo 2^32 when
    the header has a key field, and 0 when it has none; in a namespace
    without a GRE vport the header is rejected. *)
Theorem gre_tun_id_low32 (e1 e2 : endianness) (T : Z)
    (tun_key : ovs_key_ipv4_tunnel) (net : vport_net) :
  0 <= T < 2 ^ 64 ->
  tun_id tun_key = cpu_to_be64 e1 T ->
  Z.land (tun_flags tun_key) TUNNEL_SEQ = 0 ->
  exists p tpi,
    gre_send e1 (Some tun_key) = Some p
    /\ be32_to_cpu e1 (tpi_key (packet_tpi p)) = T mod 2 ^ 32
    /\ tpi_seq (packet_tpi p) = 0
    /\ Z.land (tpi_flags (packet_tpi p)) TUNNEL_SEQ = 0
    /\ Z.land (tpi_flags (packet_tpi p)) TUNNEL_KEY
       = Z.land (tun_flags tun_key) TUNNEL_KEY
    /\ packet_hlen p = ip_gre_calc_hlen (tpi_flags (packet_tpi p))
    /\ on_the_wire e1 e2 p = Some tpi
    /\ (gre_vport net = false -> gre_rcv e2 net tpi = None)
    /\ (gre_vport net = true ->
        exists key,
          gre_rcv e2 net tpi
          = Some (OVS_VPORT_TYPE_GRE, key,
                  Z.land (tun_flags tun_key) (Z.lor TUNNEL_CSUM TUNNEL_KEY))
          /\ be64_to_cpu e2 key
             = if Z.land (tun_flags tun_key) TUNNEL_KEY =? 0 then 0
               else T mod 2 ^ 32).
Proof.
  intros HT Hid Hseq. destruct (halves T HT) as [Hl Hh].
  assert (Hlen : ip_gre_calc_hlen (tun_flags tun_key)
                 = ip_gre_calc_hlen (Z.lor (filter_tnl_flags (tun_flags tun_key)) 0)).
  { rewrite gre_hlen, Hseq. cbn. lia. }
  eexists _, _. split; [reflexivity |].
  cbn [send build_header packet_tpi packet_hlen tpi_key tpi_seq tpi_flags].
  rewrite Hid, low32_of_be64 by assumption.
  split; [reflexivity |]. split; [reflexivity |].
  split; [rewrite Z.lor_0_r; apply filter_drops_seq |].
  split; [rewrite Z.lor_0_r; apply filter_keeps_key |].
  split; [exact Hlen |].
  unfold on_the_wire.
  cbn [send build_header packet_tpi packet_hlen tpi_key tpi_seq tpi_flags tpi_proto].
  rewrite Hlen, Z.eqb_refl, !Z.lor_0_r, filter_drops_seq, filter_keeps_key.
  change (0 =? 0) with true. cbv iota.
  split; [reflexivity |].
  unfold gre_rcv. cbn [tpi_key tpi_seq tpi_flags].
  rewrite filter_drops_seq, Z.eqb_refl, andb_false_r, filter_tnl_flags_idem.
  split; [intros ->; reflexivity |]. intros ->. cbn [negb].
  eexists. split; [reflexivity |].
  destruct (Z.land (tun_flags tun_key) TUNNEL_KEY =? 0).
  - destruct e2; reflexivity.
  - rewrite Hid, low32_of_be64 by assumption.
    apply key_to_tunnel_id_zero. assumption.
Qed.

(** X24.  A GRE64 header is addressed to the GRE64 vport only when the
    tunnel key has the KEY flag. Without it [gre64_send] still sets SEQ, and
    the receive handler hands a header with these flags to the plain GRE
    vport, or rejects it in a namespace that has only the GRE64 vport.  Such
    a header has no key field: it reaches the receiver, when the flags of
    the tunnel key are without SEQ, with these flags and the key 0. *)
Theorem gre64_without_key_flag (e1 e2 : endianness) (tun_key : ovs_key_ipv4_tunnel)
    (net : vport_net) :
  Z.land (tun_flags tun_key) TUNNEL_KEY = 0 ->
  exists p,
    gre64_send e1 (Some tun_key) = Some p
    /\ Z.land (tpi_flags (packet_tpi p)) TUNNEL_SEQ = TUNNEL_SEQ
    /\ Z.land (tpi_flags (packet_tpi p)) TUNNEL_KEY = 0
    /\ (Z.land (tun_flags tun_key) TUNNEL_SEQ = 0 ->
        exists tpi,
          on_the_wire e1 e2 p = Some tpi
          /\ tpi_flags tpi = tpi_flags (packet_tpi p)
          /\ tpi_key tpi = 0)
    /\ (forall tpi, tpi_flags tpi = tpi_flags (packet_tpi p) ->
        (gre_vport net = false -> gre_rcv e2 net tpi = None)
        /\ (gre_vport net = true ->
            exists key flags,
              gre_rcv e2 net tpi = Some (OVS_VPORT_TYPE_GRE, key, flags)
              /\ Z.land flags TUNNEL_KEY = 0)).
Proof.
  intros Hkey. eexists. split; [reflexivity |].
  cbn [send build_header packet_tpi packet_hlen tpi_flags].
  split; [apply flags_have_seq |].
  split; [rewrite flags_keep_key; exact Hkey |].
  split.
  - intros Hseq. unfold on_the_wire.
    cbn [send build_header packet_tpi packet_hlen tpi_key tpi_seq tpi_flags tpi_proto].
    rewrite gre64_hlen, Hseq. change (0 =? 0) with true. cbv iota.
    rewrite Z.sub_0_r, Z.eqb_refl, flags_keep_key, Hkey.
    change (0 =? 0) with true. cbv iota.
    eexists. split; [reflexivity |]. split; reflexivity.
  - intros tpi Hflags. unfold gre_rcv. rewrite Hflags.
    rewrite flags_keep_key, Hkey. cbn [Z.eqb negb andb].
    split; [intros ->; reflexivity |]. intros ->. cbn [negb].
    eexists _, _. split; [reflexivity |].
    rewrite filter_keeps_key, flags_keep_key. exact Hkey.
Qed.

Lemma gre_init_registers (g : gre_module) (calls : kernel_calls) :
  gre_module_ok g -> gre_ports g < INT_MAX ->
  gre_cisco_register_error calls = 0 ->
  gre_init g calls
  = ({| gre_ports := gre_ports g + 1; gre_protocol_registered := true |}, 0).
Proof.
  intros [Hpos Hreg] Hmax Hcalls. unfold gre_init.
  rewrite to_int_small by (unfold INT_MAX in *; pow2_consts; lia).
  destruct (Z.ltb_spec 1 (gre_ports g + 1)) as [Hmany | Hfirst].
  - f_equal. f_equal. apply Hreg. lia.
  - rewrite Hcalls. reflexivity.
Qed.

Lemma gre_exit_undoes (g : gre_module) :
  gre_module_ok g -> gre_ports g < INT_MAX ->
  gre_exit {| gre_ports := gre_ports g + 1; gre_protocol_registered := true |} = g.
Proof.
  intros [Hpos Hreg] Hmax. unfold gre_exit. cbn [gre_ports gre_protocol_registered].
  replace (gre_ports g + 1 - 1) with (gre_ports g) by lia.
  rewrite to_int_small by (unfold INT_MAX in *; pow2_consts; lia).
  destruct (Z.ltb_spec 0 (gre_ports g)) as [Hsome | Hnone].
  - destruct g as [n r]. simpl in *. f_equal. symmetry. apply Hreg. assumption.
  - destruct g as [n r]. simpl in *. f_equal.
    destruct r; [| reflexivity]. destruct Hreg as [Hreg _]. specialize (Hreg eq_refl). lia.
Qed.

(** X25.  The counting of vports balances. When the kernel accepts the
    registration, [gre_create] and [gre64_create] either return a vport,
    count it, leave the handler registered and mark the vport in the
    namespace, after which the destroy function brings the module and the
    namespace back to what they were; or they fail, with -EEXIST when the
    namespace has the vport already and else with the error of the
    allocation, and change nothing. *)
Theorem gre_create_then_destroy (g : gre_module) (net : vport_net)
    (calls : kernel_calls) :
  gre_module_ok g -> gre_ports g < INT_MAX ->
  gre_cisco_register_error calls = 0 ->
  (forall g' net' err,
      gre_create g net calls = (g', net', err) ->
      (err = 0 ->
         gre_vport net = false /\ gre_vport net' = true
         /\ gre64_vport net' = gre64_vport net
         /\ gre_ports g' = gre_ports g + 1
         /\ gre_protocol_registered g' = true
         /\ gre_module_ok g'
         /\ gre_tnl_destroy g' net' = (g, net))
      /\ (err <> 0 ->
            g' = g /\ net' = net
            /\ (gre_vport net = true /\ err = - EEXIST
                \/ gre_vport net = false /\ err = ovs_vport_alloc_error calls)))
  /\ (forall g' net' err,
        gre64_create g net calls = (g', net', err) ->
        (err = 0 ->
           gre64_vport net = false /\ gre64_vport net' = true
           /\ gre_vport net' = gre_vport net
           /\ gre_ports g' = gre_ports g + 1
           /\ gre_protocol_registered g' = true
           /\ gre_module_ok g'
           /\ gre64_tnl_destroy g' net' = (g, net))
        /\ (err <> 0 ->
              g' = g /\ net' = net
              /\ (gre64_vport net = true /\ err = - EEXIST
                  \/ gre64_vport net = false /\ err = ovs_vport_alloc_error calls))).
Proof.
  intros Hok Hmax Hcalls.
  pose proof (gre_init_registers g calls Hok Hmax Hcalls) as Hinit.
  pose proof (gre_exit_undoes g Hok Hmax) as Hexit.
  assert (Hok' : gre_module_ok {| gre_ports := gre_ports g + 1;
                                  gre_protocol_registered := true |}).
  { destruct Hok as [Hpos _]. split; simpl; [lia |]. split; [intros _; lia | reflexivity]. }
  split.
  - intros g' net' err H. unfold gre_create in H. rewrite Hinit in H. simpl in H.
    destruct (gre_vport net) eqn:Ev.
    + injection H as <- <- <-. rewrite Hexit.
      split; [discriminate |]. intros _. repeat split. left. split; reflexivity.
    + destruct (Z.eqb_spec (ovs_vport_alloc_error calls) 0) as [Ea | Na];
        simpl in H; injection H as <- <- <-.
      * split; [| intros Hne; contradiction]. intros _.
        split; [reflexivity |]. split; [reflexivity |]. split; [reflexivity |].
        split; [reflexivity |]. split; [reflexivity |]. split; [exact Hok' |].
        unfold gre_tnl_destroy. rewrite Hexit. simpl. f_equal.
        destruct net as [a b]. simpl in *. subst a. reflexivity.
      * rewrite Hexit. split; [intros E; contradiction |]. intros _.
        repeat split. right. split; reflexivity.
  - intros g' net' err H. unfold gre64_create in H. rewrite Hinit in H. simpl in H.
    destruct (gre64_vport net) eqn:Ev.
    + injection H as <- <- <-. rewrite Hexit.
      split; [discriminate |]. intros _. repeat split. left. split; reflexivity.
    + destruct (Z.eqb_spec (ovs_vport_alloc_error calls) 0) as [Ea | Na];
        simpl in H; injection H as <- <- <-.
      * split; [| intros Hne; contradiction]. intros _.
        split; [reflexivity |]. split; [reflexivity |]. split; [reflexivity |].
        split; [reflexivity |]. split; [reflexivity |]. split; [exact Hok' |].
        unfold gre64_tnl_destroy. rewrite Hexit. simpl. f_equal.
        destruct net as [a b]. simpl in *. subst b. reflexivity.
      * rewrite Hexit. split; [intros E; contradiction |]. intros _.
        repeat split. right. split; reflexivity.
Qed.

(** X26.  A registration that the kernel refuses is never retried. With no
    vport counted, [gre_create] and [gre64_create] then return the kernel's
    error but leave [gre_ports] at 1; the next create finds the counter
    above 0, does not register the handler, and returns a vport all the
    same: a vport exists while no handler is registered. *)
Theorem gre_register_failure_sticks (g : gre_module) (net : vport_net)
    (calls calls' : kernel_calls) :
  gre_ports g = 0 -> gre_protocol_registered g = false ->
  gre_cisco_register_error calls <> 0 ->
  ovs_vport_alloc_error calls' = 0 ->
  let stuck := {| gre_ports := 1; gre_protocol_registered := false |} in
  let counted := {| gre_ports := 2; gre_protocol_registered := false |} in
  gre_create g net calls = (stuck, net, gre_cisco_register_error calls)
  /\ gre64_create g net calls = (stuck, net, gre_cisco_register_error calls)
  /\ (gre_vport net = false ->
        gre_create stuck net calls'
        = (counted, {| gre_vport := true; gre64_vport := gre64_vport net |}, 0))
  /\ (gre64_vport net = false ->
        gre64_create stuck net calls'
        = (counted, {| gre_vport := gre_vport net; gre64_vport := true |}, 0)).
Proof.
  intros Hzero Hunreg Hfail Halloc stuck counted.
  assert (Hinit : gre_init g calls = (stuck, gre_cisco_register_error calls)).
  { unfold gre_init. rewrite Hzero, Hunreg. cbn.
    destruct (Z.eqb_spec (gre_cisco_register_error calls) 0); [contradiction |].
    reflexivity. }
  assert (Hne : negb (gre_cisco_register_error calls =? 0) = true).
  { destruct (Z.eqb_spec (gre_cisco_register_error calls) 0); [contradiction |].
    reflexivity. }
  split; [unfold gre_create; rewrite Hinit, Hne; reflexivity |].
  split; [unfold gre64_create; rewrite Hinit, Hne; reflexivity |].
  split.
  - intros Hv. unfold gre_create. cbn. rewrite Hv, Halloc. reflexivity.
  - intros Hv. unfold gre64_create. cbn. rewrite Hv, Halloc. reflexivity.
Qed.

(** Plain GRE on the [tun_id] 0x0000000100000002 of the scenario S5: the
    receiver gets 2. *)
Lemma gre_tun_id_low32_witness :
  exists p tpi key,
    gre_send LITTLE_ENDIAN
      (Some {| tun_id := cpu_to_be64 LITTLE_ENDIAN 4294967298; ipv4_src := 1;
               ipv4_dst := 2; tun_flags := TUNNEL_KEY; ipv4_tos := 0;
               ipv4_ttl := 64 |}) = Some p
    /\ packet_hlen p = 8
    /\ on_the_wire LITTLE_ENDIAN BIG_ENDIAN p = Some tpi
    /\ gre_rcv BIG_ENDIAN {| gre_vport := true; gre64_vport := true |} tpi
       = Some (OVS_VPORT_TYPE_GRE, key, TUNNEL_KEY)
    /\ be64_to_cpu BIG_ENDIAN key = 2.
Proof.
  destruct (gre_tun_id_low32 LITTLE_ENDIAN BIG_ENDIAN 4294967298
              {| tun_id := cpu_to_be64 LITTLE_ENDIAN 4294967298; ipv4_src := 1;
                 ipv4_dst := 2; tun_flags := TUNNEL_KEY; ipv4_tos := 0;
                 ipv4_ttl := 64 |}
              {| gre_vport := true; gre64_vport := true |})
    as (p & tpi & Hs & _ & _ & _ & _ & _ & Hw & _ & Hr).
  - split; [discriminate | reflexivity].
  - reflexivity.
  - reflexivity.
  - destruct (Hr eq_refl) as (key & Hrcv & Hid).
    exists p, tpi, key. split; [exact Hs |].
    split; [injection Hs as <-; reflexivity |].
    split; [exact Hw |]. split; [exact Hrcv | exact Hid].
Defined.

(** A GRE64 send under a tunnel key with the CSUM flag alone goes to the
    plain GRE vport, with no key. *)
Lemma gre64_without_key_flag_witness :
  Z.land TUNNEL_CSUM TUNNEL_KEY = 0
  /\ exists p tpi key flags,
       gre64_send BIG_ENDIAN
         (Some {| tun_id := 7; ipv4_src := 1; ipv4_dst := 2;
                  tun_flags := TUNNEL_CSUM; ipv4_tos := 0; ipv4_ttl := 64 |})
       = Some p
       /\ on_the_wire BIG_ENDIAN BIG_ENDIAN p = Some tpi
       /\ tpi_key tpi = 0
       /\ gre_rcv BIG_ENDIAN {| gre_vport := true; gre64_vport := true |} tpi
          = Some (OVS_VPORT_TYPE_GRE, key, flags).
Proof.
  split; [reflexivity |].
  destruct (gre64_without_key_flag BIG_ENDIAN BIG_ENDIAN
              {| tun_id := 7; ipv4_src := 1; ipv4_dst := 2;
                 tun_flags := TUNNEL_CSUM; ipv4_tos := 0; ipv4_ttl := 64 |}
              {| gre_vport := true; gre64_vport := true |} eq_refl)
    as (p & Hs & _ & _ & Hw & Hr).
  destruct (Hw eq_refl) as (tpi & Hwire & Hflags & Hk).
  destruct (Hr tpi Hflags) as [_ Hr'].
  destruct (Hr' eq_refl) as (key & flags & Hrcv & _).
  exists p, tpi, key, flags. split; [exact Hs |]. split; [exact Hwire |].
  split; [exact Hk | exact Hrcv].
Defined.

(** The first GRE vport of a namespace is created and destroyed. *)
Lemma gre_create_then_destroy_witness :
  gre_module_ok {| gre_ports := 0; gre_protocol_registered := false |}
  /\ gre_create {| gre_ports := 0; gre_protocol_registered := false |}
       {| gre_vport := false; gre64_vport := false |}
       {| gre_cisco_register_error := 0; ovs_vport_alloc_error := 0 |}
     = ({| gre_ports := 1; gre_protocol_registered := true |},
        {| gre_vport := true; gre64_vport := false |}, 0)
  /\ gre_tnl_destroy {| gre_ports := 1; gre_protocol_registered := true |}
       {| gre_vport := true; gre64_vport := false |}
     = ({| gre_ports := 0; gre_protocol_registered := false |},
        {| gre_vport := false; gre64_vport := false |}).
Proof.
  assert (Hok : gre_module_ok {| gre_ports := 0; gre_protocol_registered := false |}).
  { split; simpl; [lia |]. split; [discriminate | lia]. }
  destruct (gre_create_then_destroy
              {| gre_ports := 0; gre_protocol_registered := false |}
              {| gre_vport := false; gre64_vport := false |}
              {| gre_cisco_register_error := 0; ovs_vport_alloc_error := 0 |}
              Hok ltac:(reflexivity) eq_refl) as [Hgre _].
  destruct (Hgre _ _ _ eq_refl) as [Hdone _].
  destruct (Hdone eq_refl) as (_ & _ & _ & _ & _ & _ & Hback).
  split; [exact Hok |]. split; [reflexivity | exact Hback].
Defined.

(** The kernel refuses the registration with -ENOMEM; the next create
    returns a vport without a registered handler. *)
Lemma gre_register_failure_sticks_witness :
  gre_create {| gre_ports := 0; gre_protocol_registered := false |}
    {| gre_vport := false; gre64_vport := false |}
    {| gre_cisco_register_error := -12; ovs_vport_alloc_error := 0 |}
  = ({| gre_ports := 1; gre_protocol_registered := false |},
     {| gre_vport := false; gre64_vport := false |}, -12)
  /\ gre_create {| gre_ports := 1; gre_protocol_registered := false |}
       {| gre_vport := false; gre64_vport := false |}
       {| gre_cisco_register_error := 0; ovs_vport_alloc_error := 0 |}
     = ({| gre_ports := 2; gre_protocol_registered := false |},
        {| gre_vport := true; gre64_vport := false |}, 0).
Proof.
  destruct (gre_register_failure_sticks
              {| gre_ports := 0; gre_protocol_registered := false |}
              {| gre_vport := false; gre64_vport := false |}
              {| gre_cisco_register_error := -12; ovs_vport_alloc_error := 0 |}
              {| gre_cisco_register_error := 0; ovs_vport_alloc_error := 0 |}
              eq_refl eq_refl ltac:(discriminate) eq_refl)
    as (Hfail & _ & Hnext & _).
  split; [exact Hfail | exact (Hnext eq_refl)].
Defined.

End GRE_more_facts.

(** ** Waiting for and discarding records *)

Section Purge_facts.
Context `{Ext : Externals}.

Lemma queue_contents_nonempty (q : dp_netdev_queue) :
  queue_ok q -> (queue_contents q <> [] <-> q_head q <> q_tail q).
Proof.
  intros Hok. split.
  - intros Hne E. apply Hne, queue_contents_empty, E.
  - intros Hne E. rewrite (queue_contents_pop q Hok Hne) in E. discriminate E.
Qed.

(** X3.  In the build without THREADED, [dpif_netdev_recv_wait] wakes the
    caller exactly when a record waits, which is exactly when
    [dpif_netdev_recv] would return 0, and after [dpif_netdev_recv_purge] it
    does not wake the caller.  In the build with THREADED it is the pipe
    that decides, whatever the queues hold, before the purge and after it:
    with a byte in the pipe the caller is woken though no record waits.  In
    both builds [dpif_netdev_recv_purge] discards every waiting record:
    after it no record waits, [dpif_netdev_recv] returns EAGAIN, and nothing
    else of the datapath has changed; the records discarded are not counted
    in [n_lost]. *)
Theorem recv_purge_then_wait (dp : dp_netdev) :
  queues_ok dp ->
  let dp' := dpif_netdev_recv_purge dp in
  (forall pipe_readable,
     (dpif_netdev_recv_wait false pipe_readable dp = true
      <-> queue_contents (queue_miss dp) <> []
          \/ queue_contents (queue_action dp) <> [])
     /\ (dpif_netdev_recv_wait false pipe_readable dp = true
         <-> snd (fst (dpif_netdev_recv dp)) = 0)
     /\ dpif_netdev_recv_wait false pipe_readable dp' = false
     /\ dpif_netdev_recv_wait true pipe_readable dp = pipe_readable
     /\ dpif_netdev_recv_wait true pipe_readable dp' = pipe_readable)
  /\ dpif_netdev_recv dp' = (dp', EAGAIN, None)
  /\ queue_contents (queue_miss dp') = []
  /\ queue_contents (queue_action dp') = []
  /\ dp' = set_queue_action (queue_action dp') (set_queue_miss (queue_miss dp') dp)
  /\ n_lost dp' = n_lost dp.
Proof.
  intros [Hm Ha] dp'. subst dp'.
  pose proof (queue_contents_nonempty _ Hm) as Nm.
  pose proof (queue_contents_nonempty _ Ha) as Na.
  unfold dpif_netdev_recv_purge, dp_netdev_purge_queues.
  cbn [queue_miss queue_action set_queue_action set_queue_miss n_lost].
  rewrite !purge_queue_empties by assumption.
  split.
  - intros pipe_readable. cbn [dpif_netdev_recv_wait]. split; [| split; [| split]].
    + unfold find_nonempty_queue. simpl.
      destruct (Z.eqb_spec (q_head (queue_miss dp)) (q_tail (queue_miss dp)))
        as [E1 | N1]; simpl.
      * destruct (Z.eqb_spec (q_head (queue_action dp)) (q_tail (queue_action dp)))
          as [E2 | N2]; simpl.
        -- split; [discriminate |]. intros [H | H]; [apply Nm in H | apply Na in H];
             contradiction.
        -- split; [| reflexivity]. intros _. right. apply Na, N2.
      * split; [| reflexivity]. intros _. left. apply Nm, N1.
    + unfold dpif_netdev_recv.
      destruct (find_nonempty_queue dp); simpl; split; try reflexivity; discriminate.
    + unfold find_nonempty_queue. simpl. rewrite !Z.eqb_refl. reflexivity.
    + split; reflexivity.
  - split; [| split; [| split; [| split]]]; try reflexivity.
    + unfold dpif_netdev_recv, find_nonempty_queue. simpl.
      rewrite !Z.eqb_refl. reflexivity.
    + apply queue_contents_empty. reflexivity.
    + apply queue_contents_empty. reflexivity.
Qed.

End Purge_facts.

(** ** The theorems at concrete inputs *)

#[local] Existing Instance Demo.externals.

(** C10 at a frame of 13 bytes. *)
Lemma execute_rejects_size_witness :
  ofpbuf_size (repeat x00 13) < ETH_HEADER_LEN
  /\ dpif_netdev_execute (Demo.machine_of Demo.dp3 [])
       {| execute_packet := repeat x00 13; execute_key := Demo.key1;
          execute_actions := [OVS_ACTION_ATTR_OUTPUT 2] |}
     = Done (Demo.machine_of Demo.dp3 [], EINVAL).
Proof.
  split; [reflexivity |].
  apply (execute_rejects_size (Demo.machine_of Demo.dp3 [])).
  left. reflexivity.
Defined.

(** C5 at OUTPUT(256), the first number past the array. *)
Lemma output_port_out_of_bounds_witness :
  MAX_PORTS <= 256
  /\ dp_netdev_execute_actions (Demo.machine_of Demo.dp3 []) Demo.frame64
       (1, take 14 Demo.frame64) [OVS_ACTION_ATTR_OUTPUT 256]
     = Fault OUT_OF_BOUNDS.
Proof.
  split; [discriminate |].
  apply (output_port_out_of_bounds (Demo.machine_of Demo.dp3 []) Demo.frame64
           (1, take 14 Demo.frame64) 256 []).
  discriminate.
Defined.

(** C2 at the full MISS queue of [Demo.machine_full]: the push fails and
    counts a loss, the pop succeeds. *)
Lemma upcall_queue_push_pop_witness :
  queue_ok (queue_at (m_dp Demo.machine_full) DPIF_UC_MISS)
  /\ 0 <= n_lost (m_dp Demo.machine_full) < LLONG_MAX
  /\ snd (dp_netdev_output_userspace (m_dp Demo.machine_full) Demo.frame64
            DPIF_UC_MISS (1, take 14 Demo.frame64) None) = ENOBUFS
  /\ n_lost (fst (dp_netdev_output_userspace (m_dp Demo.machine_full) Demo.frame64
                    DPIF_UC_MISS (1, take 14 Demo.frame64) None)) = 1
  /\ snd (fst (dpif_netdev_recv (m_dp Demo.machine_full))) = 0.
Proof.
  assert (Hok : queue_ok (queue_at (m_dp Demo.machine_full) DPIF_UC_MISS)).
  { vm_compute. repeat split; discriminate. }
  assert (Hlost : 0 <= n_lost (m_dp Demo.machine_full) < LLONG_MAX).
  { vm_compute. split; [discriminate | reflexivity]. }
  destruct (upcall_queue_push_pop (m_dp Demo.machine_full) Demo.frame64
              DPIF_UC_MISS (1, take 14 Demo.frame64) None Hok Hlost)
    as (Hiff & _ & Hfail & _ & Hpop & _).
  assert (Hfull : snd (dp_netdev_output_userspace (m_dp Demo.machine_full)
                         Demo.frame64 DPIF_UC_MISS (1, take 14 Demo.frame64) None)
                  = ENOBUFS).
  { apply Hiff. vm_compute. reflexivity. }
  destruct (Hfail Hfull) as (_ & Hn & _).
  split; [exact Hok |]. split; [exact Hlost |]. split; [exact Hfull |].
  split; [rewrite Hn; reflexivity |].
  apply Hpop. vm_compute. discriminate.
Defined.

Lemma full_table_absent (rest : list byte) (v : Z) (a n : nat) :
  rest <> [] ->
  List.find (fun g : dp_netdev_flow => bool_decide (key g = (v, rest)))
            (List.map Demo.flow_numbered (seq a n)) = None.
Proof.
  intros Hrest. revert a. induction n as [| n IH]; intros a; [reflexivity |].
  cbn [seq List.map List.find]. rewrite bool_decide_eq_false_2; [apply IH |].
  unfold Demo.flow_numbered. cbn [key]. intros [= _ E]. congruence.
Qed.

Lemma full_table_present (i a n : nat) :
  (a <= i < a + n)%nat ->
  List.find (fun g : dp_netdev_flow => bool_decide (key g = (Z.of_nat i, [])))
            (List.map Demo.flow_numbered (seq a n)) = Some (Demo.flow_numbered i).
Proof.
  revert a. induction n as [| n IH]; intros a Hi; [lia |].
  cbn [seq List.map List.find].
  destruct (decide (a = i)) as [-> | Hne].
  - rewrite bool_decide_eq_true_2 by reflexivity. reflexivity.
  - rewrite bool_decide_eq_false_2; [apply IH; lia |].
    unfold Demo.flow_numbered. cbn [key]. intros [= E]. lia.
Qed.

(** The table of [Demo.dp_full] holds MAX_FLOWS flows, among them the one
    of key 5 on the empty frame, and none on the frame of one byte. *)
Lemma dp_full_facts :
  hmap_count (flow_table Demo.dp_full) = MAX_FLOWS
  /\ dp_netdev_lookup_flow Demo.dp_full (5, [x01]) = None
  /\ is_Some (dp_netdev_lookup_flow Demo.dp_full (5, [])).
Proof.
  unfold dp_netdev_lookup_flow, Demo.dp_full, hmap_count.
  cbn [flow_table set_flow_table]. unfold Demo.full_table.
  split; [| split].
  - rewrite List.length_map, List.length_seq. apply Z2Nat.id. discriminate.
  - apply full_table_absent. discriminate.
  - exists (Demo.flow_numbered 5). apply (full_table_present 5 0). split; [lia |].
    apply Nat2Z.inj_lt. rewrite Nat2Z.inj_add, Z2Nat.id by discriminate. reflexivity.
Qed.

(** C3 at a table of MAX_FLOWS entries (scenario S2): CREATE of a new key
    is refused, and accepted once the flow of key 5 has been deleted. *)
Lemma flow_put_capacity_witness :
  dpif_netdev_flow_from_nlattrs [x05; x01] = (0, (5, [x01]))
  /\ dp_netdev_lookup_flow Demo.dp_full (5, [x01]) = None
  /\ hmap_count (flow_table Demo.dp_full) = MAX_FLOWS
  /\ dpif_netdev_flow_put Demo.dp_full
       {| put_flags := DPIF_FP_CREATE; put_key := [x05; x01];
          put_actions := []; put_stats := false |}
     = (Demo.dp_full, EFBIG, None)
  /\ snd (fst (dpif_netdev_flow_put
                 (fst (fst (dpif_netdev_flow_del Demo.dp_full
                              {| del_key := [x05]; del_stats := false |})))
                 {| put_flags := DPIF_FP_CREATE; put_key := [x05; x01];
                    put_actions := []; put_stats := false |})) = 0.
Proof.
  destruct dp_full_facts as (Hfull & Habs & Hpresent).
  assert (Hkey : dpif_netdev_flow_from_nlattrs [x05; x01] = (0, (5, [x01])))
    by reflexivity.
  assert (Hflag : Z.land DPIF_FP_CREATE DPIF_FP_CREATE <> 0) by discriminate.
  pose proof (flow_put_capacity Demo.dp_full
              {| put_flags := DPIF_FP_CREATE; put_key := [x05; x01];
                 put_actions := []; put_stats := false |} (5, [x01]) Hkey Habs Hflag)
    as (_ & Hbig & Hdel & _).
  split; [exact Hkey |]. split; [exact Habs |]. split; [exact Hfull |].
  split; [exact (Hbig Hfull) |].
  exact (proj1 (proj2 (proj2 (Hdel Hfull {| del_key := [x05]; del_stats := false |}
                                (5, []) eq_refl Hpresent)))).
Defined.

(** C4 in the scenario S6 with probability 0: whatever the draw, the frame
    reaches port 3 alone. *)
Lemma sample_probability_witness :
  0 <= 0 < 2 ^ 32
  /\ dp_netdev_sample (Demo.machine_of Demo.dp3 [7]) Demo.frame64
       (1, take 14 Demo.frame64)
       [OVS_SAMPLE_ATTR_PROBABILITY 0;
        OVS_SAMPLE_ATTR_ACTIONS [OVS_ACTION_ATTR_OUTPUT 2]]
     = Done (Demo.machine_of Demo.dp3 [], Demo.frame64)
  /\ passing_draws 0 (2 ^ 32) = 0.
Proof.
  assert (Hp : 0 <= 0 < 2 ^ 32) by (split; [discriminate | reflexivity]).
  destruct (sample_probability (Demo.machine_of Demo.dp3 [7]) Demo.frame64
              (1, take 14 Demo.frame64) 0 [OVS_ACTION_ATTR_OUTPUT 2] Hp)
    as (_ & _ & _ & Hcount & Hzero & _).
  split; [exact Hp |]. split; [exact (Hzero eq_refl) | exact Hcount].
Defined.

(** C8 on the datapath "d" behind its first handle: adding a port takes
    the serial from 1 to 2. *)
Lemma serial_steps_witness :
  0 <= serial Demo.dp_opened < 2 ^ 32
  /\ open_cnt Demo.dp_opened = 1
  /\ snd (apply_mutation Demo.dp_opened
            (PORT_ADD (Demo.dev "p1") UINT32_MAX Demo.calls_ok)) = 0
  /\ serial Demo.dp_opened = 1
  /\ serial (fst (apply_mutation Demo.dp_opened
                    (PORT_ADD (Demo.dev "p1") UINT32_MAX Demo.calls_ok))) = 2.
Proof.
  assert (Hr : 0 <= serial Demo.dp_opened < 2 ^ 32)
    by (split; [discriminate | reflexivity]).
  destruct (serial_steps Demo.dp_opened
              (PORT_ADD (Demo.dev "p1") UINT32_MAX Demo.calls_ok) Hr)
    as (Hok & _).
  destruct (Hok eq_refl) as (_ & _ & Hlt & _).
  split; [exact Hr |]. split; [reflexivity |]. split; [reflexivity |].
  split; [reflexivity |].
  destruct Hlt as [Hs _]; [reflexivity | exact Hs].
Defined.

(** C1 in the scenario S1: with the flow installed, the second frame on
    port 1 is a hit, is sent on port 2 and is counted once. *)
Lemma port_input_classifies_witness :
  ETH_HEADER_LEN <= ofpbuf_size Demo.frame64
  /\ dp_netdev_lookup_flow Demo.dp_s1 (flow_extract Demo.frame64 1) = Some Demo.flow_s1
  /\ exists m',
       dp_netdev_port_input (Demo.machine_of Demo.dp_s1 []) 7 Demo.port1 Demo.frame64
       = Done m'
       /\ n_hit (m_dp m') = 1
       /\ Demo.sent_on m' = [2]
       /\ dp_netdev_lookup_flow (m_dp m') (flow_extract Demo.frame64 1)
          = Some {| key := (1, take 14 Demo.frame64) : flow; used := 7;
                    packet_count := 1; byte_count := 64; tcp_flags := 16;
                    actions := [OVS_ACTION_ATTR_OUTPUT 2] |}.
Proof.
  assert (Hsize : ETH_HEADER_LEN <= ofpbuf_size Demo.frame64) by discriminate.
  assert (Hf : dp_netdev_lookup_flow Demo.dp_s1 (flow_extract Demo.frame64 1)
               = Some Demo.flow_s1) by reflexivity.
  destruct (port_input_classifies (Demo.machine_of Demo.dp_s1 []) 7 Demo.port1
              Demo.frame64) as (_ & Hhit & _).
  specialize (Hhit Hsize Demo.flow_s1 Hf).
  assert (Hhit' := Hhit ltac:(split; [discriminate | reflexivity])
                        ltac:(split; discriminate)
                        ltac:(split; [discriminate | reflexivity])
                        ltac:(split; [discriminate | reflexivity])).
  clear Hhit. vm_compute in Hhit'. destruct Hhit' as (Hin & _ & Hlook & _).
  split; [exact Hsize |]. split; [exact Hf |].
  eexists. split; [vm_compute; exact Hin |].
  split; [reflexivity |]. split; [reflexivity |]. vm_compute. exact Hlook.
Defined.

(** C1 as stated fails in the scenario S3: after MAX_QUEUE_LEN misses that
    nobody received, one more frame misses, [n_missed] is counted, but no
    record is queued: both queues are as they were and the frame is counted
    in [n_lost]. *)
Lemma port_input_miss_on_full_queue :
  port_input_n 128 (Demo.machine_of Demo.dp3 []) 0 Demo.port1 Demo.frame64
  = Done Demo.machine_full
  /\ ETH_HEADER_LEN <= ofpbuf_size Demo.frame64
  /\ dp_netdev_lookup_flow (m_dp Demo.machine_full) (flow_extract Demo.frame64 1)
     = None
  /\ exists m',
       dp_netdev_port_input Demo.machine_full 0 Demo.port1 Demo.frame64 = Done m'
       /\ n_missed (m_dp m') = n_missed (m_dp Demo.machine_full) + 1
       /\ queue_miss (m_dp m') = queue_miss (m_dp Demo.machine_full)
       /\ queue_action (m_dp m') = queue_action (m_dp Demo.machine_full)
       /\ queue_len (queue_miss (m_dp m')) = MAX_QUEUE_LEN
       /\ n_lost (m_dp m') = n_lost (m_dp Demo.machine_full) + 1.
Proof.
  split; [vm_compute; reflexivity |]. split; [discriminate |].
  split; [vm_compute; reflexivity |].
  eexists. split; [vm_compute; reflexivity |].
  repeat split; vm_compute; reflexivity.
Qed.

(** C4 as stated fails for the draw 2^32 - 1: with PROBABILITY 2^32 - 1 the
    frame of the scenario S6 reaches port 3 but not port 2. *)
Lemma sample_skips_on_largest_draw :
  fst (random_uint32 (m_rng (Demo.machine_of Demo.dp3 [4294967295]))) = 4294967295
  /\ exists m',
       dp_netdev_execute_actions (Demo.machine_of Demo.dp3 [4294967295]) Demo.frame64
         (1, take 14 Demo.frame64) (Demo.actions_s6 4294967295)
       = Done (m', Demo.frame64)
       /\ Demo.sent_on m' = [3].
Proof.
  split; [reflexivity |]. eexists. split; vm_compute; reflexivity.
Qed.

(** For any other draw the same actions reach both ports. *)
Lemma sample_runs_on_other_draw :
  fst (random_uint32 (m_rng (Demo.machine_of Demo.dp3 [4294967294]))) = 4294967294
  /\ exists m',
       dp_netdev_execute_actions (Demo.machine_of Demo.dp3 [4294967294]) Demo.frame64
         (1, take 14 Demo.frame64) (Demo.actions_s6 4294967295)
       = Done (m', Demo.frame64)
       /\ Demo.sent_on m' = [2; 3].
Proof.
  split; [reflexivity |]. eexists. split; vm_compute; reflexivity.
Qed.

(** C6 on a handle opened before two ports are added: one ENOBUFS, then
    EAGAIN. *)
Lemma port_poll_once_witness :
  0 <= serial Demo.dp_opened < 2 ^ 32
  /\ dp_serial Demo.handle0 = serial Demo.dp_opened
  /\ snd (apply_mutations Demo.dp_opened Demo.two_adds) = 2
  /\ snd (poll_n 4 (fst (apply_mutations Demo.dp_opened Demo.two_adds)) Demo.handle0)
     = [ENOBUFS; EAGAIN; EAGAIN; EAGAIN].
Proof.
  assert (Hs : 0 <= serial Demo.dp_opened < 2 ^ 32)
    by (split; [discriminate | reflexivity]).
  assert (Hh : dp_serial Demo.handle0 = serial Demo.dp_opened) by reflexivity.
  destruct (port_poll_once Demo.dp_opened Demo.handle0) as (_ & _ & _ & _ & Hrun).
  split; [exact Hs |]. split; [exact Hh |]. split; [reflexivity |].
  apply (Hrun Demo.two_adds Hs Hh). split; reflexivity.
Defined.

(** C6 as stated fails: two ports are added, and however often the client
    polls afterwards, ENOBUFS is returned once, not once per change. *)
Lemma port_poll_coalesces :
  snd (apply_mutations Demo.dp_opened Demo.two_adds) = 2
  /\ forall n : nat,
       snd (poll_n (S n) (fst (apply_mutations Demo.dp_opened Demo.two_adds))
                   Demo.handle0)
       = ENOBUFS :: repeat EAGAIN n.
Proof.
  split; [reflexivity |]. intros n. apply poll_n_unsynced. discriminate.
Qed.



(** Adding port 1 and deleting it again leaves the datapath as it was but
    for a serial two steps on. *)
Lemma add_del_round (s : Z) :
  fst (apply_mutation
         (fst (apply_mutation (Demo.dp_at_serial s)
                 (PORT_ADD (Demo.dev "p1") 1 Demo.calls_ok)))
         (PORT_DEL 1))
  = Demo.dp_at_serial (uint32 (uint32 (s + 1) + 1)).
Proof. reflexivity. Qed.

Lemma add_del_round_succeeds (s : Z) :
  snd (apply_mutation (Demo.dp_at_serial s)
         (PORT_ADD (Demo.dev "p1") 1 Demo.calls_ok)) = 0
  /\ snd (apply_mutation
            (fst (apply_mutation (Demo.dp_at_serial s)
                    (PORT_ADD (Demo.dev "p1") 1 Demo.calls_ok)))
            (PORT_DEL 1)) = 0.
Proof. split; reflexivity. Qed.

(** [n] such rounds are 2 * n successful calls, and take the serial
    2 * n steps on. *)
Lemma rounds_serial (n : nat) (s : Z) :
  0 <= s < 2 ^ 32 ->
  apply_mutations (Demo.dp_at_serial s) (Demo.rounds n)
  = (Demo.dp_at_serial (uint32 (s + 2 * Z.of_nat n)), 2 * Z.of_nat n).
Proof.
  revert s. induction n as [| n IH]; intros s Hs.
  - cbn [Demo.rounds apply_mutations]. rewrite Z.add_0_r, uint32_small by assumption.
    reflexivity.
  - cbn [Demo.rounds apply_mutations].
    pose proof (add_del_round s) as Hround.
    destruct (add_del_round_succeeds s) as [Hadd Hdel].
    destruct (apply_mutation (Demo.dp_at_serial s)
                (PORT_ADD (Demo.dev "p1") 1 Demo.calls_ok)) as [dp1 e1].
    cbn [fst snd] in Hround, Hadd, Hdel.
    destruct (apply_mutation dp1 (PORT_DEL 1)) as [dp2 e2].
    cbn [fst snd] in Hround, Hdel. subst e1 e2 dp2.
    rewrite IH by apply uint32_range.
    change (0 =? 0) with true. cbv iota. f_equal.
    + f_equal. unfold uint32. pow2_consts. Z.div_mod_to_equations. lia.
    + lia.
Qed.

(** The datapath whose serial is 2^32 - 1 is [Demo.dp_opened] after 2^31 - 1
    rounds, in which every call succeeded. *)
Lemma wrapping_after_rounds :
  apply_mutations Demo.dp_opened (Demo.rounds (Z.to_nat 2147483647))
  = (Demo.dp_wrapping, 4294967294).
Proof.
  change Demo.dp_opened with (Demo.dp_at_serial 1).
  rewrite rounds_serial by (split; [discriminate | reflexivity]).
  rewrite Z2Nat.id by discriminate. reflexivity.
Qed.

(** C8 as stated fails where the counter wraps.  The datapath "d" is
    created and opened; 2^32 - 2 successful calls that add and delete port 1
    take its serial to 2^32 - 1; there, adding a port succeeds and the
    serial is 0 afterwards, which is not greater. *)
Lemma serial_wraps_to_zero :
  create_dp_netdev "d" (dpif_dummy_class "dummy") Demo.calls_ok = (0, Some Demo.dp0)
  /\ fst (create_dpif_netdev Demo.dp0) = Demo.dp_opened
  /\ apply_mutations Demo.dp_opened (Demo.rounds (Z.to_nat 2147483647))
     = (Demo.dp_wrapping, 4294967294)
  /\ serial Demo.dp_wrapping = 4294967295
  /\ snd (apply_mutation Demo.dp_wrapping
            (PORT_ADD (Demo.dev "p1") UINT32_MAX Demo.calls_ok)) = 0
  /\ serial (fst (apply_mutation Demo.dp_wrapping
                    (PORT_ADD (Demo.dev "p1") UINT32_MAX Demo.calls_ok))) = 0
  /\ ~ serial Demo.dp_wrapping
       < serial (fst (apply_mutation Demo.dp_wrapping
                        (PORT_ADD (Demo.dev "p1") UINT32_MAX Demo.calls_ok))).
Proof.
  split; [reflexivity |]. split; [reflexivity |].
  split; [exact wrapping_after_rounds |].
  split; [reflexivity |]. split; [reflexivity |]. split; [reflexivity |].
  vm_compute. discriminate.
Qed.

(** The queue is first-in first-out at the ACTION queue of [Demo.dp3]. *)
Lemma output_userspace_appends_witness :
  queue_ok (queue_at Demo.dp3 DPIF_UC_ACTION)
  /\ exists u,
       queue_contents
         (queue_at (fst (dp_netdev_output_userspace Demo.dp3 Demo.frame64
                           DPIF_UC_ACTION (1, take 14 Demo.frame64) (Some [x07])))
                   DPIF_UC_ACTION)
       = queue_contents (queue_at Demo.dp3 DPIF_UC_ACTION) ++ [Some u]
       /\ upcall_packet u = Demo.frame64
       /\ upcall_userdata u = Some [x07].
Proof.
  assert (Hok : queue_ok (queue_at Demo.dp3 DPIF_UC_ACTION)).
  { vm_compute. repeat split; discriminate. }
  destruct (output_userspace_appends Demo.dp3 Demo.frame64 DPIF_UC_ACTION
              (1, take 14 Demo.frame64) (Some [x07]) Hok) as (Hpush & _ & _).
  destruct (Hpush eq_refl) as (u & Hc & _ & Hp & _ & Hd).
  split; [exact Hok |]. exists u. split; [exact Hc |]. split; [exact Hp |].
  apply Hd. reflexivity.
Defined.

(** The oldest of the 128 records of [Demo.machine_full] is received. *)
Lemma recv_takes_oldest_witness :
  queues_ok (m_dp Demo.machine_full)
  /\ snd (fst (dpif_netdev_recv (m_dp Demo.machine_full))) = 0
  /\ (upcall_packet <$> snd (dpif_netdev_recv (m_dp Demo.machine_full)))
     = Some Demo.frame64
  /\ length (queue_contents
               (queue_miss (fst (fst (dpif_netdev_recv (m_dp Demo.machine_full))))))
     = 127%nat.
Proof.
  assert (Hok : queues_ok (m_dp Demo.machine_full)).
  { vm_compute. repeat split; discriminate. }
  pose proof (recv_takes_oldest (m_dp Demo.machine_full) Hok) as H.
  cbv zeta in H.
  destruct (queue_contents (queue_miss (m_dp Demo.machine_full)))
    as [| u rest] eqn:Ec.
  - apply (f_equal length) in Ec. vm_compute in Ec. discriminate Ec.
  - destruct H as (H1 & H2 & H3 & _).
    pose proof (f_equal head Ec) as Eh. vm_compute in Eh. injection Eh as <-.
    pose proof (f_equal length Ec) as El. vm_compute in El. injection El as El.
    split; [exact Hok |]. split; [exact H1 |].
    split; [rewrite H2; reflexivity |].
    rewrite H3. symmetry. exact El.
Defined.

(** A burst of two on a queue with room for one: one queued, one lost. *)
Lemma miss_burst_accounting_witness :
  queue_ok (queue_miss (m_dp Demo.machine_room1))
  /\ queue_len (queue_miss (m_dp Demo.machine_room1)) = 127
  /\ exists m',
       port_input_each Demo.burst2 0 Demo.machine_room1 = Done m'
       /\ n_missed (m_dp m') = 130
       /\ n_lost (m_dp m') = 1
       /\ queue_packets (queue_miss (m_dp m'))
          = queue_packets (queue_miss (m_dp Demo.machine_room1))
            ++ [Some Demo.frame64].
Proof.
  assert (Hok : queue_ok (queue_miss (m_dp Demo.machine_room1))).
  { vm_compute. repeat split; discriminate. }
  assert (Hall : Forall (fun pf => ETH_HEADER_LEN <= ofpbuf_size (snd pf)
                           /\ dp_netdev_lookup_flow (m_dp Demo.machine_room1)
                                (flow_extract (snd pf) (port_no (fst pf))) = None)
                        Demo.burst2).
  { repeat constructor; vm_compute; discriminate. }
  assert (B1 : 0 <= n_missed (m_dp Demo.machine_room1))
    by (vm_compute; discriminate).
  assert (B2 : n_missed (m_dp Demo.machine_room1) + Z.of_nat (length Demo.burst2)
               <= LLONG_MAX) by (vm_compute; discriminate).
  assert (B3 : 0 <= n_lost (m_dp Demo.machine_room1))
    by (vm_compute; discriminate).
  assert (B4 : n_lost (m_dp Demo.machine_room1) + Z.of_nat (length Demo.burst2)
               <= LLONG_MAX) by (vm_compute; discriminate).
  destruct (miss_burst_accounting Demo.burst2 0 Demo.machine_room1 Hok Hall
              B1 B2 B3 B4) as (m' & Hrun & Hnm & Hnl & Hqp & _).
  split; [exact Hok |]. split; [vm_compute; reflexivity |].
  exists m'. split; [exact Hrun |].
  split; [rewrite Hnm; vm_compute; reflexivity |].
  split; [rewrite Hnl; vm_compute; reflexivity |].
  rewrite Hqp. apply (f_equal (app _)). vm_compute. reflexivity.
Defined.

(** An execute of OUTPUT(2) on [Demo.dp3]: the frame leaves on port 2 and
    the datapath is as it was. *)
Lemma execute_keeps_datapath_witness :
  dpif_netdev_execute (Demo.machine_of Demo.dp3 []) Demo.execute_s1
  = Done (Demo.machine_executed, 0)
  /\ flow_table (m_dp Demo.machine_executed) = flow_table Demo.dp3
  /\ ports (m_dp Demo.machine_executed) = ports Demo.dp3
  /\ queue_miss (m_dp Demo.machine_executed) = queue_miss Demo.dp3
  /\ Demo.sent_on Demo.machine_executed = [2].
Proof.
  assert (E : dpif_netdev_execute (Demo.machine_of Demo.dp3 []) Demo.execute_s1
              = Done (Demo.machine_executed, 0)) by (vm_compute; reflexivity).
  destruct (execute_keeps_datapath _ _ _ _ E) as (H1 & _ & _ & H4 & H5 & _).
  split; [exact E |]. split; [exact H1 |]. split; [exact H5 |].
  split; [exact H4 |]. vm_compute. reflexivity.
Defined.


Lemma ports_ok_dp0 : ports_ok Demo.dp0.
Proof.
  apply (ports_ok_create "d" (dpif_dummy_class "dummy") Demo.calls_ok). reflexivity.
Qed.

Lemma ports_ok_dp3 : ports_ok Demo.dp3.
Proof. unfold Demo.dp3. apply ports_ok_mutations, ports_ok_dp0. Qed.

(** [Demo.dp_in_use] comes from [Demo.dp0] by an open, two additions of
    ports and a flow put. *)
Lemma calls_to_dp_in_use : datapath_calls Demo.dp0 Demo.dp_in_use.
Proof.
  unfold Demo.dp_in_use.
  eapply calls_more; [| apply call_flow_put].
  eapply calls_more; [| apply call_port_set].
  eapply calls_more; [| apply call_port_set].
  eapply calls_more; [apply calls_none | apply call_open].
Qed.

(** The datapath "d" as it is created, and in use behind a handle with
    three ports and a flow, is within the invariant of the ports. *)
Lemma ports_ok_kept_witness :
  create_dp_netdev "d" (dpif_dummy_class "dummy") Demo.calls_ok = (0, Some Demo.dp0)
  /\ ports_ok Demo.dp0
  /\ datapath_calls Demo.dp0 Demo.dp_in_use
  /\ open_cnt Demo.dp_in_use = 1
  /\ length (flow_table Demo.dp_in_use) = 1%nat
  /\ length (port_list Demo.dp_in_use) = 3%nat
  /\ ports_ok Demo.dp_in_use
  /\ Z.of_nat (length (port_list Demo.dp_in_use)) <= MAX_PORTS.
Proof.
  destruct ports_ok_kept as (Hcreate & Hcalls & _).
  assert (Hc : create_dp_netdev "d" (dpif_dummy_class "dummy") Demo.calls_ok
               = (0, Some Demo.dp0)) by reflexivity.
  pose proof (Hcreate "d" (dpif_dummy_class "dummy") Demo.calls_ok Demo.dp0 Hc) as H0.
  split; [exact Hc |]. split; [exact H0 |]. split; [exact calls_to_dp_in_use |].
  split; [reflexivity |]. split; [reflexivity |]. split; [reflexivity |].
  exact (Hcalls Demo.dp0 Demo.dp_in_use H0 calls_to_dp_in_use).
Defined.

(** The LOCAL port of the datapath "d" as it is created, and in use behind
    a handle with three ports and a flow. *)
Lemma local_port_stays_witness :
  create_dp_netdev "d" (dpif_dummy_class "dummy") Demo.calls_ok = (0, Some Demo.dp0)
  /\ ports_ok Demo.dp0
  /\ local_port_ok Demo.dp0
  /\ datapath_calls Demo.dp0 Demo.dp_in_use
  /\ open_cnt Demo.dp_in_use = 1
  /\ exists p,
       ports Demo.dp_in_use !! OVSP_LOCAL = Some p
       /\ port_no p = OVSP_LOCAL
       /\ port_type p = "internal"
       /\ netdev_vport_get_dpif_port (port_netdev p) = "d".
Proof.
  destruct local_port_stays as (Hcreate & Hcalls).
  assert (Hc : create_dp_netdev "d" (dpif_dummy_class "dummy") Demo.calls_ok
               = (0, Some Demo.dp0)) by reflexivity.
  pose proof (Hcreate "d" (dpif_dummy_class "dummy") Demo.calls_ok Demo.dp0 Hc) as H0.
  split; [exact Hc |]. split; [exact ports_ok_dp0 |]. split; [exact H0 |].
  split; [exact calls_to_dp_in_use |]. split; [reflexivity |].
  exact (Hcalls Demo.dp0 Demo.dp_in_use ports_ok_dp0 H0 calls_to_dp_in_use).
Defined.

(** The first port added to [Demo.dp0] gets number 1 and is found by it. *)
Lemma port_add_then_query_witness :
  dpif_netdev_port_add Demo.dp0 (Demo.dev "p1") UINT32_MAX Demo.calls_ok
  = (fst (apply_mutation Demo.dp0 (PORT_ADD (Demo.dev "p1") UINT32_MAX Demo.calls_ok)),
     1, 0)
  /\ dpif_netdev_port_query_by_number
       (fst (apply_mutation Demo.dp0
               (PORT_ADD (Demo.dev "p1") UINT32_MAX Demo.calls_ok))) 1 true
     = (0, Some {| dpif_port_name := "p1"; dpif_port_type := "dummy";
                   dpif_port_no := 1 |})
  /\ dpif_netdev_port_query_by_number Demo.dp0 1 true = (ENOENT, None).
Proof.
  assert (E : dpif_netdev_port_add Demo.dp0 (Demo.dev "p1") UINT32_MAX Demo.calls_ok
              = (fst (apply_mutation Demo.dp0
                        (PORT_ADD (Demo.dev "p1") UINT32_MAX Demo.calls_ok)), 1, 0))
    by (vm_compute; reflexivity).
  destruct (port_add_then_query _ _ _ _ _ _ E) as (_ & H2 & H3 & _).
  split; [exact E |]. split; [exact H3 | exact H2].
Defined.

(** Port 2 of [Demo.dp3] is deleted: it is no longer found, port 1 is. *)
Lemma port_del_then_query_witness :
  ports_ok Demo.dp3
  /\ snd (dpif_netdev_port_del Demo.dp3 2) = 0
  /\ dpif_netdev_port_query_by_number (fst (dpif_netdev_port_del Demo.dp3 2)) 2 true
     = (ENOENT, None)
  /\ dpif_netdev_port_query_by_number (fst (dpif_netdev_port_del Demo.dp3 2)) 1 true
     = dpif_netdev_port_query_by_number Demo.dp3 1 true
  /\ snd (dpif_netdev_port_del Demo.dp3 OVSP_LOCAL) = EINVAL.
Proof.
  destruct (port_del_then_query Demo.dp3 2 ports_ok_dp3) as (_ & _ & _ & Hdel).
  assert (E : snd (dpif_netdev_port_del Demo.dp3 2) = 0) by (vm_compute; reflexivity).
  destruct (Hdel E) as (_ & Hgone & Hothers & _).
  destruct (port_del_then_query Demo.dp3 OVSP_LOCAL ports_ok_dp3) as (_ & Hinval & _).
  split; [exact ports_ok_dp3 |]. split; [exact E |]. split; [apply Hgone |].
  split; [apply Hothers; discriminate |]. apply Hinval. left. reflexivity.
Defined.

(** The device "p2" of [Demo.dp3] is found by name and by the number 2. *)
Lemma port_query_by_name_agrees_witness :
  ports_ok Demo.dp3
  /\ dpif_netdev_port_query_by_name Demo.dp3 "p2" true
     = (0, Some {| dpif_port_name := "p2"; dpif_port_type := "dummy";
                   dpif_port_no := 2 |})
  /\ dpif_netdev_port_query_by_number Demo.dp3 2 true
     = dpif_netdev_port_query_by_name Demo.dp3 "p2" true.
Proof.
  pose proof (port_query_by_name_agrees Demo.dp3 "p2" ports_ok_dp3) as H.
  assert (E : dpif_netdev_port_query_by_name Demo.dp3 "p2" true
              = (0, Some {| dpif_port_name := "p2"; dpif_port_type := "dummy";
                            dpif_port_no := 2 |})) by (vm_compute; reflexivity).
  rewrite E in H. destruct H as (_ & _ & H).
  split; [exact ports_ok_dp3 |]. split; [exact E |]. rewrite E. exact H.
Defined.

(** The dump of [Demo.dp3]: the LOCAL port and the three ports added. *)
Lemma port_dump_lists_all_witness :
  ports_ok Demo.dp3
  /\ port_dump_all 257 Demo.dp3 (fst dpif_netdev_port_dump_start)
     = Some [ {| dpif_port_name := "d"; dpif_port_type := "internal"; dpif_port_no := 0 |};
              {| dpif_port_name := "p1"; dpif_port_type := "dummy"; dpif_port_no := 1 |};
              {| dpif_port_name := "p2"; dpif_port_type := "dummy"; dpif_port_no := 2 |};
              {| dpif_port_name := "p3"; dpif_port_type := "dummy"; dpif_port_no := 3 |} ]
  /\ length (port_list Demo.dp3) = 4%nat.
Proof.
  destruct (port_dump_lists_all Demo.dp3) as [Hdump Hperm].
  specialize (Hperm ports_ok_dp3). apply Permutation_length in Hperm.
  rewrite !length_fmap in Hperm.
  split; [exact ports_ok_dp3 |]. split.
  - etransitivity; [exact Hdump |]. vm_compute. reflexivity.
  - rewrite <- Hperm. vm_compute. reflexivity.
Defined.

(** A handle opened on [Demo.dp_opened] is woken by the addition of a
    port. *)
Lemma port_change_wakes_witness :
  0 <= serial Demo.dp_opened < 2 ^ 32
  /\ dp_serial Demo.handle0 = serial Demo.dp_opened
  /\ dpif_netdev_port_poll_wait Demo.dp_opened Demo.handle0 = false
  /\ dpif_netdev_port_poll_wait
       (fst (apply_mutation Demo.dp_opened
               (PORT_ADD (Demo.dev "p1") UINT32_MAX Demo.calls_ok)))
       Demo.handle0 = true.
Proof.
  assert (Hs : 0 <= serial Demo.dp_opened < 2 ^ 32).
  { vm_compute. split; [discriminate | reflexivity]. }
  assert (Hsync : dp_serial Demo.handle0 = serial Demo.dp_opened) by reflexivity.
  destruct (port_change_wakes Demo.dp_opened Demo.handle0
              (PORT_ADD (Demo.dev "p1") UINT32_MAX Demo.calls_ok) Hs Hsync)
    as (H1 & H2 & _).
  split; [exact Hs |]. split; [exact Hsync |]. split; [exact H1 |].
  rewrite H2. vm_compute. reflexivity.
Defined.

(** The put of S1 on the empty table of [Demo.dp3] keeps the keys
    distinct. *)
Lemma flow_keys_unique_kept_witness :
  flow_keys_unique Demo.dp3 /\ flow_keys_unique Demo.dp_s1.
Proof.
  assert (H3 : flow_keys_unique Demo.dp3).
  { unfold flow_keys_unique. change (flow_table Demo.dp3) with (@nil dp_netdev_flow).
    constructor. }
  destruct (flow_keys_unique_kept Demo.dp3 H3) as (Hput & _).
  split; [exact H3 |]. exact (Hput Demo.put_s1).
Defined.

(** The flow of S1 is found after its put, with zero statistics. *)
Lemma flow_put_then_get_witness :
  dpif_netdev_flow_put Demo.dp3 Demo.put_s1 = (Demo.dp_s1, 0, None)
  /\ dpif_netdev_flow_get Demo.dp_s1 Demo.key1 true true
     = (0, Some [OVS_ACTION_ATTR_OUTPUT 2], Some zero_stats)
  /\ hmap_count (flow_table Demo.dp_s1) = 1.
Proof.
  assert (E : dpif_netdev_flow_put Demo.dp3 Demo.put_s1 = (Demo.dp_s1, 0, None))
    by reflexivity.
  destruct (flow_put_then_get _ _ _ _ E) as (k & stats & Hk & Hget & Hcase & _).
  assert (Ek : k = (1, take 14 Demo.frame64)).
  { assert (Hk' : dpif_netdev_flow_from_nlattrs (put_key Demo.put_s1)
                  = (0, (1, take 14 Demo.frame64) : flow)) by reflexivity.
    rewrite Hk' in Hk. injection Hk as <-. reflexivity. }
  subst k.
  change (dp_netdev_lookup_flow Demo.dp3 (1, take 14 Demo.frame64))
    with (@None dp_netdev_flow) in Hcase.
  destruct Hcase as (_ & -> & Hcount & _).
  split; [exact E |]. split; [exact Hget |]. rewrite Hcount. reflexivity.
Defined.

(** The flow of S1 is gone after its delete. *)
Lemma flow_del_then_get_witness :
  flow_keys_unique Demo.dp_s1
  /\ snd (fst (dpif_netdev_flow_del Demo.dp_s1 Demo.del_s1)) = 0
  /\ dpif_netdev_flow_get (fst (fst (dpif_netdev_flow_del Demo.dp_s1 Demo.del_s1)))
       Demo.key1 true true
     = (ENOENT, None, None)
  /\ dpif_netdev_flow_get Demo.dp_s1 Demo.key1 true false
     = (0, Some [OVS_ACTION_ATTR_OUTPUT 2], None).
Proof.
  assert (Hu : flow_keys_unique Demo.dp_s1).
  { unfold flow_keys_unique.
    change (key <$> flow_table Demo.dp_s1) with [(1, take 14 Demo.frame64) : flow].
    apply NoDup_singleton. }
  assert (E : dpif_netdev_flow_del Demo.dp_s1 Demo.del_s1
              = (fst (fst (dpif_netdev_flow_del Demo.dp_s1 Demo.del_s1)), 0,
                 Some zero_stats)) by reflexivity.
  destruct (flow_del_then_get _ _ _ _ Hu E) as (k & f & _ & _ & _ & Hgone & _).
  split; [exact Hu |]. split; [reflexivity |]. split; [apply Hgone | reflexivity].
Defined.

(** The empty key is not a flow key: a put under it is refused. *)
Lemma bad_key_rejected_witness :
  fst (dpif_netdev_flow_from_nlattrs []) <> 0
  /\ dpif_netdev_flow_put Demo.dp3
       {| put_flags := DPIF_FP_CREATE; put_key := [];
          put_actions := [OVS_ACTION_ATTR_OUTPUT 2]; put_stats := true |}
     = (Demo.dp3, EINVAL, None)
  /\ dpif_netdev_execute (Demo.machine_of Demo.dp3 [])
       {| execute_packet := Demo.frame64; execute_key := [];
          execute_actions := [OVS_ACTION_ATTR_OUTPUT 2] |}
     = Done (Demo.machine_of Demo.dp3 [], EINVAL).
Proof.
  assert (Hbad : fst (dpif_netdev_flow_from_nlattrs []) <> 0) by discriminate.
  destruct (bad_key_rejected Demo.dp3 [] Hbad) as (Hput & _ & _ & Hex).
  split; [exact Hbad |]. split; [apply Hput | apply Hex].
Defined.

Lemma triple_first {A B C : Type} (a a' : A) (b b' : B) (c c' : C) :
  (a, b, c) = (a', b', c') -> a = a'.
Proof. congruence. Qed.

(** The scenario S1 from its start: the frame misses on [Demo.dp3], the
    flow is put under the key of the record queued, and the same frame then
    hits and is counted by the flow. *)
Lemma miss_install_hit_witness :
  dp_netdev_lookup_flow Demo.dp3 (flow_extract Demo.frame64 1) = None
  /\ dp_netdev_port_input (Demo.machine_of Demo.dp3 []) 0 Demo.port1 Demo.frame64
     = Done Demo.machine_missed
  /\ dpif_netdev_flow_put (m_dp Demo.machine_missed) Demo.put_s1
     = (Demo.dp_installed, 0, None)
  /\ exists m3,
       dp_netdev_port_input (set_m_dp Demo.dp_installed Demo.machine_missed) 9
         Demo.port1 Demo.frame64 = Done m3
       /\ n_hit (m_dp m3) = 1
       /\ n_missed (m_dp m3) = 1
       /\ dp_netdev_lookup_flow (m_dp m3) (flow_extract Demo.frame64 1)
          = Some {| key := (1, take 14 Demo.frame64) : flow; used := 9;
                    packet_count := 1; byte_count := 64; tcp_flags := 16;
                    actions := [OVS_ACTION_ATTR_OUTPUT 2] |}.
Proof.
  assert (Hlook : dp_netdev_lookup_flow (m_dp (Demo.machine_of Demo.dp3 []))
                    (flow_extract Demo.frame64 (port_no Demo.port1)) = None)
    by reflexivity.
  assert (Hsize : ETH_HEADER_LEN <= ofpbuf_size Demo.frame64 <= LLONG_MAX)
    by (split; discriminate).
  assert (Hkey : dpif_netdev_flow_from_nlattrs
                   (odp_flow_key_from_flow
                      (flow_extract Demo.frame64 (port_no Demo.port1))
                      (flow_in_port (flow_extract Demo.frame64 (port_no Demo.port1))))
                 = (0, flow_extract Demo.frame64 (port_no Demo.port1)))
    by reflexivity.
  assert (Hok : queue_ok (queue_miss (m_dp (Demo.machine_of Demo.dp3 [])))).
  { vm_compute. repeat split; discriminate. }
  assert (Hroom : queue_len (queue_miss (m_dp (Demo.machine_of Demo.dp3 [])))
                  < MAX_QUEUE_LEN) by (vm_compute; reflexivity).
  assert (Hcap : hmap_count (flow_table (m_dp (Demo.machine_of Demo.dp3 [])))
                 < MAX_FLOWS) by (vm_compute; reflexivity).
  assert (Hnm : 0 <= n_missed (m_dp (Demo.machine_of Demo.dp3 [])) < LLONG_MAX)
    by (vm_compute; split; [discriminate | reflexivity]).
  assert (Hnl : 0 <= n_lost (m_dp (Demo.machine_of Demo.dp3 [])) < LLONG_MAX)
    by (vm_compute; split; [discriminate | reflexivity]).
  assert (Hnh : 0 <= n_hit (m_dp (Demo.machine_of Demo.dp3 [])) < LLONG_MAX)
    by (vm_compute; split; [discriminate | reflexivity]).
  destruct (miss_install_hit (Demo.machine_of Demo.dp3 []) 0 9 Demo.port1 Demo.frame64
              [OVS_ACTION_ATTR_OUTPUT 2] Hsize Hlook Hkey Hok Hroom Hcap Hnm Hnl Hnh)
    as (m1 & u & dp2 & Hin & _ & _ & Hku & Hput & Hhit).
  assert (E1 : dp_netdev_port_input (Demo.machine_of Demo.dp3 []) 0 Demo.port1
                 Demo.frame64 = Done Demo.machine_missed) by (vm_compute; reflexivity).
  rewrite E1 in Hin. injection Hin as <-.
  rewrite Hku in Hput.
  assert (E2 : dpif_netdev_flow_put (m_dp Demo.machine_missed) Demo.put_s1
               = (Demo.dp_installed, 0, None)) by (vm_compute; reflexivity).
  change (dpif_netdev_flow_put (m_dp Demo.machine_missed) Demo.put_s1 = (dp2, 0, None))
    in Hput.
  pose proof (triple_first _ _ _ _ _ _ (eq_trans (eq_sym E2) Hput)) as Edp.
  destruct Edp. cbv zeta in Hhit.
  match type of Hhit with
  | match ?t with Done _ => _ | Fault _ => _ end =>
      assert (Hd : match t with Done _ => True | Fault _ => False end)
        by (vm_compute; exact I);
      destruct t as [s | e]; [| destruct Hd]
  end.
  destruct Hhit as (m3 & Hin3 & Hdp3 & _ & Hlook3 & Hnm3).
  split; [reflexivity |]. split; [exact E1 |]. split; [exact E2 |].
  exists m3. split; [exact Hin3 |].
  split; [rewrite Hdp3; reflexivity |]. split; [exact Hnm3 |]. exact Hlook3.
Defined.

Lemma registry_empty_ok : registry_ok (∅ : gmap string dp_netdev).
Proof. intros name dp H. rewrite lookup_empty in H. discriminate H. Qed.

Lemma registry1_ok : registry_ok Demo.registry1.
Proof.
  intros name dp H. unfold Demo.registry1 in H.
  apply lookup_insert_Some in H as [[<- <-] | [_ H]].
  - split; [reflexivity |]. split; [split; discriminate |]. discriminate.
  - rewrite lookup_empty in H. discriminate H.
Qed.

Lemma registry1_lookup : Demo.registry1 !! dpif_dp Demo.handle0 = Some Demo.dp_opened.
Proof. apply lookup_insert_eq. Qed.

(** Creating "d" in the empty registry, and destroying it through its
    handle, keep the registry as the code expects it. *)
Lemma registry_ok_kept_witness :
  registry_ok Demo.registry1
  /\ registry_ok (fst (fst (dpif_netdev_open ∅ (dpif_dummy_class "dummy") "d" true
                              Demo.calls_ok)))
  /\ registry_ok (fst (dpif_netdev_destroy Demo.registry1 Demo.handle0)).
Proof.
  destruct (registry_ok_kept ∅ registry_empty_ok) as (Hopen & _).
  destruct (registry_ok_kept Demo.registry1 registry1_ok) as (_ & _ & Hdestroy).
  split; [exact registry1_ok |]. split.
  - apply Hopen. intros dp H. rewrite lookup_empty in H. discriminate H.
  - apply Hdestroy. intros dp H. rewrite registry1_lookup in H.
    injection H as <-. reflexivity.
Defined.

(** "d" is created in the empty registry and its handle closed: the
    datapath stays registered, as created. *)
Lemma open_close_round_trip_witness :
  registry_ok (∅ : gmap string dp_netdev)
  /\ dpif_netdev_open ∅ (dpif_dummy_class "dummy") "d" true Demo.calls_ok
     = (Demo.registry1, 0, Some Demo.handle0)
  /\ dpif_netdev_close Demo.registry1 Demo.handle0 = CLOSED (<["d" := Demo.dp0]> ∅).
Proof.
  assert (Hvac : forall dp : dp_netdev,
             (∅ : gmap string dp_netdev) !! "d" = Some dp -> open_cnt dp < INT_MAX).
  { intros dp H. rewrite lookup_empty in H. discriminate H. }
  pose proof (open_close_round_trip ∅ (dpif_dummy_class "dummy") "d" true
                Demo.calls_ok registry_empty_ok Hvac) as H.
  assert (E : dpif_netdev_open ∅ (dpif_dummy_class "dummy") "d" true Demo.calls_ok
              = (Demo.registry1, 0, Some Demo.handle0)) by reflexivity.
  rewrite E, lookup_empty in H.
  destruct H as (_ & _ & _ & _ & dp0 & Hcreate & Hclose).
  assert (Edp : dp0 = Demo.dp0).
  { assert (Hc : create_dp_netdev "d" (dpif_dummy_class "dummy") Demo.calls_ok
                 = (0, Some Demo.dp0)) by reflexivity.
    rewrite Hc in Hcreate. injection Hcreate as <-. reflexivity. }
  subst dp0.
  split; [exact registry_empty_ok |]. split; [exact E | exact Hclose].
Defined.

(** "d", open once, is destroyed and closed: the name is free again. *)
Lemma destroy_then_close_witness :
  registry_ok Demo.registry1
  /\ Demo.registry1 !! dpif_dp Demo.handle0 = Some Demo.dp_opened
  /\ dpif_netdev_close (fst (dpif_netdev_destroy Demo.registry1 Demo.handle0))
       Demo.handle0
     = CLOSED (delete (dpif_dp Demo.handle0) Demo.registry1)
  /\ dpif_netdev_open (delete (dpif_dp Demo.handle0) Demo.registry1)
       (dpif_dummy_class "dummy") (dpif_dp Demo.handle0) false Demo.calls_ok
     = (delete (dpif_dp Demo.handle0) Demo.registry1, ENODEV, None).
Proof.
  destruct (destroy_then_close Demo.registry1 Demo.handle0 Demo.dp_opened
              registry1_ok registry1_lookup) as (_ & _ & Hlast & _).
  destruct (Hlast eq_refl) as [Hclose Hopen].
  split; [exact registry1_ok |]. split; [exact registry1_lookup |].
  split; [exact Hclose | apply Hopen].
Defined.

Lemma ports_ok_machine_ran : ports_ok (m_dp Demo.machine_ran).
Proof.
  apply (ports_ok_fields Demo.dp3); [| | exact ports_ok_dp3];
    vm_compute; reflexivity.
Qed.

(** [Demo.machine_ran] holds a flow, four ports and a queued record;
    freeing its datapath leaves none. *)
Lemma free_releases_all_witness :
  ports_ok (m_dp Demo.machine_ran)
  /\ queues_ok (m_dp Demo.machine_ran)
  /\ length (flow_table (m_dp Demo.machine_ran)) = 1%nat
  /\ length (port_list (m_dp Demo.machine_ran)) = 4%nat
  /\ length (queue_contents (queue_miss (m_dp Demo.machine_ran))) = 1%nat
  /\ flow_table (dp_netdev_free (m_dp Demo.machine_ran)) = []
  /\ port_list (dp_netdev_free (m_dp Demo.machine_ran)) = []
  /\ queue_contents (queue_miss (dp_netdev_free (m_dp Demo.machine_ran))) = [].
Proof.
  assert (Hq : queues_ok (m_dp Demo.machine_ran)).
  { vm_compute. repeat split; discriminate. }
  destruct (free_releases_all (m_dp Demo.machine_ran) ports_ok_machine_ran Hq)
    as (H1 & _ & H3 & H4 & _).
  split; [exact ports_ok_machine_ran |]. split; [exact Hq |].
  split; [vm_compute; reflexivity |]. split; [vm_compute; reflexivity |].
  split; [vm_compute; reflexivity |].
  split; [exact H1 |]. split; [exact H3 | exact H4].
Defined.

(** The 128 records of [Demo.machine_full] are purged. *)
Lemma recv_purge_then_wait_witness :
  queues_ok (m_dp Demo.machine_full)
  /\ dpif_netdev_recv_wait false true (m_dp Demo.machine_full) = true
  /\ dpif_netdev_recv_wait false true
       (dpif_netdev_recv_purge (m_dp Demo.machine_full)) = false
  /\ dpif_netdev_recv_wait true true
       (dpif_netdev_recv_purge (m_dp Demo.machine_full)) = true
  /\ snd (fst (dpif_netdev_recv (dpif_netdev_recv_purge (m_dp Demo.machine_full))))
     = EAGAIN
  /\ n_lost (dpif_netdev_recv_purge (m_dp Demo.machine_full)) = 0.
Proof.
  assert (Hok : queues_ok (m_dp Demo.machine_full)).
  { vm_compute. repeat split; discriminate. }
  destruct (recv_purge_then_wait (m_dp Demo.machine_full) Hok)
    as (Hwait & Hrecv & _ & _ & _ & Hl).
  destruct (Hwait true) as (_ & Hw & Hp & _ & Ht).
  split; [exact Hok |]. split; [apply Hw; vm_compute; reflexivity |].
  split; [exact Hp |]. split; [exact Ht |].
  split; [rewrite Hrecv; reflexivity |]. rewrite Hl. vm_compute. reflexivity.
Defined.
